(** * bfsi-agentic-demo: underwriting rules and the loan conversation

    A shallow embedding of [underwriting.py], [tools.py], [agents.py] and
    the conversation logic of [app.py], followed by the properties the
    specification states about them and by further properties of the
    code.

    Modelling conventions.
    - Python [float] values are exact rationals ([Q]): the arithmetic and
      the comparisons of the source are carried out without rounding, and
      a statement about a parsed or computed number is to be read with
      the double the code has in its place.  Where the doubles change
      what the code does, they are modelled: [parse_tenure] raises on a
      number with no finite double, [format_currency] spells out
      infinities and rounds large integers, and [compute_emi_f64] follows
      [compute_emi] on binary64 floats.  Python [int] is [Z].
    - A [dict] whose keys are fixed by the program is a record of [option]
      fields; [None] is an absent key.
    - An exception is a value of [pyerr] carried by [result].
    - Chat text is ASCII ([string]); each assistant message is a constructor
      of [Msg] holding the values its text interpolates. *)

From Stdlib Require Import ZArith QArith Qround Qabs Qpower Qfield Lqa Lia.
From Stdlib Require Import Bool List String Ascii.
From Stdlib Require Import Floats Uint63.
Import ListNotations.

Local Open Scope Q_scope.

(* ================================================================== *)
(** * Exceptions *)

Inductive pyerr : Type :=
| KeyError (key : string)
| ZeroDivisionError
| OverflowError.

Inductive result (A : Type) : Type :=
| Ok (a : A)
| Raise (e : pyerr).

Arguments Ok {A} a.
Arguments Raise {A} e.

Definition bind {A B : Type} (m : result A) (k : A -> result B) : result B :=
  match m with
  | Ok a => k a
  | Raise e => Raise e
  end.

Notation "x <- m ;; k" := (bind m (fun x => k))
  (at level 61, m at next level, right associativity).

(** [d[key]] on a dict: raises [KeyError] when the key is absent. *)
Definition getitem {A : Type} (key : string) (field : option A) : result A :=
  match field with
  | Some v => Ok v
  | None => Raise (KeyError key)
  end.

(** [key in d]. *)
Definition has_key {A : Type} (field : option A) : bool :=
  match field with
  | Some _ => true
  | None => false
  end.

(** [d.get(key, default)]. *)
Definition get_default {A : Type} (field : option A) (default : A) : A :=
  match field with
  | Some v => v
  | None => default
  end.

(* ================================================================== *)
(** * Comparisons of numbers: [==], [<=] and [<] *)

Definition Qeqb (x y : Q) : bool := Qeq_bool x y.
Definition Qleb (x y : Q) : bool := Qle_bool x y.
Definition Qltb (x y : Q) : bool := negb (Qle_bool y x).

(* ================================================================== *)
(** * underwriting.py *)

(** [compute_emi], with its arithmetic read over the rationals: [x / 0]
    and [0.0 ** negative] raise [ZeroDivisionError].  This is the value
    the decision rules and the pipeline are stated against; what the
    doubles of the code do to it is the subject of [compute_emi_f64]
    below. *)
Definition compute_emi (principal annual_rate_pct : Q) (tenure_months : Z)
  : result Q :=
  let r := annual_rate_pct / 12 / 100 in
  let n := tenure_months in
  if Qeqb r 0 then
    if (n =? 0)%Z then Raise ZeroDivisionError
    else Ok (principal / inject_Z n)
  else
    if Qeqb (1 + r) 0 && (n <? 0)%Z then Raise ZeroDivisionError
    else
      let num := principal * r * (1 + r) ^ n in
      let den := (1 + r) ^ n - 1 in
      if Qeqb den 0 then Raise ZeroDivisionError else Ok (num / den).

(** ** [compute_emi] on IEEE doubles

    The definition above reads the arithmetic of [compute_emi] over the
    rationals.  The code computes on binary64 floats; the definitions
    below follow it there, with the primitive floats of the kernel
    (IEEE 754 binary64, round to nearest even). *)

(** [float(n)] for an integer the double holds exactly.  Larger integers
    are rounded, or raise when they have no finite double; the model
    leaves them open ([None]). *)
Definition float_of_int (n : Z) : option float :=
  if (Z.abs n <=? 2 ^ 53)%Z then
    let m := PrimFloat.of_uint63 (Uint63.of_Z (Z.abs n)) in
    Some (if (n <? 0)%Z then PrimFloat.opp m else m)
  else None.

(** [x ** n] for a float [x] and an integer [n], as far as CPython's
    [float_pow] decides it itself: [x ** 0] is [1.0] and [1.0 ** n] is
    [1.0].  Every other case is the C library's [pow], whose rounding the
    language does not fix, and which may raise [OverflowError]; the model
    leaves it open ([None]). *)
Definition float_pow (x : float) (n : Z) : option float :=
  if (n =? 0)%Z then Some 1%float
  else if (2 ^ 53 <? Z.abs n)%Z then None
  else if PrimFloat.eqb x 1 then Some 1%float
  else None.

(** [compute_emi] on doubles; [None] where the result depends on the C
    library's [pow] or on the rounding of a large integer. *)
Definition compute_emi_f64 (principal annual_rate_pct : float)
           (tenure_months : Z) : option (result float) :=
  let r := (annual_rate_pct / 12 / 100)%float in
  let n := tenure_months in
  if PrimFloat.eqb r 0 then
    if (n =? 0)%Z then Some (Raise ZeroDivisionError)
    else
      match float_of_int n with
      | Some fn => Some (Ok (principal / fn)%float)
      | None => None
      end
  else
    match float_pow (1 + r)%float n with
    | Some pw =>
        let num := (principal * r * pw)%float in
        let den := (pw - 1)%float in
        if PrimFloat.eqb den 0 then Some (Raise ZeroDivisionError)
        else Some (Ok (num / den)%float)
    | None => None
    end.

Inductive Decision : Type :=
| APPROVE_INSTANT
| REQUIRE_SALARY
| REJECT.

(** The [details] dict returned next to the decision. *)
Record Details : Type := mkDetails {
  det_reason : option string;
  det_emi : option Q
}.

(** The [context] dict handed to the pipeline and to underwriting. *)
Record Context : Type := mkContext {
  ctx_customer_phone : option string;
  ctx_loan_amount : option Q;
  ctx_tenure_months : option Z;
  ctx_annual_rate_pct : option Q;
  ctx_monthly_salary : option Q;
  ctx_customer_name : option string;
  ctx_credit_score : option Z;
  ctx_pre_approved_limit : option Z;
  ctx_emi : option Q
}.

Definition evaluate_application (context : Context)
  : result (Decision * Details) :=
  phone <- getitem "customer_phone" (ctx_customer_phone context) ;;
  loan_amount <- getitem "loan_amount" (ctx_loan_amount context) ;;
  tenure <- getitem "tenure_months" (ctx_tenure_months context) ;;
  let annual_rate := get_default (ctx_annual_rate_pct context) 12 in
  let salary := get_default (ctx_monthly_salary context) 0 in
  credit_score <- getitem "credit_score" (ctx_credit_score context) ;;
  pre_limit <- getitem "pre_approved_limit" (ctx_pre_approved_limit context) ;;
  if (credit_score <? 700)%Z then
    Ok (REJECT, mkDetails (Some "Credit score below 700"%string) None)
  else if Qleb loan_amount (inject_Z pre_limit) then
    emi <- compute_emi loan_amount annual_rate tenure ;;
    Ok (APPROVE_INSTANT, mkDetails None (Some emi))
  else if Qleb loan_amount (inject_Z (2 * pre_limit)) then
    emi <- compute_emi loan_amount annual_rate tenure ;;
    if Qleb salary 0 then
      Ok (REQUIRE_SALARY,
          mkDetails (Some "Need salary slip to evaluate EMI threshold"%string)
                    (Some emi))
    else if Qleb emi ((1 # 2) * salary) then
      Ok (APPROVE_INSTANT, mkDetails None (Some emi))
    else
      Ok (REJECT, mkDetails (Some "EMI exceeds 50% of salary"%string) (Some emi))
  else
    Ok (REJECT,
        mkDetails (Some "Loan amount exceeds 2x pre-approved limit"%string) None).

(* ================================================================== *)
(** * tools.py *)

(** One record of [sample_data.json]["customers"].  [phone], [name] and
    [address] are read with [c[...]]; the other keys are read with
    [.get] and may be missing. *)
Record Customer : Type := mkCustomer {
  cust_phone : string;
  cust_name : string;
  cust_address : string;
  cust_city : option string;
  cust_credit_score : option Z;
  cust_pre_approved_limit : option Z;
  cust_monthly_salary : option Z
}.

Section DataProvider.

(** The customer list of [sample_data.json], which [_load_data] reads
    on every call; the file is not part of the sources, so the record
    set is a parameter. *)
Variable db : list Customer.

Definition crm_get_customer_by_phone (phone : string) : option Customer :=
  find (fun c => String.eqb (cust_phone c) phone) db.

Definition credit_bureau_get_score (phone : string) : Z :=
  match crm_get_customer_by_phone phone with
  | None => 0%Z
  | Some cust => get_default (cust_credit_score cust) 0%Z
  end.

Definition offer_mart_get_preapproved_limit (phone : string) : Z :=
  match crm_get_customer_by_phone phone with
  | None => 0%Z
  | Some cust => get_default (cust_pre_approved_limit cust) 0%Z
  end.

(* ================================================================ *)
(** * agents.py *)

Record Verification : Type := mkVerification {
  verified : bool;
  ver_name : string;
  ver_address : string
}.

Definition task_verify (phone : string) : Verification :=
  match crm_get_customer_by_phone phone with
  | None => mkVerification false "" ""
  | Some cust => mkVerification true (cust_name cust) (cust_address cust)
  end.

Record UwPayload : Type := mkUwPayload {
  uw_decision : Decision;
  uw_reason : option string;
  uw_emi : option Q
}.

Definition task_underwrite (context : Context) : result UwPayload :=
  r <- evaluate_application context ;;
  let '(decision, details) := r in
  Ok (mkUwPayload decision (det_reason details) (det_emi details)).

(** [task_sanction_pdf]: the letter is written to
    [output_dir / "sanction_<phone>.pdf"] and that path is returned; the
    file itself is outside the model. *)
Definition task_sanction_pdf (output_dir : string) (context : Context)
  : result string :=
  phone <- getitem "customer_phone" (ctx_customer_phone context) ;;
  let fname := ("sanction_" ++ phone ++ ".pdf")%string in
  let out := (output_dir ++ "/" ++ fname)%string in
  _ <- getitem "customer_name" (ctx_customer_name context) ;;
  _ <- getitem "customer_phone" (ctx_customer_phone context) ;;
  _ <- getitem "loan_amount" (ctx_loan_amount context) ;;
  _ <- getitem "tenure_months" (ctx_tenure_months context) ;;
  Ok out.

Inductive Status : Type :=
| KYC_FAILED
| STATUS_REQUIRE_SALARY
| STATUS_REJECT
| APPROVED.

(** The payload dict returned by [master_orchestrate]. *)
Record Payload : Type := mkPayload {
  pl_message : option string;
  pl_reason : option string;
  pl_emi : option Q;
  pl_pdf_path : option string
}.

Definition set_customer_name (v : string) (c : Context) : Context :=
  mkContext (ctx_customer_phone c) (ctx_loan_amount c) (ctx_tenure_months c)
    (ctx_annual_rate_pct c) (ctx_monthly_salary c) (Some v)
    (ctx_credit_score c) (ctx_pre_approved_limit c) (ctx_emi c).

Definition set_credit_score (v : Z) (c : Context) : Context :=
  mkContext (ctx_customer_phone c) (ctx_loan_amount c) (ctx_tenure_months c)
    (ctx_annual_rate_pct c) (ctx_monthly_salary c) (ctx_customer_name c)
    (Some v) (ctx_pre_approved_limit c) (ctx_emi c).

Definition set_pre_approved_limit (v : Z) (c : Context) : Context :=
  mkContext (ctx_customer_phone c) (ctx_loan_amount c) (ctx_tenure_months c)
    (ctx_annual_rate_pct c) (ctx_monthly_salary c) (ctx_customer_name c)
    (ctx_credit_score c) (Some v) (ctx_emi c).

(** [context["emi"] = uw.get("emi")]; a stored Python [None] and an
    absent key are both [None]. *)
Definition set_emi (v : option Q) (c : Context) : Context :=
  mkContext (ctx_customer_phone c) (ctx_loan_amount c) (ctx_tenure_months c)
    (ctx_annual_rate_pct c) (ctx_monthly_salary c) (ctx_customer_name c)
    (ctx_credit_score c) (ctx_pre_approved_limit c) v.

(** [master_orchestrate] mutates the dict it is given; the mutated dict
    is returned next to the status and payload. *)
Definition master_orchestrate (context : Context) (output_dir : string)
  : result (Status * Payload * Context) :=
  phone <- getitem "customer_phone" (ctx_customer_phone context) ;;
  let verify := task_verify phone in
  if negb (verified verify) then
    Ok (KYC_FAILED,
        mkPayload (Some "KYC verification failed. Please check phone."%string)
                  None None None,
        context)
  else
    let context := set_customer_name (ver_name verify) context in
    let score := credit_bureau_get_score phone in
    let pre := offer_mart_get_preapproved_limit phone in
    let context := set_credit_score score context in
    let context := set_pre_approved_limit pre context in
    uw <- task_underwrite context ;;
    let decision := uw_decision uw in
    let context := set_emi (uw_emi uw) context in
    match decision with
    | REJECT =>
        Ok (STATUS_REJECT, mkPayload None (uw_reason uw) None None, context)
    | REQUIRE_SALARY =>
        Ok (STATUS_REQUIRE_SALARY,
            mkPayload (Some "Please upload/provide salary to proceed"%string)
                      None (uw_emi uw) None,
            context)
    | APPROVE_INSTANT =>
        pdf_path <- task_sanction_pdf output_dir context ;;
        Ok (APPROVED,
            mkPayload None None (ctx_emi context) (Some pdf_path), context)
    end.

End DataProvider.

(* ================================================================== *)
(** * app.py: text helpers *)

Local Open Scope string_scope.

Definition is_digit (c : ascii) : bool :=
  let n := nat_of_ascii c in (48 <=? n)%nat && (n <=? 57)%nat.

Definition is_lower_letter (c : ascii) : bool :=
  let n := nat_of_ascii c in (97 <=? n)%nat && (n <=? 122)%nat.

(** [str.isspace] on ASCII: tab, LF, VT, FF, CR, FS, GS, RS, US, space. *)
Definition is_space (c : ascii) : bool :=
  let n := nat_of_ascii c in
  ((9 <=? n)%nat && (n <=? 13)%nat) || ((28 <=? n)%nat && (n <=? 32)%nat).

Definition lower_char (c : ascii) : ascii :=
  let n := nat_of_ascii c in
  if (65 <=? n)%nat && (n <=? 90)%nat then ascii_of_nat (n + 32) else c.

(** [str.lower]. *)
Fixpoint lower (s : string) : string :=
  match s with
  | EmptyString => EmptyString
  | String c t => String (lower_char c) (lower t)
  end.

Fixpoint lstrip (s : string) : string :=
  match s with
  | EmptyString => EmptyString
  | String c t => if is_space c then lstrip t else s
  end.

Fixpoint rev_string (acc s : string) : string :=
  match s with
  | EmptyString => acc
  | String c t => rev_string (String c acc) t
  end.

Definition rstrip (s : string) : string :=
  rev_string "" (lstrip (rev_string "" s)).

(** [str.strip]. *)
Definition strip (s : string) : string := rstrip (lstrip s).

(** [needle in hay] on strings. *)
Fixpoint contains (needle hay : string) : bool :=
  prefix needle hay ||
  match hay with
  | EmptyString => false
  | String _ t => contains needle t
  end.

Definition any_in (tokens : list string) (text : string) : bool :=
  existsb (fun token => contains token text) tokens.

Definition str_in (s : string) (set : list string) : bool :=
  existsb (String.eqb s) set.

Fixpoint filter_string (keep : ascii -> bool) (s : string) : string :=
  match s with
  | EmptyString => EmptyString
  | String c t =>
      if keep c then String c (filter_string keep t) else filter_string keep t
  end.

Fixpoint map_string (f : ascii -> ascii) (s : string) : string :=
  match s with
  | EmptyString => EmptyString
  | String c t => String (f c) (map_string f t)
  end.

(** [re.sub(r"\D", "", message)]. *)
Definition digits_of (message : string) : string := filter_string is_digit message.

(** [s[-10:]]. *)
Definition last10 (s : string) : string :=
  substring (String.length s - 10) 10 s.

(** [str.split()]: the maximal runs of non-space characters. *)
Fixpoint split_ws (cur : string) (s : string) : list string :=
  match s with
  | EmptyString => if String.eqb cur "" then [] else [rev_string "" cur]
  | String c t =>
      if is_space c then
        if String.eqb cur "" then split_ws "" t
        else rev_string "" cur :: split_ws "" t
      else split_ws (String c cur) t
  end.

(** [set(re.sub(r"[^a-z\s]", " ", text.lower()).split())]. *)
Definition words (text : string) : list string :=
  split_ws ""
    (map_string (fun c => if is_lower_letter c || is_space c then c else " "%char)
                (lower text)).

Definition intersects (ws set : list string) : bool :=
  existsb (fun w => str_in w set) ws.

(** ** Numbers in text *)

Definition is_num_char (c : ascii) : bool :=
  is_digit c || Ascii.eqb c ","%char || Ascii.eqb c "."%char.

Fixpoint take_while (p : ascii -> bool) (s : string) : string :=
  match s with
  | EmptyString => EmptyString
  | String c t => if p c then String c (take_while p t) else EmptyString
  end.

(** The first match of [\d[\d,\.]*] in the text, if any. *)
Fixpoint first_number_match (text : string) : option string :=
  match text with
  | EmptyString => None
  | String c t =>
      if is_digit c then Some (String c (take_while is_num_char t))
      else first_number_match t
  end.

Definition digit_val (c : ascii) : Z := Z.of_nat (nat_of_ascii c - 48).

(** Reads a run of decimal digits after the integer part [acc]; stops at
    the first other character and returns the remainder. *)
Fixpoint read_digits (acc : Z) (count : nat) (s : string) : Z * nat * string :=
  match s with
  | String c t =>
      if is_digit c then read_digits (10 * acc + digit_val c) (S count) t
      else (acc, count, s)
  | EmptyString => (acc, count, s)
  end.

(** [float(raw)] for [raw] made of digits and dots and starting with a
    digit: digits, then optionally a dot and more digits; anything else is
    a [ValueError] ([None]).  The value is the exact rational of the
    numeral, where the code has the double nearest to it ([inf] for a
    numeral of [FLOAT_OVERFLOW] or more, see [parse_tenure]). *)
Definition parse_float (raw : string) : option Q :=
  let '(ip, _, rest) := read_digits 0 0 raw in
  match rest with
  | EmptyString => Some (inject_Z ip)
  | String c rest' =>
      if Ascii.eqb c "."%char then
        let '(all, k, rest'') := read_digits ip 0 rest' in
        match rest'' with
        | EmptyString => Some (all # Z.to_pos (10 ^ Z.of_nat k))%Q
        | String _ _ => None
        end
      else None
  end.

Definition extract_number (text : string) : option Q :=
  match first_number_match text with
  | None => None
  | Some m =>
      let raw := filter_string (fun c => negb (Ascii.eqb c ","%char)) m in
      parse_float raw
  end.

(** Python's [round(x)] to an integer: nearest, ties to even. *)
Definition py_round (x : Q) : Z :=
  let f := Qfloor x in
  let d := (x - inject_Z f)%Q in
  if Qltb d (1 # 2) then f
  else if Qltb (1 # 2) d then (f + 1)%Z
  else if Z.even f then f else (f + 1)%Z.

(** The least magnitude that has no finite double: from the midpoint of
    the largest double and [2 ^ 1024] on, [float] of a numeral and a
    product of doubles round to [inf]. *)
Definition FLOAT_OVERFLOW : Q := inject_Z (2 ^ 1024 - 2 ^ 970).

Definition is_inf (x : Q) : bool := Qleb FLOAT_OVERFLOW x.

(** [parse_tenure]: [round] of an infinite float raises [OverflowError],
    which nothing in [app.py] catches.  The number is infinite when the
    numeral itself, or its product with 12, has no finite double. *)
Definition parse_tenure (text : string) : result (option Z) :=
  match extract_number text with
  | None => Ok None
  | Some number =>
      let text_lower := lower text in
      let scaled :=
        if contains "year" text_lower then (number * 12)%Q else number in
      if is_inf scaled then Raise OverflowError
      else
        let months := py_round scaled in
        Ok (if (0 <? months)%Z then Some months else None)
  end.

Definition is_positive_response (text : string) : bool :=
  intersects (words text)
    ["yes"; "y"; "sure"; "okay"; "ok"; "yeah"; "yup"; "proceed"; "go";
     "affirmative"].

Definition is_negative_response (text : string) : bool :=
  intersects (words text) ["no"; "n"; "not"; "later"; "skip"; "nah"].

Definition is_greeting (text : string) : bool :=
  intersects (words text) ["hi"; "hello"; "hey"; "heya"; "hiya"; "greetings"].

Definition wants_lower_rate (text : string) : bool :=
  let lowered := lower text in
  any_in ["rate"; "interest"; "roi"; "percentage"] lowered
  && any_in ["lower"; "less"; "reduce"; "drop"; "discount"; "better"] lowered.

Definition wants_amount_adjustment (text : string) : bool :=
  let lowered := lower text in
  match extract_number text with
  | None => false
  | Some _ =>
      let amount_terms :=
        ["loan"; "amount"; "principal"; "ticket"; "disburse"; "sanction";
         "lakh"; "lac"; "crore"; "limit"] in
      let adjust_terms :=
        ["less"; "lower"; "reduce"; "drop"; "smaller"; "instead"; "maybe";
         "around"; "about"; "approve"; "can you"; "could you"; "let's"; "do"] in
      if contains "instead" lowered then true
      else any_in amount_terms lowered && any_in adjust_terms lowered
  end.

Local Close Scope string_scope.

(** [profile.get("credit_score", 0)] on [profile or {}]. *)
Definition profile_score (profile : option Customer) : Z :=
  match profile with
  | Some p => get_default (cust_credit_score p) 0%Z
  | None => 0%Z
  end.

Definition compute_best_rate (profile : option Customer) : Q :=
  let score := profile_score profile in
  if (800 <=? score)%Z then 975 # 100
  else if (760 <=? score)%Z then 1025 # 100
  else if (720 <=? score)%Z then 1075 # 100
  else if (680 <=? score)%Z then 1125 # 100
  else 1175 # 100.

(** Python's [max(a, b)]: [b] only when [b > a]. *)
Definition py_max (a b : Q) : Q := if Qltb a b then b else a.

(* ================================================================== *)
(** * app.py: session state *)

Definition DEFAULT_RATE : Q := 12.
Definition MIN_LOAN : Q := 10000.
Definition MIN_TENURE : Z := 6.
Definition MAX_TENURE : Z := 84.
Definition OUTPUT_DIR : string := "outputs".

Inductive State : Type :=
| COLLECT_PHONE
| COLLECT_LOAN
| COLLECT_TENURE
| ASK_SALARY_OPTION
| COLLECT_SALARY
| READY_TO_RUN
| DONE.

Definition State_eqb (a b : State) : bool :=
  match a, b with
  | COLLECT_PHONE, COLLECT_PHONE | COLLECT_LOAN, COLLECT_LOAN
  | COLLECT_TENURE, COLLECT_TENURE | ASK_SALARY_OPTION, ASK_SALARY_OPTION
  | COLLECT_SALARY, COLLECT_SALARY | READY_TO_RUN, READY_TO_RUN
  | DONE, DONE => true
  | _, _ => false
  end.

(** The note about the pre-approved limit inside the reshaped-amount
    message. *)
Inductive LimitNote : Type :=
| NoNote
| StillAbove (limit : Z)
| WithinLimit (limit : Z).

(** Assistant messages, in the order they appear in [app.py]. *)
Inductive Msg : Type :=
| MsgWelcome
| MsgPhonePrompt (variant : nat)
| MsgRateWrapped
| MsgRatePitch (proposed_rate : Q) (credit_hint : option Z)
| MsgRateHeld (current_rate : Q)
| MsgAmountWrapped
| MsgAmountUnclear
| MsgAmountDeclined
| MsgAmountReshaped (new_amount : Q) (note : LimitNote)
| MsgRefreshChecks
| MsgMissingFields (missing : list string)
| MsgTakingForward (display_name : string) (loan_amount : Q)
                   (tenure_months : Z) (annual_rate_pct : Q)
| MsgKycNoMatch
| MsgNeedSalary (emi : option Q)
| MsgSalaryAsk
| MsgDecline (reason : string)
| MsgExploreRestart
| MsgChecksPassed (emi : option Q)
| MsgSanctionDrafted (greeting : option string) (city : option string)
| MsgCongrats
| MsgAllDone
| MsgGreetingReply
| MsgPause
| MsgDigitsMissing
| MsgVerifying (phone : string)
| MsgNotFound
| MsgVerified (name address : string)
| MsgWelcomeBack (city : option string) (limit : option Z)
| MsgLoanUnparsed
| MsgLoanMinimum
| MsgLoanAboveLimit (limit : Z)
| MsgAskTenureRepay
| MsgAskTenureSpace
| MsgTenureUnparsed
| MsgTenureBounds
| MsgAskSalaryOption
| MsgAskSalary
| MsgProceedWithout
| MsgNeitherYesNo
| MsgSalaryNumeric
| MsgSalaryThanks.

(** [st.session_state.collected_data]. *)
Record Data : Type := mkData {
  d_annual_rate_pct : option Q;
  d_customer_profile : option Customer;
  d_customer_phone : option string;
  d_customer_name : option string;
  d_loan_amount : option Q;
  d_tenure_months : option Z;
  d_monthly_salary : option Q
}.

(** [st.session_state]. *)
Record Session : Type := mkSession {
  chat_history : list Msg;
  conversation_state : State;
  collected_data : Data;
  latest_status : option Status;
  latest_payload : option Payload;
  phone_retry_count : nat
}.

Definition set_chat_history (v : list Msg) (s : Session) : Session :=
  mkSession v (conversation_state s) (collected_data s) (latest_status s)
            (latest_payload s) (phone_retry_count s).

Definition set_conversation_state (v : State) (s : Session) : Session :=
  mkSession (chat_history s) v (collected_data s) (latest_status s)
            (latest_payload s) (phone_retry_count s).

Definition set_collected_data (v : Data) (s : Session) : Session :=
  mkSession (chat_history s) (conversation_state s) v (latest_status s)
            (latest_payload s) (phone_retry_count s).

Definition set_latest (st : option Status) (pl : option Payload) (s : Session)
  : Session :=
  mkSession (chat_history s) (conversation_state s) (collected_data s) st pl
            (phone_retry_count s).

Definition set_phone_retry_count (v : nat) (s : Session) : Session :=
  mkSession (chat_history s) (conversation_state s) (collected_data s)
            (latest_status s) (latest_payload s) v.

Definition set_d_annual_rate_pct (v : option Q) (d : Data) : Data :=
  mkData v (d_customer_profile d) (d_customer_phone d) (d_customer_name d)
         (d_loan_amount d) (d_tenure_months d) (d_monthly_salary d).

Definition set_d_customer_profile (v : option Customer) (d : Data) : Data :=
  mkData (d_annual_rate_pct d) v (d_customer_phone d) (d_customer_name d)
         (d_loan_amount d) (d_tenure_months d) (d_monthly_salary d).

Definition set_d_customer_phone (v : option string) (d : Data) : Data :=
  mkData (d_annual_rate_pct d) (d_customer_profile d) v (d_customer_name d)
         (d_loan_amount d) (d_tenure_months d) (d_monthly_salary d).

Definition set_d_customer_name (v : option string) (d : Data) : Data :=
  mkData (d_annual_rate_pct d) (d_customer_profile d) (d_customer_phone d) v
         (d_loan_amount d) (d_tenure_months d) (d_monthly_salary d).

Definition set_d_loan_amount (v : option Q) (d : Data) : Data :=
  mkData (d_annual_rate_pct d) (d_customer_profile d) (d_customer_phone d)
         (d_customer_name d) v (d_tenure_months d) (d_monthly_salary d).

Definition set_d_tenure_months (v : option Z) (d : Data) : Data :=
  mkData (d_annual_rate_pct d) (d_customer_profile d) (d_customer_phone d)
         (d_customer_name d) (d_loan_amount d) v (d_monthly_salary d).

Definition set_d_monthly_salary (v : option Q) (d : Data) : Data :=
  mkData (d_annual_rate_pct d) (d_customer_profile d) (d_customer_phone d)
         (d_customer_name d) (d_loan_amount d) (d_tenure_months d) v.

(** Updates [st.session_state.collected_data] in place. *)
Definition update_data (f : Data -> Data) (s : Session) : Session :=
  set_collected_data (f (collected_data s)) s.

(** Truth value of an optional string, number or integer, as [if x:]. *)
Definition truthy_str (x : option string) : bool :=
  match x with
  | Some v => negb (String.eqb v "")
  | None => false
  end.

Definition truthy_num (x : option Q) : bool :=
  match x with
  | Some v => negb (Qeqb v 0)
  | None => false
  end.

Definition truthy_int (x : option Z) : bool :=
  match x with
  | Some v => negb (v =? 0)%Z
  | None => false
  end.

Definition reset_conversation (s : Session) : Session :=
  mkSession [MsgWelcome] COLLECT_PHONE
            (mkData (Some DEFAULT_RATE) None None None None None None)
            None None 0.

Definition add_assistant_message (message : Msg) (s : Session) : Session :=
  set_chat_history (chat_history s ++ [message]) s.

Definition next_phone_prompt (s : Session) : Session * Msg :=
  let idx := phone_retry_count s in
  let message := MsgPhonePrompt (idx mod 3) in
  (set_phone_retry_count (idx + 1) s, message).

(* ================================================================== *)
(** * app.py: negotiation, pipeline and the state machine *)

Section Conversation.

Variable db : list Customer.

(** [run_master_pipeline]: an exception of [master_orchestrate] leaves
    the session as it was when it was raised.  Customer records have no
    [first_name] key, so the display name is the name or "there". *)
Definition run_master_pipeline (s : Session) : Session * result unit :=
  let data := collected_data s in
  let profile := d_customer_profile data in
  let display_name :=
    match profile with
    | Some p => if String.eqb (cust_name p) "" then "there"%string else cust_name p
    | None => "there"%string
    end in
  let missing :=
    ((if has_key (d_customer_phone data) then [] else ["customer_phone"%string])
     ++ (if has_key (d_loan_amount data) then [] else ["loan_amount"%string])
     ++ (if has_key (d_tenure_months data) then [] else ["tenure_months"%string]))%list in
  match d_customer_phone data, d_loan_amount data, d_tenure_months data with
  | Some phone, Some loan_amount, Some tenure_months =>
      let annual_rate_pct := get_default (d_annual_rate_pct data) DEFAULT_RATE in
      let context :=
        mkContext (Some phone) (Some loan_amount) (Some tenure_months)
                  (Some annual_rate_pct) (d_monthly_salary data)
                  None None None None in
      let s := add_assistant_message
                 (MsgTakingForward display_name loan_amount tenure_months
                                   annual_rate_pct) s in
      match master_orchestrate db context OUTPUT_DIR with
      | Raise e => (s, Raise e)
      | Ok (status, payload, _) =>
          let s := set_latest (Some status) (Some payload) s in
          match status with
          | KYC_FAILED =>
              let s := add_assistant_message MsgKycNoMatch s in
              let s := set_conversation_state COLLECT_PHONE s in
              let s := update_data (set_d_customer_phone None) s in
              let s := update_data (set_d_customer_name None) s in
              let s := update_data (set_d_customer_profile None) s in
              (s, Ok tt)
          | STATUS_REQUIRE_SALARY =>
              let emi := pl_emi payload in
              let s := add_assistant_message
                         (MsgNeedSalary (if truthy_num emi then emi else None)) s in
              let s := add_assistant_message MsgSalaryAsk s in
              (set_conversation_state COLLECT_SALARY s, Ok tt)
          | STATUS_REJECT =>
              let reason :=
                if truthy_str (pl_reason payload)
                then get_default (pl_reason payload) ""%string
                else "Policy rules prevent us from approving this request."%string in
              let s := add_assistant_message (MsgDecline reason) s in
              let s := add_assistant_message MsgExploreRestart s in
              (set_conversation_state DONE s, Ok tt)
          | APPROVED =>
              let emi := pl_emi payload in
              let name := d_customer_name (collected_data s) in
              let greeting := if truthy_str name then name else None in
              let city := match profile with Some p => cust_city p | None => None end in
              let city_line := if truthy_str city then city else None in
              let s := add_assistant_message (MsgChecksPassed emi) s in
              let s := add_assistant_message (MsgSanctionDrafted greeting city_line) s in
              let s := add_assistant_message MsgCongrats s in
              (set_conversation_state DONE s, Ok tt)
          end
      end
  | _, _, _ =>
      (add_assistant_message (MsgMissingFields missing) s, Ok tt)
  end.

(** [try_handle_negotiation]: the returned flag tells whether the
    message was handled. *)
Definition try_handle_negotiation (message : string) (state : State)
                                  (s : Session)
  : Session * result bool :=
  let data := collected_data s in
  if negb (truthy_str (d_customer_phone data)) then (s, Ok false)
  else
    let profile := d_customer_profile data in
    if wants_lower_rate message then
      let current_rate := get_default (d_annual_rate_pct data) DEFAULT_RATE in
      let best_rate := compute_best_rate profile in
      let requested_rate := extract_number message in
      if State_eqb state DONE then
        (add_assistant_message MsgRateWrapped s, Ok true)
      else
        let requested_rate :=
          if truthy_num requested_rate
             && Qltb (get_default requested_rate 0) 5
          then None else requested_rate in
        let proposed_rate :=
          if truthy_num requested_rate
          then py_max best_rate (get_default requested_rate 0)
          else py_max best_rate (current_rate - (1 # 2)) in
        if Qltb proposed_rate current_rate then
          let s := update_data (set_d_annual_rate_pct (Some proposed_rate)) s in
          let credit_score :=
            match profile with
            | Some p => cust_credit_score p
            | None => None
            end in
          let credit_hint :=
            if truthy_int credit_score then credit_score else None in
          (add_assistant_message (MsgRatePitch proposed_rate credit_hint) s,
           Ok true)
        else
          (add_assistant_message (MsgRateHeld current_rate) s, Ok true)
    else if truthy_num (d_loan_amount data) && wants_amount_adjustment message
    then
      let current_amount := get_default (d_loan_amount data) 0 in
      let new_amount := extract_number message in
      if State_eqb state DONE then
        (add_assistant_message MsgAmountWrapped s, Ok true)
      else if negb (truthy_num new_amount)
              || Qleb (get_default new_amount 0) 0 then
        (add_assistant_message MsgAmountUnclear s, Ok true)
      else
        let new_amount := get_default new_amount 0 in
        if Qleb current_amount new_amount then
          (add_assistant_message MsgAmountDeclined s, Ok true)
        else
          let s := update_data (set_d_loan_amount (Some new_amount)) s in
          let limit :=
            match profile with
            | Some p => cust_pre_approved_limit p
            | None => None
            end in
          let limit_note :=
            if truthy_int limit
               && Qltb (inject_Z (get_default limit 0%Z)) new_amount
            then StillAbove (get_default limit 0%Z)
            else if truthy_int limit then WithinLimit (get_default limit 0%Z)
            else NoNote in
          let s := add_assistant_message
                     (MsgAmountReshaped new_amount limit_note) s in
          if State_eqb state READY_TO_RUN then
            let s := add_assistant_message MsgRefreshChecks s in
            let '(s, r) := run_master_pipeline s in
            (s, _ <- r ;; Ok true)
          else (s, Ok true)
    else (s, Ok false).

Definition RESTART_WORDS : list string :=
  ["restart"; "reset"; "start over"; "new"]%string.

Definition handle_collect_phone (message : string) (s : Session)
  : Session * result unit :=
  let digits := digits_of message in
  if String.eqb digits "" then
    if is_greeting message then
      let s := add_assistant_message MsgGreetingReply s in
      (set_phone_retry_count 0 s, Ok tt)
    else if is_negative_response message then
      (add_assistant_message MsgPause s, Ok tt)
    else
      let '(s, prompt) := next_phone_prompt s in
      (add_assistant_message prompt s, Ok tt)
  else if (String.length digits <? 10)%nat then
    let s := add_assistant_message MsgDigitsMissing s in
    let '(s, prompt) := next_phone_prompt s in
    (add_assistant_message prompt s, Ok tt)
  else
    let phone := last10 digits in
    let s := update_data (set_d_customer_phone (Some phone)) s in
    let s := set_phone_retry_count 0 s in
    let s := add_assistant_message (MsgVerifying phone) s in
    let verification := task_verify db phone in
    if negb (verified verification) then
      let s := add_assistant_message MsgNotFound s in
      (update_data (set_d_customer_phone None) s, Ok tt)
    else
      let s := update_data (set_d_customer_name (Some (ver_name verification))) s in
      let profile := crm_get_customer_by_phone db phone in
      let s := update_data (set_d_customer_profile profile) s in
      let city := match profile with Some p => cust_city p | None => None end in
      let limit :=
        match profile with Some p => cust_pre_approved_limit p | None => None end in
      let s := add_assistant_message
                 (MsgVerified (ver_name verification) (ver_address verification)) s in
      let s := add_assistant_message
                 (MsgWelcomeBack (if truthy_str city then city else None)
                                 (if truthy_int limit then limit else None)) s in
      (set_conversation_state COLLECT_LOAN s, Ok tt).

Definition handle_collect_loan (message : string) (s : Session)
  : Session * result unit :=
  match extract_number message with
  | None => (add_assistant_message MsgLoanUnparsed s, Ok tt)
  | Some amount =>
      if Qltb amount MIN_LOAN then
        (add_assistant_message MsgLoanMinimum s, Ok tt)
      else
        let s := update_data (set_d_loan_amount (Some amount)) s in
        let limit :=
          match d_customer_profile (collected_data s) with
          | Some p => cust_pre_approved_limit p
          | None => None
          end in
        if truthy_int limit && Qltb (inject_Z (get_default limit 0%Z)) amount
        then
          let s := add_assistant_message
                     (MsgLoanAboveLimit (get_default limit 0%Z)) s in
          let s := add_assistant_message MsgAskTenureSpace s in
          (set_conversation_state COLLECT_TENURE s, Ok tt)
        else
          let s := add_assistant_message MsgAskTenureRepay s in
          (set_conversation_state COLLECT_TENURE s, Ok tt)
  end.

Definition handle_collect_tenure (message : string) (s : Session)
  : Session * result unit :=
  match parse_tenure message with
  | Raise e => (s, Raise e)
  | Ok None => (add_assistant_message MsgTenureUnparsed s, Ok tt)
  | Ok (Some tenure) =>
      if (tenure <? MIN_TENURE)%Z || (MAX_TENURE <? tenure)%Z then
        (add_assistant_message MsgTenureBounds s, Ok tt)
      else
        let s := update_data (set_d_tenure_months (Some tenure)) s in
        let s := add_assistant_message MsgAskSalaryOption s in
        (set_conversation_state ASK_SALARY_OPTION s, Ok tt)
  end.

Definition handle_ask_salary_option (message : string) (s : Session)
  : Session * result unit :=
  if is_positive_response message then
    let s := add_assistant_message MsgAskSalary s in
    (set_conversation_state COLLECT_SALARY s, Ok tt)
  else if is_negative_response message then
    let s := add_assistant_message MsgProceedWithout s in
    let s := set_conversation_state READY_TO_RUN s in
    run_master_pipeline s
  else (add_assistant_message MsgNeitherYesNo s, Ok tt).

Definition handle_collect_salary (message : string) (s : Session)
  : Session * result unit :=
  match extract_number message with
  | None => (add_assistant_message MsgSalaryNumeric s, Ok tt)
  | Some salary =>
      if Qleb salary 0 then (add_assistant_message MsgSalaryNumeric s, Ok tt)
      else
        let s := update_data (set_d_monthly_salary (Some salary)) s in
        let s := add_assistant_message MsgSalaryThanks s in
        let s := set_conversation_state READY_TO_RUN s in
        run_master_pipeline s
  end.

(** [handle_user_message]; the per-state blocks of the source are the
    [handle_*] functions above.  The closing fall-through of the source
    is unreachable for the seven states. *)
Definition handle_user_message (message : string) (s : Session)
  : Session * result unit :=
  if str_in (lower (strip message)) RESTART_WORDS then
    (reset_conversation s, Ok tt)
  else
    let state := conversation_state s in
    match try_handle_negotiation message state s with
    | (s, Raise e) => (s, Raise e)
    | (s, Ok true) => (s, Ok tt)
    | (s, Ok false) =>
        match state with
        | DONE => (add_assistant_message MsgAllDone s, Ok tt)
        | COLLECT_PHONE => handle_collect_phone message s
        | COLLECT_LOAN => handle_collect_loan message s
        | COLLECT_TENURE => handle_collect_tenure message s
        | ASK_SALARY_OPTION => handle_ask_salary_option message s
        | COLLECT_SALARY => handle_collect_salary message s
        | READY_TO_RUN => run_master_pipeline s
        end
    end.

End Conversation.

(* ================================================================== *)
(** * app.py: format_currency *)

(** The decimal digits of [n >= 0], most significant first, in front of
    [acc]; [fuel] bounds the number of digits. *)
Fixpoint decimal_digits (fuel : nat) (n : Z) (acc : list Z) : list Z :=
  match fuel with
  | O => acc
  | S fuel' =>
      if (n <? 10)%Z then n :: acc
      else decimal_digits fuel' (n / 10)%Z ((n mod 10)%Z :: acc)
  end.

Definition digit_char (d : Z) : ascii := ascii_of_nat (48 + Z.to_nat d).

(** The digits with a comma in front of every group of three that
    follows, as the [,] format option writes them. *)
Fixpoint render_grouped (ds : list Z) : string :=
  match ds with
  | [] => EmptyString
  | d :: t =>
      String (digit_char d)
             (if (0 <? List.length t)%nat && (List.length t mod 3 =? 0)%nat
              then String ","%char (render_grouped t)
              else render_grouped t)
  end.

(** The rupee sign, U+20B9, in UTF-8. *)
Definition rupee : string :=
  String (ascii_of_nat 226) (String (ascii_of_nat 130)
    (String (ascii_of_nat 185) EmptyString)).

(** A float as the format sees it: a sign and a magnitude, an infinity
    or a NaN.  A negative zero is [Finite true 0]. *)
Inductive pyfloat : Type :=
| Finite (negative : bool) (magnitude : Q)
| Infinite (negative : bool)
| NotANumber.

(** The amounts [format_currency] is given: an [int] (a limit read from
    the records) or a [float]. *)
Inductive pynum : Type :=
| PyInt (n : Z)
| PyFloat (x : pyfloat).

(** The double nearest to the integer [a >= 0], ties to even: integers
    below [2 ^ 53] are doubles, larger ones keep their 53 leading bits. *)
Definition round_to_double (a : Z) : Z :=
  if (a <? 2 ^ 53)%Z then a
  else
    let shift := (Z.log2 a - 52)%Z in
    let q := Z.shiftr a shift in
    let rest := (a - Z.shiftl q shift)%Z in
    let half := (2 ^ (shift - 1))%Z in
    let q' :=
      if (half <? rest)%Z || ((rest =? half)%Z && Z.odd q) then (q + 1)%Z
      else q in
    Z.shiftl q' shift.

(** [float(n)], which the float formats apply to an [int]: an integer
    with no finite double raises [OverflowError]. *)
Definition float_of_big_int (n : Z) : result pyfloat :=
  if is_inf (inject_Z (Z.abs n)) then Raise OverflowError
  else Ok (Finite (n <? 0)%Z (inject_Z (round_to_double (Z.abs n)))).

(** The format [,.0f]: a finite float is rounded to the nearest integer
    (ties to even) and its digits are grouped in threes, behind a minus
    sign when the float is negative; infinities and NaN are spelled
    out. *)
Definition format_grouped (x : pyfloat) : string :=
  match x with
  | Finite negative magnitude =>
      let n := py_round (Qabs magnitude) in
      ((if negative then "-" else "")
         ++ render_grouped
              (decimal_digits (S (Z.to_nat (Z.log2 n))) n []))%string
  | Infinite negative => ((if negative then "-" else "") ++ "inf")%string
  | NotANumber => "nan"%string
  end.

Definition format_currency (amount : option pynum) : result string :=
  match amount with
  | None => Ok (rupee ++ "0")%string
  | Some (PyFloat x) => Ok (rupee ++ format_grouped x)%string
  | Some (PyInt n) =>
      x <- float_of_big_int n ;;
      Ok (rupee ++ format_grouped x)%string
  end.

(* ================================================================== *)
(** * Auxiliary definitions for the statements *)


(** The annuity factor: the value today of [k + 1] monthly unit payments
    discounted by [q = 1 + r] per month, [1/q + 1/q^2 + ... + 1/q^(k+1)].
    The EMI is the principal divided by it. *)
Fixpoint annuity (q : Q) (k : nat) : Q :=
  match k with
  | O => / q
  | S k' => (annuity q k' + 1) / q
  end.

(** The pipeline status [master_orchestrate] returns for an underwriting
    decision. *)
Definition status_of_decision (d : Decision) : Status :=
  match d with
  | REJECT => STATUS_REJECT
  | REQUIRE_SALARY => STATUS_REQUIRE_SALARY
  | APPROVE_INSTANT => APPROVED
  end.

(** Sessions the application can be in: the initial setup and the reset
    button call [reset_conversation]; every chat turn runs
    [handle_user_message], and the session keeps what the turn wrote even
    when the turn ends in an exception. *)
Inductive reachable (db : list Customer) : Session -> Prop :=
| reach_reset : forall s0, reachable db (reset_conversation s0)
| reach_turn : forall s message,
    reachable db s ->
    reachable db (fst (handle_user_message db message s)).

(** While the session is collecting the phone, no phone is on file. *)
Definition phone_unset_while_collecting (s : Session) : Prop :=
  conversation_state s = COLLECT_PHONE ->
  d_customer_phone (collected_data s) = None.

(** With a phone on file, the profile is the provider's record for that
    phone and the stored rate is at or above the best rate for it; with
    no phone on file, the stored rate is the default. *)
Definition rate_respects_floor (db : list Customer) (s : Session) : Prop :=
  exists r,
    d_annual_rate_pct (collected_data s) = Some r
    /\ match d_customer_phone (collected_data s) with
       | None => r = DEFAULT_RATE
       | Some ph =>
           crm_get_customer_by_phone db ph <> None
           /\ d_customer_profile (collected_data s)
              = crm_get_customer_by_phone db ph
           /\ compute_best_rate (d_customer_profile (collected_data s)) <= r
       end.

(** A tenure on file is within the configured bounds. *)
Definition tenure_within_bounds (s : Session) : Prop :=
  forall n,
    d_tenure_months (collected_data s) = Some n ->
    (MIN_TENURE <= n <= MAX_TENURE)%Z.

(** How far the collection has come in a state. *)
Definition stage (st : State) : nat :=
  match st with
  | COLLECT_PHONE => 0
  | COLLECT_LOAN => 1
  | COLLECT_TENURE => 2
  | _ => 3
  end.

(** The fields collected before a state are on file in it. *)
Definition fields_by_state (s : Session) : Prop :=
  ((1 <= stage (conversation_state s))%nat ->
     has_key (d_customer_phone (collected_data s)) = true)
  /\ ((2 <= stage (conversation_state s))%nat ->
      has_key (d_loan_amount (collected_data s)) = true)
  /\ ((3 <= stage (conversation_state s))%nat ->
      has_key (d_tenure_months (collected_data s)) = true).

Definition positive_amounts (s : Session) : Prop :=
  (forall la, d_loan_amount (collected_data s) = Some la -> 0 < la)
  /\ (forall sal, d_monthly_salary (collected_data s) = Some sal -> 0 < sal).

(** The fields collected in or after a state are not on file in it. *)
Definition absent_before_stage (s : Session) : Prop :=
  ((stage (conversation_state s) <= 1)%nat ->
     d_loan_amount (collected_data s) = None)
  /\ ((stage (conversation_state s) <= 2)%nat ->
      d_tenure_months (collected_data s) = None)
  /\ (has_key (d_monthly_salary (collected_data s)) = true ->
      conversation_state s = DONE).

Definition rate_at_most_default (s : Session) : Prop :=
  forall r, d_annual_rate_pct (collected_data s) = Some r -> r <= DEFAULT_RATE.

(** What holds of a session between two turns. *)
Definition settled (s : Session) : Prop :=
  fields_by_state s
  /\ absent_before_stage s
  /\ conversation_state s <> READY_TO_RUN
  /\ latest_status s <> Some KYC_FAILED
  /\ positive_amounts s
  /\ rate_at_most_default s.

(** The data [d'] keep what [d] holds, but for a loan amount or a rate
    that may have gone down. *)
Definition data_moves_forward (d d' : Data) : Prop :=
  (forall p, d_customer_phone d = Some p ->
     d_customer_phone d' = Some p
     /\ d_customer_name d' = d_customer_name d
     /\ d_customer_profile d' = d_customer_profile d)
  /\ (forall la, d_loan_amount d = Some la ->
        exists la', d_loan_amount d' = Some la' /\ la' <= la)
  /\ (forall n, d_tenure_months d = Some n -> d_tenure_months d' = Some n)
  /\ (forall v, d_monthly_salary d = Some v -> d_monthly_salary d' = Some v)
  /\ get_default (d_annual_rate_pct d') DEFAULT_RATE
     <= get_default (d_annual_rate_pct d) DEFAULT_RATE.

(** The state [b] is [a] or the next step of the collection after [a]. *)
Definition may_follow (a b : State) : bool :=
  match a, b with
  | COLLECT_PHONE, (COLLECT_PHONE | COLLECT_LOAN) => true
  | COLLECT_LOAN, (COLLECT_LOAN | COLLECT_TENURE) => true
  | COLLECT_TENURE, (COLLECT_TENURE | ASK_SALARY_OPTION) => true
  | ASK_SALARY_OPTION, (ASK_SALARY_OPTION | COLLECT_SALARY | DONE) => true
  | COLLECT_SALARY, (COLLECT_SALARY | DONE) => true
  | DONE, DONE => true
  | _, _ => false
  end.

(** The session after the given utterances, starting from a fresh one. *)
Definition session_after (db : list Customer) (messages : list string)
  : Session :=
  fold_left (fun s message => fst (handle_user_message db message s))
            messages
            (reset_conversation (mkSession [] COLLECT_PHONE
               (mkData None None None None None None None) None None 0)).

(** The first of the keys [evaluate_application] reads with [context[...]]
    that the context lacks, in the order it reads them. *)
Definition first_missing_key (c : Context) : option string :=
  if negb (has_key (ctx_customer_phone c)) then Some "customer_phone"%string
  else if negb (has_key (ctx_loan_amount c)) then Some "loan_amount"%string
  else if negb (has_key (ctx_tenure_months c)) then Some "tenure_months"%string
  else if negb (has_key (ctx_credit_score c)) then Some "credit_score"%string
  else if negb (has_key (ctx_pre_approved_limit c))
       then Some "pre_approved_limit"%string
  else None.

(** Status and payload of a pipeline result, without the context. *)
Definition outcome (r : result (Status * Payload * Context))
  : result (Status * Payload) :=
  match r with
  | Ok (status, payload, _) => Ok (status, payload)
  | Raise e => Raise e
  end.

Fixpoint all_digits (s : string) : bool :=
  match s with
  | EmptyString => true
  | String c t => is_digit c && all_digits t
  end.

(** A phone on file is a string of exactly ten digits. *)
Definition phone_well_formed (s : Session) : Prop :=
  forall p,
    d_customer_phone (collected_data s) = Some p ->
    String.length p = 10%nat /\ all_digits p = true.

(** The value of a list of decimal digits read after [acc]. *)
Fixpoint value_of (acc : Z) (ds : list Z) : Z :=
  match ds with
  | [] => acc
  | d :: t => value_of (10 * acc + d)%Z t
  end.

Definition digits_in_range (ds : list Z) : Prop :=
  Forall (fun d => (0 <= d <= 9)%Z) ds.

(** The digits without separators. *)
Fixpoint render_plain (ds : list Z) : string :=
  match ds with
  | [] => EmptyString
  | d :: t => String (digit_char d) (render_plain t)
  end.

(** A one-customer record set and contexts used to instantiate the
    statements. *)
Definition sample_customer : Customer :=
  mkCustomer "9876543210" "Asha Rao" "12 MG Road" (Some "Pune"%string)
             (Some 750%Z) (Some 500000%Z) (Some 90000%Z).

Definition sample_db : list Customer := [sample_customer].

(** A numeral of 310 digits: 10 ^ 309, which has no finite double. *)
Definition sample_huge_numeral : string :=
  String "1"%char (string_of_list_ascii (repeat "0"%char 309)).

Definition sample_context (loan_amount : Q) (monthly_salary : option Q)
  : Context :=
  mkContext (Some "9876543210"%string) (Some loan_amount) (Some 36%Z)
            (Some 12) monthly_salary None (Some 750%Z) (Some 500000%Z) None.

Definition sample_data (state_amount : option Q) : Data :=
  mkData (Some 12) (Some sample_customer) (Some "9876543210"%string)
         (Some "Asha Rao"%string) state_amount (Some 36%Z) None.

Definition sample_session (state : State) (amount : option Q) : Session :=
  mkSession [] state (sample_data amount) None None 0.

(* ================================================================== *)
(** * Properties of the underwriting engine *)

Lemma Qleb_true (x y : Q) : Qleb x y = true <-> x <= y.
Proof. apply Qle_bool_iff. Qed.

Lemma Qleb_false (x y : Q) : Qleb x y = false <-> y < x.
Proof.
  unfold Qleb. split; intro H.
  - apply Qnot_le_lt. intro Hle. apply Qle_bool_iff in Hle. congruence.
  - destruct (Qle_bool x y) eqn:E; [|reflexivity].
    apply Qle_bool_iff in E. exfalso. apply (Qlt_irrefl x).
    eapply Qle_lt_trans; eauto.
Qed.

Lemma Qltb_true (x y : Q) : Qltb x y = true <-> x < y.
Proof.
  unfold Qltb. rewrite negb_true_iff. apply Qleb_false.
Qed.

Lemma Qltb_false (x y : Q) : Qltb x y = false <-> y <= x.
Proof.
  unfold Qltb. rewrite negb_false_iff. apply Qleb_true.
Qed.

Lemma Qeqb_true (x y : Q) : Qeqb x y = true <-> x == y.
Proof. apply Qeq_bool_iff. Qed.

Lemma Qeqb_false (x y : Q) : Qeqb x y = false <-> ~ x == y.
Proof.
  unfold Qeqb. split; intro H.
  - intro E. apply Qeq_bool_iff in E. congruence.
  - destruct (Qeq_bool x y) eqn:E; [|reflexivity].
    apply Qeq_bool_iff in E. contradiction.
Qed.

(* ------------------------------------------------------------------ *)
(** ** The EMI as principal over annuity factor *)

Lemma annuity_pos (q : Q) (k : nat) : 0 < q -> 0 < annuity q k.
Proof.
  intro Hq. induction k as [|k IH]; cbn [annuity].
  - now apply Qinv_lt_0_compat.
  - apply Qlt_shift_div_l; [exact Hq|]. lra.
Qed.


Lemma annuity_comp (q q' : Q) (k : nat) :
  q == q' -> annuity q k == annuity q' k.
Proof.
  intro E. induction k as [|k IH]; cbn [annuity].
  - now rewrite E.
  - now rewrite IH, E.
Qed.

Lemma annuity_one (k : nat) : annuity 1 k == inject_Z (Z.of_nat (S k)).
Proof.
  induction k as [|k IH]; cbn [annuity].
  - reflexivity.
  - rewrite IH. rewrite (Nat2Z.inj_succ (S k)). unfold Z.succ.
    rewrite inject_Z_plus. field.
Qed.

Lemma Qpower_succ_nat (q : Q) (k : nat) :
  q ^ Z.of_nat (S k) == q * q ^ Z.of_nat k.
Proof.
  rewrite Nat2Z.inj_succ. unfold Z.succ.
  rewrite Qpower_plus' by lia. rewrite Qpower_1_r. ring.
Qed.

Lemma annuity_closed (r : Q) (k : nat) :
  0 < r ->
  annuity (1 + r) k * (r * (1 + r) ^ Z.of_nat (S k))
  == (1 + r) ^ Z.of_nat (S k) - 1.
Proof.
  intro Hr. induction k as [|k IH].
  - cbn [annuity]. rewrite Qpower_succ_nat. change (Z.of_nat 0) with 0%Z.
    rewrite Qpower_0_r. field. lra.
  - cbn [annuity]. rewrite (Qpower_succ_nat _ (S k)).
    set (p := (1 + r) ^ Z.of_nat (S k)) in *.
    transitivity ((annuity (1 + r) k * (r * p)) + r * p).
    + field. lra.
    + rewrite IH. ring.
Qed.

Lemma monthly_rate_scale (a : Q) : a / 12 / 100 == a * (1 # 1200).
Proof. field. Qed.

Lemma compute_emi_annuity (P a : Q) (n : Z) :
  0 <= a -> (1 <= n)%Z ->
  exists e, compute_emi P a n = Ok e
            /\ e == P / annuity (1 + a / 12 / 100) (Z.to_nat n - 1).
Proof.
  intros Ha Hn.
  assert (Hk : n = Z.of_nat (S (Z.to_nat n - 1))) by lia.
  set (k := (Z.to_nat n - 1)%nat) in *.
  unfold compute_emi.
  set (r := a / 12 / 100).
  assert (Hr : 0 <= r) by (unfold r; rewrite monthly_rate_scale; lra).
  destruct (Qeqb r 0) eqn:Er.
  - apply Qeqb_true in Er.
    replace (n =? 0)%Z with false by (symmetry; apply Z.eqb_neq; lia).
    eexists. split; [reflexivity|].
    rewrite (annuity_comp (1 + r) 1 k) by lra.
    rewrite annuity_one, <- Hk. reflexivity.
  - apply Qeqb_false in Er.
    assert (Hr' : 0 < r) by lra.
    replace (Qeqb (1 + r) 0) with false
      by (symmetry; apply Qeqb_false; lra).
    cbn [andb].
    assert (Hp : 1 < (1 + r) ^ n) by (apply Qpower_1_lt; [lra|lia]).
    replace (Qeqb ((1 + r) ^ n - 1) 0) with false
      by (symmetry; apply Qeqb_false; lra).
    eexists. split; [reflexivity|].
    pose proof (annuity_closed r k Hr') as Hc. rewrite <- Hk in Hc.
    pose proof (annuity_pos (1 + r) k ltac:(lra)) as Hpos.
    rewrite <- Hc. field. repeat split; lra.
Qed.




(* ------------------------------------------------------------------ *)
(** ** The decision rules *)

Local Open Scope string_scope.

(** C1 (amended).  For every context holding a phone, a loan amount, a
    tenure, a rate, a credit score and a pre-approved limit,
    [evaluate_application] applies its rules in first-match order:
    a credit score below 700 is rejected with "Credit score below 700";
    otherwise a loan within the pre-approved limit is approved with the
    computed EMI; otherwise a loan within twice the limit yields
    REQUIRE_SALARY with the EMI when no salary is declared or the declared
    salary is not positive, APPROVE_INSTANT when the salary is positive and
    the EMI is at most half of it, and REJECT with "EMI exceeds 50% of
    salary" and the EMI when the salary is positive and the EMI is above
    half of it; otherwise the loan is rejected with "Loan amount exceeds 2x
    pre-approved limit".  When the EMI computation raises, so does the
    evaluation; it returns a value whenever the tenure is at least one
    month and the rate is not negative. *)
Theorem evaluate_application_first_match :
  forall (phone : string) (la : Q) (n : Z) (a : Q) (sal : option Q)
         (name : option string) (cs pl : Z) (emi0 : option Q),
    let c := mkContext (Some phone) (Some la) (Some n) (Some a) sal name
                       (Some cs) (Some pl) emi0 in
    let salary := get_default sal 0 in
    ((cs < 700)%Z ->
       evaluate_application c
       = Ok (REJECT, mkDetails (Some "Credit score below 700") None))
    /\ ((700 <= cs)%Z -> la <= inject_Z pl ->
        evaluate_application c
        = (emi <- compute_emi la a n ;;
           Ok (APPROVE_INSTANT, mkDetails None (Some emi))))
    /\ ((700 <= cs)%Z -> inject_Z pl < la -> la <= inject_Z (2 * pl) ->
        (forall e, compute_emi la a n = Raise e ->
                   evaluate_application c = Raise e)
        /\ (forall emi, compute_emi la a n = Ok emi ->
              (salary <= 0 ->
                 evaluate_application c
                 = Ok (REQUIRE_SALARY,
                       mkDetails
                         (Some "Need salary slip to evaluate EMI threshold")
                         (Some emi)))
              /\ (0 < salary -> emi <= (1 # 2) * salary ->
                  evaluate_application c
                  = Ok (APPROVE_INSTANT, mkDetails None (Some emi)))
              /\ (0 < salary -> (1 # 2) * salary < emi ->
                  evaluate_application c
                  = Ok (REJECT,
                        mkDetails (Some "EMI exceeds 50% of salary")
                                  (Some emi)))))
    /\ ((700 <= cs)%Z -> inject_Z pl < la -> inject_Z (2 * pl) < la ->
        evaluate_application c
        = Ok (REJECT,
              mkDetails (Some "Loan amount exceeds 2x pre-approved limit")
                        None))
    /\ ((700 <= cs)%Z -> (0 <= pl)%Z -> inject_Z (2 * pl) < la ->
        evaluate_application c
        = Ok (REJECT,
              mkDetails (Some "Loan amount exceeds 2x pre-approved limit")
                        None))
    /\ ((1 <= n)%Z -> 0 <= a -> exists emi, compute_emi la a n = Ok emi).
Proof.
  intros phone la n a sal name cs pl emi0 c salary.
  unfold evaluate_application, c; cbn [bind getitem ctx_customer_phone
    ctx_loan_amount ctx_tenure_months ctx_annual_rate_pct ctx_monthly_salary
    ctx_credit_score ctx_pre_approved_limit get_default].
  fold salary.
  repeat split.
  - intro Hcs. apply Z.ltb_lt in Hcs. now rewrite Hcs.
  - intros Hcs Hla. apply Z.ltb_ge in Hcs. rewrite Hcs.
    apply Qleb_true in Hla. now rewrite Hla.
  - intros e He. apply Z.ltb_ge in H. rewrite H.
    apply Qleb_false in H0. rewrite H0.
    apply Qleb_true in H1. rewrite H1. now rewrite He.
  - intro Hs. apply Z.ltb_ge in H. rewrite H.
    apply Qleb_false in H0. rewrite H0.
    apply Qleb_true in H1. rewrite H1. rewrite H2. cbn [bind].
    apply Qleb_true in Hs. now rewrite Hs.
  - intros Hs He. apply Z.ltb_ge in H. rewrite H.
    apply Qleb_false in H0. rewrite H0.
    apply Qleb_true in H1. rewrite H1. rewrite H2. cbn [bind].
    apply Qleb_false in Hs. rewrite Hs.
    apply Qleb_true in He. now rewrite He.
  - intros Hs He. apply Z.ltb_ge in H. rewrite H.
    apply Qleb_false in H0. rewrite H0.
    apply Qleb_true in H1. rewrite H1. rewrite H2. cbn [bind].
    apply Qleb_false in Hs. rewrite Hs.
    apply Qleb_false in He. now rewrite He.
  - intros Hcs Hpl Hla. apply Z.ltb_ge in Hcs. rewrite Hcs.
    apply Qleb_false in Hpl. rewrite Hpl.
    apply Qleb_false in Hla. now rewrite Hla.
  - intros Hcs Hpl Hla. apply Z.ltb_ge in Hcs. rewrite Hcs.
    assert (Hpl' : inject_Z pl < la).
    { eapply Qle_lt_trans; [|exact Hla]. rewrite <- Zle_Qle. lia. }
    apply Qleb_false in Hpl'. rewrite Hpl'.
    apply Qleb_false in Hla. now rewrite Hla.
  - intros Hn Ha.
    destruct (compute_emi_annuity la a n Ha Hn) as (emi & He & _).
    exists emi. exact He.
Qed.

(** Applies the first-match theorem to the sample profile (score 750,
    limit 500000): a loan of 1200000 is above twice the limit. *)
Lemma evaluate_application_first_match_witness :
  evaluate_application (sample_context 1200000 None)
  = Ok (REJECT,
        mkDetails (Some "Loan amount exceeds 2x pre-approved limit") None).
Proof.
  apply (proj1 (proj2 (proj2 (proj2 (proj2
    (evaluate_application_first_match "9876543210" 1200000 36 12 None None
                                      750 500000 None)))))).
  - lia.
  - lia.
  - vm_compute; reflexivity.
Defined.

(** Counterexample to C1 as the specification words it: with a declared
    salary of zero in the middle band, the salary is declared and the EMI
    is above half of it, and yet the decision is REQUIRE_SALARY and not
    REJECT. *)
Lemma evaluate_application_declared_zero_salary :
  exists emi,
    compute_emi 700000 12 36 = Ok emi
    /\ (1 # 2) * 0 < emi
    /\ ctx_monthly_salary (sample_context 700000 (Some 0)) = Some 0
    /\ evaluate_application (sample_context 700000 (Some 0))
       <> Ok (REJECT, mkDetails (Some "EMI exceeds 50% of salary") (Some emi))
    /\ evaluate_application (sample_context 700000 (Some 0))
       = Ok (REQUIRE_SALARY,
             mkDetails (Some "Need salary slip to evaluate EMI threshold")
                       (Some emi)).
Proof.
  eexists. split; [vm_compute; reflexivity|].
  split; [reflexivity|]. split; [reflexivity|].
  split; [|vm_compute; reflexivity].
  vm_compute. discriminate.
Qed.

(** C3 (amended).  For loan_amount 400000, tenure 36 and rate 12.0 with a
    profile of credit score 750 and pre-approved limit 500000,
    [evaluate_application] returns APPROVE_INSTANT and the computed EMI is
    13,285.72 to within 0.01. *)
Theorem scenario_one_emi :
  forall (phone : string) (sal : option Q) (name : option string)
         (emi0 : option Q),
  exists e,
    evaluate_application
      (mkContext (Some phone) (Some 400000) (Some 36%Z) (Some 12) sal name
                 (Some 750%Z) (Some 500000%Z) emi0)
    = Ok (APPROVE_INSTANT, mkDetails None (Some e))
    /\ Qabs (e - (1328572 # 100)) <= 1 # 100.
Proof.
  intros phone sal name emi0. eexists. split.
  - vm_compute. reflexivity.
  - apply Qle_bool_iff. vm_compute. reflexivity.
Qed.

(** Counterexample to C3 as the specification words it: in scenario one
    the computed EMI is not within 0.01 of 13,289.48. *)
Lemma scenario_one_emi_not_13289_48 :
  exists e,
    evaluate_application (sample_context 400000 None)
    = Ok (APPROVE_INSTANT, mkDetails None (Some e))
    /\ ~ Qabs (e - (1328948 # 100)) <= 1 # 100.
Proof.
  eexists. split.
  - vm_compute. reflexivity.
  - intro H. apply Qle_bool_iff in H. vm_compute in H. discriminate.
Qed.

(** C9.  In the middle band (limit < loan <= 2 x limit, score >= 700) a
    missing [monthly_salary] and a declared salary that is not positive
    give the same result, REQUIRE_SALARY with the computed EMI (which is
    returned whenever the tenure is at least one month and the rate is not
    negative); and in every context a missing [annual_rate_pct] is
    evaluated as the rate 12.0. *)
Theorem middle_band_salary_and_default_rate :
  forall (phone : string) (la : Q) (n : Z) (a : option Q) (sal : Q)
         (name : option string) (cs pl : Z) (emi0 : option Q),
    (700 <= cs)%Z -> inject_Z pl < la -> la <= inject_Z (2 * pl) ->
    sal <= 0 ->
    let missing := mkContext (Some phone) (Some la) (Some n) a None name
                             (Some cs) (Some pl) emi0 in
    let declared := mkContext (Some phone) (Some la) (Some n) a (Some sal) name
                              (Some cs) (Some pl) emi0 in
    evaluate_application missing
    = (emi <- compute_emi la (get_default a 12) n ;;
       Ok (REQUIRE_SALARY,
           mkDetails (Some "Need salary slip to evaluate EMI threshold")
                     (Some emi)))
    /\ evaluate_application declared = evaluate_application missing
    /\ ((1 <= n)%Z -> 0 <= get_default a 12 ->
        exists emi,
          compute_emi la (get_default a 12) n = Ok emi
          /\ evaluate_application missing
             = Ok (REQUIRE_SALARY,
                   mkDetails (Some "Need salary slip to evaluate EMI threshold")
                             (Some emi))
          /\ evaluate_application declared
             = Ok (REQUIRE_SALARY,
                   mkDetails (Some "Need salary slip to evaluate EMI threshold")
                             (Some emi)))
    /\ (forall ph' la' n' sal' name' cs' pl' emi',
          evaluate_application
            (mkContext ph' la' n' None sal' name' cs' pl' emi')
          = evaluate_application
              (mkContext ph' la' n' (Some 12) sal' name' cs' pl' emi')).
Proof.
  intros phone la n a sal name cs pl emi0 Hcs Hpl Hla Hsal missing declared.
  apply Z.ltb_ge in Hcs. apply Qleb_false in Hpl.
  apply Qleb_true in Hla. apply Qleb_true in Hsal.
  unfold evaluate_application, missing, declared;
    cbn [bind getitem ctx_customer_phone ctx_loan_amount ctx_tenure_months
         ctx_annual_rate_pct ctx_monthly_salary ctx_credit_score
         ctx_pre_approved_limit get_default].
  rewrite Hcs, Hpl, Hla, Hsal.
  replace (Qleb 0 0) with true by reflexivity.
  split; [reflexivity|]. split; [reflexivity|]. split; [|reflexivity].
  intros Hn Ha.
  destruct (compute_emi_annuity la (get_default a 12) n Ha Hn)
    as (emi & He & _).
  exists emi. rewrite He. repeat split.
Qed.

(** Applies the middle-band theorem to the sample profile with a loan of
    700000 and a declared salary of zero. *)
Lemma middle_band_salary_and_default_rate_witness :
  evaluate_application (sample_context 700000 (Some 0))
  = evaluate_application (sample_context 700000 None).
Proof.
  apply (proj1 (proj2
    (middle_band_salary_and_default_rate "9876543210" 700000 36 (Some 12) 0
                                         None 750 500000 None
       ltac:(lia) ltac:(vm_compute; reflexivity)
       ltac:(vm_compute; discriminate) ltac:(vm_compute; discriminate)))).
Defined.

(** C10.  Two contexts that both hold a phone and agree on loan amount,
    tenure, rate, salary, credit score and pre-approved limit get the same
    decision and the same details, whatever the two phones are; the key
    is read all the same, and a context without it raises KeyError. *)
Theorem evaluate_application_ignores_phone :
  forall (phone1 phone2 : string) (la : option Q) (n : option Z)
         (a sal : option Q) (cs pl : option Z)
         (name1 name2 : option string) (emi1 emi2 : option Q),
    evaluate_application (mkContext (Some phone1) la n a sal name1 cs pl emi1)
    = evaluate_application (mkContext (Some phone2) la n a sal name2 cs pl emi2)
    /\ evaluate_application (mkContext None la n a sal name1 cs pl emi1)
       = Raise (KeyError "customer_phone").
Proof.
  intros. split; reflexivity.
Qed.

(* ================================================================== *)
(** * Properties of the conversation *)

Local Open Scope string_scope.

(** Case analysis on the next [if] of the goal. *)
Ltac break_if :=
  match goal with
  | |- context [if ?b then _ else _] => destruct b eqn:?
  end.

Lemma str_in_In (x : string) (l : list string) :
  str_in x l = true <-> In x l.
Proof.
  unfold str_in. rewrite existsb_exists. split.
  - intros (y & Hy & E). apply String.eqb_eq in E. now subst.
  - intro H. exists x. split; [exact H|apply String.eqb_refl].
Qed.

(** C6.  In every session, an utterance whose stripped, lowercased text is
    "restart", "reset", "start over" or "new" re-initializes the session:
    the state is COLLECT_PHONE, the collected data hold the default rate
    12.0 and nothing else (no phone, name, loan amount, tenure or salary,
    and the profile is None), and the latest status, the latest payload
    and the phone retry counter are cleared. *)
Theorem restart_resets_session :
  forall (db : list Customer) (message : string) (s : Session),
    In (lower (strip message)) ["restart"; "reset"; "start over"; "new"] ->
    handle_user_message db message s = (reset_conversation s, Ok tt)
    /\ conversation_state (reset_conversation s) = COLLECT_PHONE
    /\ collected_data (reset_conversation s)
       = mkData (Some 12%Q) None None None None None None
    /\ latest_status (reset_conversation s) = None
    /\ latest_payload (reset_conversation s) = None
    /\ phone_retry_count (reset_conversation s) = 0%nat.
Proof.
  intros db message s Hin.
  unfold handle_user_message.
  replace (str_in (lower (strip message)) RESTART_WORDS) with true
    by (symmetry; apply str_in_In; exact Hin).
  repeat split.
Qed.

(** Applies the restart theorem to the utterance "  Start Over " in a
    session that is ready to run. *)
Lemma restart_resets_session_witness :
  handle_user_message sample_db "  Start Over "
                      (sample_session READY_TO_RUN (Some 400000%Q))
  = (reset_conversation (sample_session READY_TO_RUN (Some 400000%Q)), Ok tt).
Proof.
  apply (restart_resets_session sample_db "  Start Over ").
  vm_compute. right. right. left. reflexivity.
Defined.

Local Close Scope string_scope.

Lemma py_max_l (a b : Q) : a <= py_max a b.
Proof.
  unfold py_max. destruct (Qltb a b) eqn:E.
  - apply Qltb_true in E. lra.
  - lra.
Qed.

Lemma py_max_r (a b : Q) : b <= py_max a b.
Proof.
  unfold py_max. destruct (Qltb a b) eqn:E.
  - lra.
  - apply Qltb_false in E. exact E.
Qed.

Lemma State_eqb_eq (a b : State) : State_eqb a b = true <-> a = b.
Proof. destruct a, b; cbn; split; congruence. Qed.

Lemma State_eqb_neq (a b : State) : State_eqb a b = false <-> a <> b.
Proof. destruct a, b; cbn; split; congruence. Qed.

(** The rate the sales agent proposes, as the resolver computes it. *)
Lemma proposed_rate_cases (best_rate current_rate : Q) (parsed : option Q) :
  let requested_rate :=
    if truthy_num parsed && Qltb (get_default parsed 0) 5 then None
    else parsed in
  let proposed_rate :=
    if truthy_num requested_rate
    then py_max best_rate (get_default requested_rate 0)
    else py_max best_rate (current_rate - (1 # 2)) in
  (forall requested, parsed = Some requested -> 5 <= requested ->
     proposed_rate = py_max best_rate requested)
  /\ ((forall requested, parsed = Some requested -> requested < 5) ->
      proposed_rate = py_max best_rate (current_rate - (1 # 2))).
Proof.
  destruct parsed as [r|]; cbn [truthy_num get_default]; split.
  - intros requested E H5. inversion E; subst requested.
    replace (Qltb r 5) with false by (symmetry; apply Qltb_false; exact H5).
    rewrite andb_false_r. cbn [truthy_num get_default].
    replace (Qeqb r 0) with false by (symmetry; apply Qeqb_false; lra).
    reflexivity.
  - intro H. specialize (H r eq_refl). apply Qltb_true in H. rewrite H.
    rewrite andb_true_r.
    destruct (Qeqb r 0) eqn:E0; cbn [negb truthy_num get_default].
    + rewrite E0. reflexivity.
    + reflexivity.
  - intros requested E. discriminate.
  - intros _. reflexivity.
Qed.

Section PipelineFacts.

Variable db : list Customer.

Lemma run_master_pipeline_loan_amount (s : Session) :
  d_loan_amount (collected_data (fst (run_master_pipeline db s)))
  = d_loan_amount (collected_data s).
Proof.
  unfold run_master_pipeline.
  destruct (d_customer_phone (collected_data s));
    destruct (d_loan_amount (collected_data s)) eqn:El;
    destruct (d_tenure_months (collected_data s));
    try (cbn; exact El).
  destruct (master_orchestrate db _ OUTPUT_DIR) as [[[status payload] c]|e];
    [destruct status|]; cbn; exact El.
Qed.

(** The pipeline always adds to the chat: a run is never a no-op. *)
Lemma run_master_pipeline_speaks (s : Session) :
  exists m rest,
    chat_history (fst (run_master_pipeline db s))
    = (chat_history s ++ m :: rest)%list.
Proof.
  unfold run_master_pipeline.
  destruct (d_customer_phone (collected_data s));
    destruct (d_loan_amount (collected_data s));
    destruct (d_tenure_months (collected_data s));
    try (cbn; eexists; exists []; reflexivity).
  destruct (master_orchestrate db _ OUTPUT_DIR) as [[[status payload] c]|e];
    [destruct status|]; cbn; rewrite <- ?app_assoc; cbn;
    eexists; eexists; reflexivity.
Qed.

End PipelineFacts.

(** C5 (amended).  For every utterance taken by the amount-adjustment
    branch in a state other than DONE, with a loan amount on file: a
    parsed amount that is positive and at least the current amount is
    declined and the loan amount stays; a parsed amount that is positive
    and smaller replaces the loan amount, and the pipeline is run right
    away exactly when the state is READY_TO_RUN; a parsed amount of zero
    only draws a request to repeat the figure and the loan amount stays. *)
Theorem amount_negotiation_only_decreases :
  forall (db : list Customer) (message : string) (state : State)
         (s : Session) (current_amount new_amount : Q),
    state <> DONE ->
    truthy_str (d_customer_phone (collected_data s)) = true ->
    wants_lower_rate message = false ->
    d_loan_amount (collected_data s) = Some current_amount ->
    ~ current_amount == 0 ->
    wants_amount_adjustment message = true ->
    extract_number message = Some new_amount ->
    let r := try_handle_negotiation db message state s in
    (new_amount <= 0 ->
       r = (add_assistant_message MsgAmountUnclear s, Ok true))
    /\ (0 < new_amount -> current_amount <= new_amount ->
        r = (add_assistant_message MsgAmountDeclined s, Ok true))
    /\ (0 < new_amount -> new_amount < current_amount ->
        exists note,
          let s1 := add_assistant_message
                      (MsgAmountReshaped new_amount note)
                      (update_data (set_d_loan_amount (Some new_amount)) s) in
          let rerun := run_master_pipeline
                         db (add_assistant_message MsgRefreshChecks s1) in
          (state = READY_TO_RUN ->
             r = (fst rerun, _ <- snd rerun ;; Ok true))
          /\ (state <> READY_TO_RUN -> r = (s1, Ok true))
          /\ d_loan_amount (collected_data (fst r)) = Some new_amount).
Proof.
  intros db message state s cur new Hst Hphone Hrate Hloan Hcur Hadj Hnum r.
  apply State_eqb_neq in Hst. apply Qeqb_false in Hcur.
  unfold r, try_handle_negotiation. cbv zeta.
  rewrite Hphone, Hrate, Hloan, Hadj, Hnum, Hst.
  cbn [negb truthy_num get_default andb]. rewrite Hcur. cbn [negb andb].
  repeat split.
  - intro Hle. apply Qleb_true in Hle. rewrite Hle, orb_true_r. reflexivity.
  - intros Hpos Hge.
    replace (Qeqb new 0) with false by (symmetry; apply Qeqb_false; lra).
    replace (Qleb new 0) with false by (symmetry; apply Qleb_false; lra).
    cbn [negb orb]. apply Qleb_true in Hge. rewrite Hge. reflexivity.
  - intros Hpos Hlt.
    replace (Qeqb new 0) with false by (symmetry; apply Qeqb_false; lra).
    replace (Qleb new 0) with false by (symmetry; apply Qleb_false; lra).
    cbn [negb orb]. apply Qleb_false in Hlt. rewrite Hlt.
    match goal with
    | |- context [MsgAmountReshaped new ?n] => set (note := n); exists note
    end.
    cbv zeta. split; [|split].
    + intro E. subst state. cbn [State_eqb].
      destruct (run_master_pipeline db _) as [s2 res]. reflexivity.
    + intro NE. apply State_eqb_neq in NE. rewrite NE. reflexivity.
    + destruct (State_eqb state READY_TO_RUN).
      * match goal with
        | |- context [run_master_pipeline db ?x] =>
            pose proof (run_master_pipeline_loan_amount db x) as Hp;
            destruct (run_master_pipeline db x) as [s2 res]
        end.
        cbn [fst] in *. rewrite Hp. reflexivity.
      * reflexivity.
Qed.

(** Applies the amount theorem to "make the loan amount 450000 instead"
    when 700000 is on file and the session is ready to run. *)
Lemma amount_negotiation_only_decreases_witness :
  d_loan_amount
    (collected_data
       (fst (try_handle_negotiation
               sample_db "make the loan amount 450000 instead" READY_TO_RUN
               (sample_session READY_TO_RUN (Some 700000)))))
  = Some 450000.
Proof.
  destruct (proj2 (proj2
    (amount_negotiation_only_decreases
       sample_db "make the loan amount 450000 instead" READY_TO_RUN
       (sample_session READY_TO_RUN (Some 700000)) 700000 450000
       ltac:(discriminate) ltac:(reflexivity) ltac:(reflexivity)
       ltac:(reflexivity) ltac:(vm_compute; discriminate)
       ltac:(reflexivity) ltac:(reflexivity)))
    ltac:(vm_compute; reflexivity) ltac:(vm_compute; reflexivity))
    as (note & _ & _ & H).
  exact H.
Defined.

(** Counterexample to C5 as the specification words it: a parsed amount
    of zero is smaller than the 700000 on file, the utterance is taken by
    the amount branch in a non-terminal state, and the loan amount is not
    replaced. *)
Lemma amount_zero_is_not_applied :
  let message := "make the loan amount 0 instead"%string in
  let s := sample_session COLLECT_TENURE (Some 700000) in
  let r := try_handle_negotiation sample_db message COLLECT_TENURE s in
  wants_lower_rate message = false
  /\ wants_amount_adjustment message = true
  /\ extract_number message = Some 0
  /\ 0 < 700000
  /\ snd r = Ok true
  /\ d_loan_amount (collected_data (fst r)) = Some 700000
  /\ d_loan_amount (collected_data (fst r)) <> Some 0.
Proof.
  vm_compute. repeat split; discriminate.
Qed.

(** With every key present, a tenure of at least one month and a rate that
    is not negative, underwriting returns a decision, and any EMI in its
    details is the one [compute_emi] gives for the context's values. *)
Lemma evaluate_application_returns (c : Context) (phone : string) (la : Q)
      (n : Z) (a : Q) (cs pl : Z) :
  ctx_customer_phone c = Some phone ->
  ctx_loan_amount c = Some la ->
  ctx_tenure_months c = Some n ->
  ctx_annual_rate_pct c = Some a ->
  ctx_credit_score c = Some cs ->
  ctx_pre_approved_limit c = Some pl ->
  (1 <= n)%Z -> 0 <= a ->
  exists decision details,
    evaluate_application c = Ok (decision, details)
    /\ (forall e, det_emi details = Some e -> compute_emi la a n = Ok e)
    /\ (decision <> REJECT -> exists e, det_emi details = Some e)
    /\ (decision = REJECT -> exists why, det_reason details = Some why).
Proof.
  intros Hph Hla Hn Ha Hcs Hpl Hn1 Ha0.
  destruct (compute_emi_annuity la a n Ha0 Hn1) as (e & He & _).
  unfold evaluate_application.
  rewrite Hph, Hla, Hn, Ha, Hcs, Hpl.
  cbn [getitem bind get_default]. rewrite He. cbn [bind].
  destruct (cs <? 700)%Z;
    [|destruct (Qleb la (inject_Z pl));
      [|destruct (Qleb la (inject_Z (2 * pl)));
        [destruct (Qleb (get_default (ctx_monthly_salary c) 0) 0);
         [|destruct (Qleb e ((1 # 2) * get_default (ctx_monthly_salary c) 0))]|]]];
    do 2 eexists; (split; [reflexivity|]); cbn [det_emi det_reason];
    repeat split; intros; try congruence; try (eexists; reflexivity).
Qed.

Section PipelineRecomputes.

Variable db : list Customer.

(** What [master_orchestrate] returns for the context that
    [run_master_pipeline] builds. *)
Lemma master_orchestrate_fresh (ph : string) (la : Q) (n : Z) (rate : Q)
      (sal : option Q) :
  (1 <= n)%Z -> 0 <= rate ->
  exists status payload c',
    master_orchestrate
      db (mkContext (Some ph) (Some la) (Some n) (Some rate) sal
                    None None None None) OUTPUT_DIR
    = Ok (status, payload, c')
    /\ (status = KYC_FAILED <-> crm_get_customer_by_phone db ph = None)
    /\ (status <> KYC_FAILED ->
        exists name decision details,
          evaluate_application
            (mkContext (Some ph) (Some la) (Some n) (Some rate) sal
                       (Some name)
                       (Some (credit_bureau_get_score db ph))
                       (Some (offer_mart_get_preapproved_limit db ph))
                       None)
          = Ok (decision, details)
          /\ status = status_of_decision decision
          /\ (decision <> REJECT -> pl_emi payload = det_emi details)
          /\ (decision = REJECT -> pl_reason payload = det_reason details))
    /\ (forall e, pl_emi payload = Some e -> compute_emi la rate n = Ok e)
    /\ (status = APPROVED \/ status = STATUS_REQUIRE_SALARY ->
        exists e, pl_emi payload = Some e).
Proof.
  intros Hn Hr.
  unfold master_orchestrate. cbn [getitem bind ctx_customer_phone].
  unfold task_verify.
  destruct (crm_get_customer_by_phone db ph) as [cust|] eqn:Ecrm;
    cbn [verified negb].
  - set (c1 := set_pre_approved_limit _ _).
    destruct (evaluate_application_returns
                c1 ph la n rate (credit_bureau_get_score db ph)
                (offer_mart_get_preapproved_limit db ph)
                eq_refl eq_refl eq_refl eq_refl eq_refl eq_refl Hn Hr)
      as (decision & details & Hev & Hemi & Hsome & Hwhy).
    unfold task_underwrite. rewrite Hev. cbn [bind uw_decision uw_emi uw_reason].
    destruct decision.
    + destruct (Hsome ltac:(discriminate)) as (e & He).
      cbn [task_sanction_pdf]. unfold task_sanction_pdf.
      cbn [set_emi c1 set_pre_approved_limit set_credit_score
           set_customer_name ctx_customer_phone ctx_customer_name
           ctx_loan_amount ctx_tenure_months ctx_emi getitem bind ver_name].
      do 3 eexists. split; [reflexivity|]. cbn [pl_emi].
      split; [split; intro; discriminate|].
      split; [|split].
      * intros _. exists (cust_name cust), APPROVE_INSTANT, details.
        split; [exact Hev|]. split; [reflexivity|].
        split; [reflexivity|discriminate].
      * exact Hemi.
      * intros _. exists e. exact He.
    + destruct (Hsome ltac:(discriminate)) as (e & He).
      do 3 eexists. split; [reflexivity|]. cbn [pl_emi].
      split; [split; intro; discriminate|].
      split; [|split].
      * intros _. exists (cust_name cust), REQUIRE_SALARY, details.
        split; [exact Hev|]. split; [reflexivity|].
        split; [reflexivity|discriminate].
      * exact Hemi.
      * intros _. exists e. exact He.
    + do 3 eexists. split; [reflexivity|]. cbn [pl_emi].
      split; [split; intro; discriminate|].
      split; [|split].
      * intros _. exists (cust_name cust), REJECT, details.
        split; [exact Hev|]. split; [reflexivity|].
        split; [intro H; contradiction|reflexivity].
      * intros e He. discriminate.
      * intros [H|H]; discriminate.
  - do 3 eexists. split; [reflexivity|]. cbn [pl_emi].
    split; [split; reflexivity|].
    split; [intro H; contradiction|].
    split; [intros e He; discriminate|].
    intros [H|H]; discriminate.
Qed.

End PipelineRecomputes.

(** C7.  Every pipeline run on data holding a phone, a loan amount and a
    tenure (at least one month, rate not negative) completes and stores a
    status and payload that are computed anew from the current values:
    the phone is verified again, the credit score and pre-approved limit
    are fetched again, underwriting is evaluated on them, and any EMI in
    the payload is [compute_emi] of the current loan amount, rate and
    tenure.  The status and payload depend only on the current phone, loan
    amount, tenure, rate and salary: whatever else a session holds from
    earlier turns does not enter. *)
Theorem pipeline_recomputes_from_current_data :
  forall (db : list Customer) (s : Session) (ph : string) (la : Q) (n : Z),
    let data := collected_data s in
    let rate := get_default (d_annual_rate_pct data) DEFAULT_RATE in
    d_customer_phone data = Some ph ->
    d_loan_amount data = Some la ->
    d_tenure_months data = Some n ->
    (1 <= n)%Z -> 0 <= rate ->
    exists s' status payload,
      run_master_pipeline db s = (s', Ok tt)
      /\ latest_status s' = Some status
      /\ latest_payload s' = Some payload
      /\ (status = KYC_FAILED <-> crm_get_customer_by_phone db ph = None)
      /\ (status <> KYC_FAILED ->
          exists name decision details,
            evaluate_application
              (mkContext (Some ph) (Some la) (Some n) (Some rate)
                         (d_monthly_salary data) (Some name)
                         (Some (credit_bureau_get_score db ph))
                         (Some (offer_mart_get_preapproved_limit db ph))
                         None)
            = Ok (decision, details)
            /\ status = status_of_decision decision
            /\ (decision <> REJECT -> pl_emi payload = det_emi details)
            /\ (decision = REJECT -> pl_reason payload = det_reason details))
      /\ (forall e, pl_emi payload = Some e -> compute_emi la rate n = Ok e)
      /\ (status = APPROVED \/ status = STATUS_REQUIRE_SALARY ->
          exists e, pl_emi payload = Some e)
      /\ (forall s2,
            d_customer_phone (collected_data s2) = Some ph ->
            d_loan_amount (collected_data s2) = Some la ->
            d_tenure_months (collected_data s2) = Some n ->
            get_default (d_annual_rate_pct (collected_data s2)) DEFAULT_RATE
            = rate ->
            d_monthly_salary (collected_data s2) = d_monthly_salary data ->
            latest_status (fst (run_master_pipeline db s2)) = Some status
            /\ latest_payload (fst (run_master_pipeline db s2)) = Some payload).
Proof.
  intros db s ph la n data rate Hph Hla Hten Hn Hr.
  destruct (master_orchestrate_fresh db ph la n rate (d_monthly_salary data)
                                     Hn Hr)
    as (status & payload & c' & Hmo & Hkyc & Hdec & Hemi & Hsome).
  assert (Hrun : forall s2,
    d_customer_phone (collected_data s2) = Some ph ->
    d_loan_amount (collected_data s2) = Some la ->
    d_tenure_months (collected_data s2) = Some n ->
    get_default (d_annual_rate_pct (collected_data s2)) DEFAULT_RATE = rate ->
    d_monthly_salary (collected_data s2) = d_monthly_salary data ->
    snd (run_master_pipeline db s2) = Ok tt
    /\ latest_status (fst (run_master_pipeline db s2)) = Some status
    /\ latest_payload (fst (run_master_pipeline db s2)) = Some payload).
  { intros s2 H1 H2 H3 H4 H5. unfold run_master_pipeline.
    rewrite H1, H2, H3, H4, H5, Hmo.
    destruct status; cbn; repeat split; reflexivity. }
  destruct (Hrun s Hph Hla Hten eq_refl eq_refl) as (Hok & Hst & Hpl).
  exists (fst (run_master_pipeline db s)), status, payload.
  split.
  { rewrite <- Hok. destruct (run_master_pipeline db s) as [s' res].
    destruct res as [[]|]; reflexivity. }
  split; [exact Hst|]. split; [exact Hpl|]. split; [exact Hkyc|].
  split; [exact Hdec|]. split; [exact Hemi|]. split; [exact Hsome|].
  intros s2 H1 H2 H3 H4 H5.
  destruct (Hrun s2 H1 H2 H3 H4 H5) as (_ & Hst2 & Hpl2).
  split; assumption.
Qed.

(** Applies the pipeline theorem to the sample customer with 400000 over
    36 months on file. *)
Lemma pipeline_recomputes_from_current_data_witness :
  exists s' status payload,
    run_master_pipeline sample_db (sample_session READY_TO_RUN (Some 400000))
    = (s', Ok tt)
    /\ latest_status s' = Some status
    /\ latest_payload s' = Some payload
    /\ (forall e, pl_emi payload = Some e -> compute_emi 400000 12 36 = Ok e).
Proof.
  destruct (pipeline_recomputes_from_current_data
              sample_db (sample_session READY_TO_RUN (Some 400000))
              "9876543210" 400000 36
              ltac:(reflexivity) ltac:(reflexivity) ltac:(reflexivity)
              ltac:(lia) ltac:(vm_compute; discriminate))
    as (s' & status & payload & H1 & H2 & H3 & _ & _ & H6 & _).
  exists s', status, payload. repeat split; assumption.
Defined.

(* ------------------------------------------------------------------ *)
(** ** The phone is on file only after verification *)

Section PhoneInvariant.

Variable db : list Customer.

Ltac same_state_and_phone H :=
  unfold phone_unset_while_collecting in *; cbn; try exact H;
  try (intro; discriminate); try reflexivity.

Lemma run_master_pipeline_keeps_invariant (s : Session) :
  phone_unset_while_collecting s ->
  phone_unset_while_collecting (fst (run_master_pipeline db s)).
Proof.
  intro H. unfold run_master_pipeline.
  destruct (d_customer_phone (collected_data s)) eqn:Eph;
    destruct (d_loan_amount (collected_data s));
    destruct (d_tenure_months (collected_data s));
    try (same_state_and_phone H; fail).
  destruct (master_orchestrate db _ OUTPUT_DIR) as [[[status payload] c]|e];
    [destruct status|]; same_state_and_phone H.
Qed.

Lemma try_handle_negotiation_keeps_invariant (message : string)
      (state : State) (s : Session) :
  phone_unset_while_collecting s ->
  phone_unset_while_collecting
    (fst (try_handle_negotiation db message state s)).
Proof.
  intro H. unfold try_handle_negotiation. cbv zeta.
  repeat break_if; try (same_state_and_phone H; fail);
    match goal with
    | |- context [run_master_pipeline db ?x] =>
        assert (Hx : phone_unset_while_collecting x)
          by (same_state_and_phone H);
        apply run_master_pipeline_keeps_invariant in Hx;
        destruct (run_master_pipeline db x) as [s2 res]
    end;
    exact Hx.
Qed.

(** Without a phone on file the resolver declines and changes nothing. *)
Lemma try_handle_negotiation_no_phone (message : string) (state : State)
      (s : Session) :
  d_customer_phone (collected_data s) = None ->
  try_handle_negotiation db message state s = (s, Ok false).
Proof.
  intro H. unfold try_handle_negotiation. cbv zeta. rewrite H. reflexivity.
Qed.

(** A message the resolver declines leaves the session as it was. *)
Lemma try_handle_negotiation_declined (message : string) (state : State)
      (s s' : Session) :
  try_handle_negotiation db message state s = (s', Ok false) -> s' = s.
Proof.
  unfold try_handle_negotiation. cbv zeta.
  repeat break_if; intro E; try (inversion E; reflexivity; fail);
    try discriminate;
    destruct (run_master_pipeline db _) as [s2 [[]|e]]; discriminate.
Qed.

Lemma handle_collect_phone_keeps_invariant (message : string) (s : Session) :
  phone_unset_while_collecting s ->
  phone_unset_while_collecting (fst (handle_collect_phone db message s)).
Proof.
  intro H. unfold handle_collect_phone, next_phone_prompt. cbv zeta.
  repeat break_if; same_state_and_phone H.
Qed.

Lemma handle_collect_loan_keeps_invariant (message : string) (s : Session) :
  phone_unset_while_collecting s ->
  phone_unset_while_collecting (fst (handle_collect_loan message s)).
Proof.
  intro H. unfold handle_collect_loan. cbv zeta.
  destruct (extract_number message); repeat break_if;
    same_state_and_phone H.
Qed.

Lemma handle_collect_tenure_keeps_invariant (message : string) (s : Session) :
  phone_unset_while_collecting s ->
  phone_unset_while_collecting (fst (handle_collect_tenure message s)).
Proof.
  intro H. unfold handle_collect_tenure. cbv zeta.
  destruct (parse_tenure message) as [[?|]|?]; repeat break_if;
    same_state_and_phone H.
Qed.

Lemma handle_ask_salary_option_keeps_invariant (message : string)
      (s : Session) :
  phone_unset_while_collecting s ->
  phone_unset_while_collecting (fst (handle_ask_salary_option db message s)).
Proof.
  intro H. unfold handle_ask_salary_option. cbv zeta.
  repeat break_if; try (same_state_and_phone H; fail).
  apply run_master_pipeline_keeps_invariant. same_state_and_phone H.
Qed.

Lemma handle_collect_salary_keeps_invariant (message : string) (s : Session) :
  phone_unset_while_collecting s ->
  phone_unset_while_collecting (fst (handle_collect_salary db message s)).
Proof.
  intro H. unfold handle_collect_salary. cbv zeta.
  destruct (extract_number message); repeat break_if;
    try (same_state_and_phone H; fail).
  apply run_master_pipeline_keeps_invariant. same_state_and_phone H.
Qed.

Lemma handle_user_message_keeps_invariant (message : string) (s : Session) :
  phone_unset_while_collecting s ->
  phone_unset_while_collecting (fst (handle_user_message db message s)).
Proof.
  intro H. unfold handle_user_message.
  destruct (str_in (lower (strip message)) RESTART_WORDS).
  - intros _. reflexivity.
  - pose proof (try_handle_negotiation_keeps_invariant
                  message (conversation_state s) s H) as Hneg.
    destruct (try_handle_negotiation db message (conversation_state s) s)
      as [s1 [[|]|e]] eqn:E; cbn [fst] in *; try exact Hneg.
    apply try_handle_negotiation_declined in E. subst s1.
    destruct (conversation_state s) eqn:Est.
    + now apply handle_collect_phone_keeps_invariant.
    + now apply handle_collect_loan_keeps_invariant.
    + now apply handle_collect_tenure_keeps_invariant.
    + now apply handle_ask_salary_option_keeps_invariant.
    + now apply handle_collect_salary_keeps_invariant.
    + now apply run_master_pipeline_keeps_invariant.
    + intro Hc. cbn in Hc. congruence.
Qed.

(** In every reachable session that is collecting the phone, no phone is
    on file. *)
Lemma reachable_phone_unset (s : Session) :
  reachable db s -> phone_unset_while_collecting s.
Proof.
  induction 1 as [s0|s message Hs IH].
  - intros _. reflexivity.
  - now apply handle_user_message_keeps_invariant.
Qed.

End PhoneInvariant.

(** C8.  In every reachable session in state COLLECT_PHONE, an utterance
    with at least ten digits whose last ten digits are a phone the data
    provider does not know ends the turn in state COLLECT_PHONE with no
    [customer_phone] in the collected data. *)
Theorem unknown_phone_stays_unset :
  forall (db : list Customer) (s : Session) (message : string),
    reachable db s ->
    conversation_state s = COLLECT_PHONE ->
    (10 <= String.length (digits_of message))%nat ->
    crm_get_customer_by_phone db (last10 (digits_of message)) = None ->
    snd (handle_user_message db message s) = Ok tt
    /\ conversation_state (fst (handle_user_message db message s))
       = COLLECT_PHONE
    /\ d_customer_phone (collected_data (fst (handle_user_message db message s)))
       = None.
Proof.
  intros db s message Hreach Hstate Hlen Hcrm.
  pose proof (reachable_phone_unset db s Hreach Hstate) as Hphone.
  unfold handle_user_message.
  destruct (str_in (lower (strip message)) RESTART_WORDS).
  - repeat split.
  - rewrite (try_handle_negotiation_no_phone db message _ s Hphone).
    rewrite Hstate. unfold handle_collect_phone. cbv zeta.
    destruct (digits_of message) as [|c t] eqn:Ed; [cbn in Hlen; lia|].
    cbn [String.eqb].
    replace (String.length (String c t) <? 10)%nat with false
      by (symmetry; apply Nat.ltb_ge; exact Hlen).
    unfold task_verify. rewrite Hcrm. cbn [verified negb].
    cbn. rewrite Hstate. repeat split.
Qed.

(** Applies the unknown-phone theorem to a fresh session and a number that
    is not in the sample record set. *)
Lemma unknown_phone_stays_unset_witness :
  d_customer_phone
    (collected_data
       (fst (handle_user_message
               sample_db "my number is 11111 11111"
               (reset_conversation (sample_session DONE None)))))
  = None.
Proof.
  apply (unknown_phone_stays_unset
           sample_db (reset_conversation (sample_session DONE None))
           "my number is 11111 11111").
  - apply reach_reset.
  - reflexivity.
  - vm_compute. lia.
  - reflexivity.
Defined.

(* ------------------------------------------------------------------ *)
(** ** The stored rate stays at or above the best rate *)

Section RateInvariant.

Variable db : list Customer.

Lemma compute_best_rate_le_default (profile : option Customer) :
  compute_best_rate profile <= DEFAULT_RATE.
Proof.
  unfold compute_best_rate, DEFAULT_RATE.
  repeat break_if; apply Qle_bool_iff; reflexivity.
Qed.

(** The pipeline reports KYC_FAILED only for a phone the provider does
    not know. *)
Lemma master_orchestrate_kyc_failed (c c' : Context) (dir : string)
      (ph : string) (payload : Payload) :
  ctx_customer_phone c = Some ph ->
  master_orchestrate db c dir = Ok (KYC_FAILED, payload, c') ->
  crm_get_customer_by_phone db ph = None.
Proof.
  intros Hph. unfold master_orchestrate. rewrite Hph.
  cbn [getitem bind]. unfold task_verify.
  destruct (crm_get_customer_by_phone db ph) as [cust|]; [|reflexivity].
  cbn [verified negb].
  destruct (task_underwrite _) as [uw|e]; cbn [bind]; [|discriminate].
  destruct (uw_decision uw); try discriminate.
  destruct (task_sanction_pdf _ _) as [path|e]; cbn [bind]; discriminate.
Qed.

(** The invariant reads only the rate, the phone and the profile. *)
Lemma rate_respects_floor_fields (s s' : Session) :
  d_annual_rate_pct (collected_data s') = d_annual_rate_pct (collected_data s) ->
  d_customer_phone (collected_data s') = d_customer_phone (collected_data s) ->
  d_customer_profile (collected_data s')
  = d_customer_profile (collected_data s) ->
  rate_respects_floor db s -> rate_respects_floor db s'.
Proof.
  unfold rate_respects_floor. intros E1 E2 E3 H.
  rewrite E1, E2, E3. exact H.
Qed.

Ltac same_fields s H :=
  apply (rate_respects_floor_fields s); [reflexivity|reflexivity|reflexivity|exact H].

Lemma run_master_pipeline_keeps_floor (s : Session) :
  rate_respects_floor db s ->
  rate_respects_floor db (fst (run_master_pipeline db s)).
Proof.
  intro H. unfold run_master_pipeline.
  destruct (d_customer_phone (collected_data s)) as [ph|] eqn:Eph;
    destruct (d_loan_amount (collected_data s));
    destruct (d_tenure_months (collected_data s));
    try (same_fields s H; fail).
  destruct (master_orchestrate db _ OUTPUT_DIR) as [[[status payload] c]|e] eqn:Emo;
    [destruct status|];
    try (same_fields s H; fail).
  apply (master_orchestrate_kyc_failed _ _ _ ph) in Emo; [|reflexivity].
  destruct H as (r & _ & Hm). rewrite Eph in Hm. tauto.
Qed.

Lemma try_handle_negotiation_keeps_floor (message : string) (state : State)
      (s : Session) :
  rate_respects_floor db s ->
  rate_respects_floor db (fst (try_handle_negotiation db message state s)).
Proof.
  intro H. unfold try_handle_negotiation. cbv zeta.
  destruct (d_customer_phone (collected_data s)) as [ph|] eqn:Eph;
    [|exact H].
  destruct (negb (truthy_str (Some ph))); [exact H|].
  destruct (wants_lower_rate message).
  - destruct (State_eqb state DONE); [same_fields s H|].
    break_if; [|same_fields s H].
    unfold rate_respects_floor in *. cbn.
    destruct H as (r & Hr & Hm). rewrite Eph in *.
    destruct Hm as (Hcrm & Hprof & Hfloor).
    eexists. split; [reflexivity|].
    split; [exact Hcrm|]. split; [exact Hprof|].
    break_if; apply py_max_l.
  - repeat break_if; try (same_fields s H; fail);
      match goal with
      | |- context [run_master_pipeline db ?x] =>
          assert (Hx : rate_respects_floor db x) by (same_fields s H);
          apply run_master_pipeline_keeps_floor in Hx;
          destruct (run_master_pipeline db x) as [s2 res]
      end;
      exact Hx.
Qed.

Lemma handle_collect_phone_keeps_floor (message : string) (s : Session) :
  d_customer_phone (collected_data s) = None ->
  rate_respects_floor db s ->
  rate_respects_floor db (fst (handle_collect_phone db message s)).
Proof.
  intros Hnone H. unfold handle_collect_phone, next_phone_prompt. cbv zeta.
  repeat break_if; try (same_fields s H; fail);
    first
      [ (* unknown phone: the tentative phone is popped *)
        solve [unfold rate_respects_floor in *; cbn; rewrite Hnone in H;
               exact H]
      | (* verified: the rate is still the default *)
        unfold rate_respects_floor in *; cbn;
        destruct H as (r & Hr & Hm); rewrite Hnone in Hm; subst r;
        exists DEFAULT_RATE; split; [exact Hr|];
        match goal with
        | Hv : negb (verified (task_verify db ?p)) = false |- _ =>
            unfold task_verify in Hv;
            destruct (crm_get_customer_by_phone db p) eqn:Ecrm;
            [|discriminate Hv]
        end;
        split; [discriminate|]; split; [reflexivity|];
        apply compute_best_rate_le_default ].
Qed.

Lemma handle_user_message_keeps_floor (message : string) (s : Session) :
  phone_unset_while_collecting s ->
  rate_respects_floor db s ->
  rate_respects_floor db (fst (handle_user_message db message s)).
Proof.
  intros Hphone H. unfold handle_user_message.
  destruct (str_in (lower (strip message)) RESTART_WORDS).
  - exists DEFAULT_RATE. split; reflexivity.
  - pose proof (try_handle_negotiation_keeps_floor
                  message (conversation_state s) s H) as Hneg.
    destruct (try_handle_negotiation db message (conversation_state s) s)
      as [s1 [[|]|e]] eqn:E; cbn [fst] in *; try exact Hneg.
    apply try_handle_negotiation_declined in E. subst s1.
    destruct (conversation_state s) eqn:Est.
    + apply handle_collect_phone_keeps_floor; [|exact H].
      apply Hphone. exact Est.
    + unfold handle_collect_loan. cbv zeta.
      destruct (extract_number message); repeat break_if; same_fields s H.
    + unfold handle_collect_tenure. cbv zeta.
      destruct (parse_tenure message) as [[?|]|?]; repeat break_if; same_fields s H.
    + unfold handle_ask_salary_option. cbv zeta.
      repeat break_if; try (same_fields s H; fail).
      apply run_master_pipeline_keeps_floor. same_fields s H.
    + unfold handle_collect_salary. cbv zeta.
      destruct (extract_number message); repeat break_if;
        try (same_fields s H; fail).
      apply run_master_pipeline_keeps_floor. same_fields s H.
    + now apply run_master_pipeline_keeps_floor.
    + same_fields s H.
Qed.

(** In every reachable session with a phone on file the stored rate is at
    or above the best rate of the customer's profile. *)
Lemma reachable_rate_respects_floor (s : Session) :
  reachable db s -> rate_respects_floor db s.
Proof.
  induction 1 as [s0|s message Hs IH].
  - exists DEFAULT_RATE. split; reflexivity.
  - apply handle_user_message_keeps_floor; [|exact IH].
    now apply (reachable_phone_unset db).
Qed.

End RateInvariant.

(* ------------------------------------------------------------------ *)
(** ** What the pipeline is run on in reachable sessions *)

Section PipelineInputs.

Variable db : list Customer.

Lemma tenure_within_bounds_field (s s' : Session) :
  d_tenure_months (collected_data s') = d_tenure_months (collected_data s) ->
  tenure_within_bounds s -> tenure_within_bounds s'.
Proof.
  unfold tenure_within_bounds. intros E H. rewrite E. exact H.
Qed.

Ltac same_tenure s H :=
  apply (tenure_within_bounds_field s); [reflexivity|exact H].

Lemma run_master_pipeline_keeps_tenure (s : Session) :
  tenure_within_bounds s ->
  tenure_within_bounds (fst (run_master_pipeline db s)).
Proof.
  intro H. unfold run_master_pipeline.
  destruct (d_customer_phone (collected_data s));
    destruct (d_loan_amount (collected_data s));
    destruct (d_tenure_months (collected_data s)) eqn:Et;
    try (same_tenure s H; fail).
  destruct (master_orchestrate db _ OUTPUT_DIR) as [[[status payload] c]|e];
    [destruct status|]; same_tenure s H.
Qed.

Lemma try_handle_negotiation_keeps_tenure (message : string) (state : State)
      (s : Session) :
  tenure_within_bounds s ->
  tenure_within_bounds (fst (try_handle_negotiation db message state s)).
Proof.
  intro H. unfold try_handle_negotiation. cbv zeta.
  repeat break_if; try (same_tenure s H; fail);
    match goal with
    | |- context [run_master_pipeline db ?x] =>
        assert (Hx : tenure_within_bounds x) by (same_tenure s H);
        apply run_master_pipeline_keeps_tenure in Hx;
        destruct (run_master_pipeline db x) as [s2 res]
    end;
    exact Hx.
Qed.

Lemma handle_user_message_keeps_tenure (message : string) (s : Session) :
  tenure_within_bounds s ->
  tenure_within_bounds (fst (handle_user_message db message s)).
Proof.
  intro H. unfold handle_user_message.
  destruct (str_in (lower (strip message)) RESTART_WORDS).
  - intros n E. discriminate E.
  - pose proof (try_handle_negotiation_keeps_tenure
                  message (conversation_state s) s H) as Hneg.
    destruct (try_handle_negotiation db message (conversation_state s) s)
      as [s1 [[|]|e]] eqn:E; cbn [fst] in *; try exact Hneg.
    apply try_handle_negotiation_declined in E. subst s1.
    destruct (conversation_state s) eqn:Est.
    + unfold handle_collect_phone, next_phone_prompt. cbv zeta.
      repeat break_if; same_tenure s H.
    + unfold handle_collect_loan. cbv zeta.
      destruct (extract_number message); repeat break_if; same_tenure s H.
    + unfold handle_collect_tenure. cbv zeta.
      destruct (parse_tenure message) as [[tenure|]|err];
        [|same_tenure s H|same_tenure s H].
      destruct ((tenure <? MIN_TENURE)%Z || (MAX_TENURE <? tenure)%Z) eqn:Eb;
        [same_tenure s H|].
      apply orb_false_iff in Eb. destruct Eb as [E1 E2].
      apply Z.ltb_ge in E1. apply Z.ltb_ge in E2.
      intros n En. cbn in En. inversion En; subst n. split; assumption.
    + unfold handle_ask_salary_option. cbv zeta.
      repeat break_if; try (same_tenure s H; fail).
      apply run_master_pipeline_keeps_tenure. same_tenure s H.
    + unfold handle_collect_salary. cbv zeta.
      destruct (extract_number message); repeat break_if;
        try (same_tenure s H; fail).
      apply run_master_pipeline_keeps_tenure. same_tenure s H.
    + now apply run_master_pipeline_keeps_tenure.
    + same_tenure s H.
Qed.

Lemma reachable_tenure_within_bounds (s : Session) :
  reachable db s -> tenure_within_bounds s.
Proof.
  induction 1 as [s0|s message Hs IH].
  - intros n E. discriminate E.
  - now apply handle_user_message_keeps_tenure.
Qed.

Lemma compute_best_rate_positive (profile : option Customer) :
  0 < compute_best_rate profile.
Proof.
  unfold compute_best_rate. repeat break_if; reflexivity.
Qed.

(** In every reachable session the tenure on file is at least one month
    and the rate is not negative: the conditions under which the pipeline
    always completes. *)
Lemma reachable_pipeline_inputs (s : Session) (n : Z) :
  reachable db s ->
  d_tenure_months (collected_data s) = Some n ->
  (1 <= n)%Z
  /\ 0 <= get_default (d_annual_rate_pct (collected_data s)) DEFAULT_RATE.
Proof.
  intros Hreach Hn. split.
  - apply (reachable_tenure_within_bounds s Hreach) in Hn.
    unfold MIN_TENURE in Hn. lia.
  - destruct (reachable_rate_respects_floor db s Hreach) as (r & Er & Hm).
    rewrite Er. cbn [get_default].
    destruct (d_customer_phone (collected_data s)).
    + destruct Hm as (_ & _ & Hfl).
      pose proof (compute_best_rate_positive
                    (d_customer_profile (collected_data s))).
      lra.
    + subst r. unfold DEFAULT_RATE. lra.
Qed.

End PipelineInputs.

(** C4.  For every utterance taken by the rate-reduction branch in a state
    other than DONE: the proposed rate is the larger of best_rate and the
    requested rate when the utterance states a number >= 5, and the larger
    of best_rate and current - 0.5 otherwise, where best_rate steps with
    the credit score of the profile on file (>= 800: 9.75, >= 760: 10.25,
    >= 720: 10.75, >= 680: 11.25, else 11.75, a missing score counting as
    0); the stored rate is replaced by the proposed rate exactly when that
    is strictly lower, and nothing else on file changes, so the rate never
    increases, and a rate at or above best_rate, as it is in every
    reachable session, stays at or above it. *)
Theorem rate_negotiation_never_increases :
  forall (db : list Customer) (message : string) (state : State)
         (s : Session) (phone : string),
    state <> DONE ->
    d_customer_phone (collected_data s) = Some phone ->
    phone <> ""%string ->
    wants_lower_rate message = true ->
    let data := collected_data s in
    let current_rate :=
      match d_annual_rate_pct data with Some r => r | None => 12 end in
    let score :=
      match d_customer_profile data with
      | Some profile =>
          match cust_credit_score profile with Some v => v | None => 0%Z end
      | None => 0%Z
      end in
    let best_rate := compute_best_rate (d_customer_profile data) in
    exists (proposed_rate : Q) (s' : Session),
      try_handle_negotiation db message state s = (s', Ok true)
      (* the proposed rate *)
      /\ (forall requested, extract_number message = Some requested ->
            5 <= requested ->
            (best_rate < requested -> proposed_rate = requested)
            /\ (requested <= best_rate -> proposed_rate = best_rate))
      /\ ((forall requested, extract_number message = Some requested ->
                             requested < 5) ->
          (best_rate < current_rate - (1 # 2) ->
           proposed_rate = current_rate - (1 # 2))
          /\ (current_rate - (1 # 2) <= best_rate ->
              proposed_rate = best_rate))
      (* the floor by credit score *)
      /\ ((800 <= score)%Z -> best_rate = 975 # 100)
      /\ ((760 <= score < 800)%Z -> best_rate = 1025 # 100)
      /\ ((720 <= score < 760)%Z -> best_rate = 1075 # 100)
      /\ ((680 <= score < 720)%Z -> best_rate = 1125 # 100)
      /\ ((score < 680)%Z -> best_rate = 1175 # 100)
      /\ best_rate <= proposed_rate
      (* what is stored and said *)
      /\ (proposed_rate < current_rate ->
          d_annual_rate_pct (collected_data s') = Some proposed_rate
          /\ exists hint,
               chat_history s'
               = (chat_history s ++ [MsgRatePitch proposed_rate hint])%list)
      /\ (current_rate <= proposed_rate ->
          d_annual_rate_pct (collected_data s') = d_annual_rate_pct data
          /\ chat_history s'
             = (chat_history s ++ [MsgRateHeld current_rate])%list)
      /\ d_customer_profile (collected_data s') = d_customer_profile data
      /\ d_customer_phone (collected_data s') = Some phone
      /\ d_customer_name (collected_data s') = d_customer_name data
      /\ d_loan_amount (collected_data s') = d_loan_amount data
      /\ d_tenure_months (collected_data s') = d_tenure_months data
      /\ d_monthly_salary (collected_data s') = d_monthly_salary data
      /\ conversation_state s' = conversation_state s
      /\ latest_status s' = latest_status s
      /\ latest_payload s' = latest_payload s
      (* the rate never increases and keeps its floor *)
      /\ (let rate_after :=
            match d_annual_rate_pct (collected_data s') with
            | Some r => r
            | None => 12
            end in
          rate_after <= current_rate
          /\ (best_rate <= current_rate -> best_rate <= rate_after))
      /\ (reachable db s -> best_rate <= current_rate).
Proof.
  intros db message state s phone Hst Hphone Hne Hrate
         data current_rate score best_rate.
  apply State_eqb_neq in Hst.
  assert (Htruthy : truthy_str (d_customer_phone (collected_data s)) = true).
  { rewrite Hphone. cbn [truthy_str]. apply negb_true_iff.
    apply String.eqb_neq. exact Hne. }
  assert (Ecur : get_default (d_annual_rate_pct data) DEFAULT_RATE
                 = current_rate).
  { unfold current_rate. destruct (d_annual_rate_pct data); reflexivity. }
  unfold try_handle_negotiation. cbv zeta. rewrite Htruthy, Hrate, Hst.
  cbn [negb]. fold data. rewrite Ecur. fold best_rate.
  pose proof (proposed_rate_cases best_rate current_rate
                                  (extract_number message)) as Hcases.
  cbv zeta in Hcases.
  set (requested_rate :=
         if truthy_num (extract_number message)
            && Qltb (get_default (extract_number message) 0) 5
         then None else extract_number message) in *.
  set (proposed_rate :=
         if truthy_num requested_rate
         then py_max best_rate (get_default requested_rate 0)
         else py_max best_rate (current_rate - (1 # 2))) in *.
  assert (Hmax : forall a b,
             (a < b -> py_max a b = b) /\ (b <= a -> py_max a b = a)).
  { intros a b. unfold py_max. destruct (Qltb a b) eqn:E.
    - apply Qltb_true in E. split; [reflexivity|intro; lra].
    - apply Qltb_false in E. split; [intro; lra|reflexivity]. }
  assert (Hfloor : best_rate <= proposed_rate).
  { unfold proposed_rate. destruct (truthy_num requested_rate); apply py_max_l. }
  assert (Hsteps :
    ((800 <= score)%Z -> best_rate = 975 # 100)
    /\ ((760 <= score < 800)%Z -> best_rate = 1025 # 100)
    /\ ((720 <= score < 760)%Z -> best_rate = 1075 # 100)
    /\ ((680 <= score < 720)%Z -> best_rate = 1125 # 100)
    /\ ((score < 680)%Z -> best_rate = 1175 # 100)).
  { assert (Escore : profile_score (d_customer_profile data) = score).
    { unfold score, profile_score.
      destruct (d_customer_profile data) as [p|]; [|reflexivity].
      destruct (cust_credit_score p); reflexivity. }
    unfold best_rate, compute_best_rate. rewrite Escore.
    destruct (800 <=? score)%Z eqn:E1; [apply Z.leb_le in E1|apply Z.leb_gt in E1];
    destruct (760 <=? score)%Z eqn:E2; [apply Z.leb_le in E2|apply Z.leb_gt in E2| |];
    destruct (720 <=? score)%Z eqn:E3; [apply Z.leb_le in E3|apply Z.leb_gt in E3| | | | | |];
    destruct (680 <=? score)%Z eqn:E4;
    try apply Z.leb_le in E2; try apply Z.leb_gt in E2;
    try apply Z.leb_le in E3; try apply Z.leb_gt in E3;
    try apply Z.leb_le in E4; try apply Z.leb_gt in E4;
    repeat split; intros; try reflexivity; lia. }
  assert (Hreach : reachable db s -> best_rate <= current_rate).
  { intro Hr. apply reachable_rate_respects_floor in Hr.
    destruct Hr as (r & Er & Hm).
    rewrite Hphone in Hm. destruct Hm as (_ & _ & Hfl).
    unfold current_rate, data. rewrite Er. exact Hfl. }
  destruct Hcases as [Hc1 Hc2].
  assert (Hreq : forall requested,
             extract_number message = Some requested -> 5 <= requested ->
             (best_rate < requested -> proposed_rate = requested)
             /\ (requested <= best_rate -> proposed_rate = best_rate)).
  { intros requested En H5. rewrite (Hc1 requested En H5).
    apply Hmax. }
  assert (Hdef : (forall requested, extract_number message = Some requested ->
                                    requested < 5) ->
                 (best_rate < current_rate - (1 # 2) ->
                  proposed_rate = current_rate - (1 # 2))
                 /\ (current_rate - (1 # 2) <= best_rate ->
                     proposed_rate = best_rate)).
  { intro Hall. rewrite (Hc2 Hall). apply Hmax. }
  destruct Hsteps as (S1 & S2 & S3 & S4 & S5).
  exists proposed_rate.
  destruct (Qltb proposed_rate current_rate) eqn:Elt.
  - apply Qltb_true in Elt. eexists. split; [reflexivity|].
    cbn [add_assistant_message set_chat_history update_data set_collected_data
         collected_data conversation_state set_d_annual_rate_pct
         d_annual_rate_pct d_customer_profile d_customer_phone
         d_customer_name d_loan_amount d_tenure_months d_monthly_salary
         chat_history latest_status latest_payload].
    fold data.
    repeat match goal with |- _ /\ _ => split end;
      try assumption; try reflexivity.
    + intros _. split; [reflexivity|]. eexists. reflexivity.
    + intro Hle. lra.
    + lra.
    + intros _. exact Hfloor.
  - apply Qltb_false in Elt. eexists. split; [reflexivity|].
    cbn [add_assistant_message set_chat_history collected_data
         conversation_state chat_history latest_status latest_payload].
    fold data. fold current_rate.
    repeat match goal with |- _ /\ _ => split end;
      try assumption; try reflexivity.
    + intro Hlt. lra.
    + intros _. split; reflexivity.
    + apply Qle_refl.
    + intro H. exact H.
Qed.

(** Applies the rate theorem to "can you lower the rate to 10%" after the
    sample customer, whose score of 750 gives a best rate of 10.75, has
    given a loan amount: the rate 12.0 on file becomes 10.75. *)
Lemma rate_negotiation_never_increases_witness :
  d_annual_rate_pct
    (collected_data
       (fst (try_handle_negotiation
               sample_db "can you lower the rate to 10%" COLLECT_TENURE
               (sample_session COLLECT_TENURE (Some 700000)))))
  = Some (1075 # 100).
Proof.
  assert (Hst : COLLECT_TENURE <> DONE) by discriminate.
  assert (Hne : "9876543210"%string <> ""%string) by discriminate.
  destruct (rate_negotiation_never_increases
              sample_db "can you lower the rate to 10%" COLLECT_TENURE
              (sample_session COLLECT_TENURE (Some 700000))
              "9876543210" Hst eq_refl Hne eq_refl)
    as (p & s' & H1 & Hreq & _ & _ & _ & Htier & _ & _ & _ & Hupd & _).
  rewrite H1. cbn [fst].
  assert (Ebest : compute_best_rate
                    (d_customer_profile
                       (collected_data
                          (sample_session COLLECT_TENURE (Some 700000))))
                  = 1075 # 100)
    by (apply Htier; cbn; lia).
  rewrite Ebest in Hreq.
  destruct (Hreq 10 ltac:(reflexivity) ltac:(vm_compute; discriminate))
    as [_ Hp].
  specialize (Hp ltac:(vm_compute; discriminate)).
  destruct Hupd as [Hstored _].
  - rewrite Hp. vm_compute. reflexivity.
  - rewrite Hstored, Hp. reflexivity.
Defined.

(* ================================================================== *)
(** * Further properties of the underwriting engine *)

(** What a returned decision says about the context. *)

Local Open Scope string_scope.

(** What a returned decision tells about the context. *)
Lemma evaluate_application_inversion (c : Context) (d : Decision)
      (det : Details) :
  evaluate_application c = Ok (d, det) ->
  exists phone la n cs pl,
    ctx_customer_phone c = Some phone
    /\ ctx_loan_amount c = Some la
    /\ ctx_tenure_months c = Some n
    /\ ctx_credit_score c = Some cs
    /\ ctx_pre_approved_limit c = Some pl
    /\ let rate := get_default (ctx_annual_rate_pct c) 12 in
       let salary := get_default (ctx_monthly_salary c) 0 in
       match d with
       | APPROVE_INSTANT =>
           (700 <= cs)%Z
           /\ exists emi,
               compute_emi la rate n = Ok emi
               /\ det = mkDetails None (Some emi)
               /\ (la <= inject_Z pl
                   \/ (inject_Z pl < la /\ la <= inject_Z (2 * pl)
                       /\ 0 < salary /\ emi <= (1 # 2) * salary))
       | REQUIRE_SALARY =>
           (700 <= cs)%Z
           /\ inject_Z pl < la /\ la <= inject_Z (2 * pl) /\ salary <= 0
           /\ exists emi,
               compute_emi la rate n = Ok emi
               /\ det = mkDetails
                          (Some "Need salary slip to evaluate EMI threshold")
                          (Some emi)
       | REJECT =>
           ((cs < 700)%Z
            /\ det = mkDetails (Some "Credit score below 700") None)
           \/ ((700 <= cs)%Z /\ inject_Z pl < la /\ la <= inject_Z (2 * pl)
               /\ 0 < salary
               /\ exists emi,
                   compute_emi la rate n = Ok emi
                   /\ (1 # 2) * salary < emi
                   /\ det = mkDetails (Some "EMI exceeds 50% of salary")
                                      (Some emi))
           \/ ((700 <= cs)%Z /\ inject_Z pl < la /\ inject_Z (2 * pl) < la
               /\ det = mkDetails
                          (Some "Loan amount exceeds 2x pre-approved limit")
                          None)
       end.
Proof.
  unfold evaluate_application.
  destruct (ctx_customer_phone c) as [phone|]; [|discriminate].
  destruct (ctx_loan_amount c) as [la|]; [|discriminate].
  destruct (ctx_tenure_months c) as [n|]; [|discriminate].
  destruct (ctx_credit_score c) as [cs|]; [|discriminate].
  destruct (ctx_pre_approved_limit c) as [pl|]; [|discriminate].
  cbn [getitem bind]. intro H.
  exists phone, la, n, cs, pl. repeat (split; [reflexivity|]). cbv zeta.
  destruct (cs <? 700)%Z eqn:Ecs;
    [apply Z.ltb_lt in Ecs|apply Z.ltb_ge in Ecs].
  { inversion H; subst. left. split; [exact Ecs|reflexivity]. }
  destruct (Qleb la (inject_Z pl)) eqn:Epl;
    [apply Qleb_true in Epl|apply Qleb_false in Epl].
  { destruct (compute_emi la _ n) as [emi|e] eqn:Eemi; [|discriminate].
    inversion H; subst. split; [exact Ecs|].
    exists emi. repeat split. left. exact Epl. }
  destruct (Qleb la (inject_Z (2 * pl))) eqn:E2;
    [apply Qleb_true in E2|apply Qleb_false in E2].
  2:{ inversion H; subst. right. right. repeat split; assumption. }
  destruct (compute_emi la _ n) as [emi|e] eqn:Eemi; [|discriminate].
  cbn [bind] in H.
  destruct (Qleb (get_default (ctx_monthly_salary c) 0) 0) eqn:Es;
    [apply Qleb_true in Es|apply Qleb_false in Es].
  { inversion H; subst. repeat (split; [assumption|]).
    exists emi. split; reflexivity. }
  destruct (Qleb emi _) eqn:Ee;
    [apply Qleb_true in Ee|apply Qleb_false in Ee]; inversion H; subst.
  - split; [exact Ecs|]. exists emi. repeat split. right.
    repeat split; assumption.
  - right. left. repeat (split; [assumption|]).
    exists emi. repeat split; assumption.
Qed.

Local Close Scope string_scope.

(** ** A tenure of zero months *)

(** X13.  With a tenure of zero months [compute_emi] raises
    ZeroDivisionError for every principal and rate, so underwriting raises
    it for a score of at least 700 and a loan within twice the limit; the
    rejections that need no EMI are still returned. *)
Theorem zero_tenure_raises :
  forall (phone : string) (la : Q) (a sal : option Q) (name : option string)
         (cs pl : Z) (emi0 : option Q),
    let c := mkContext (Some phone) (Some la) (Some 0%Z) a sal name
                       (Some cs) (Some pl) emi0 in
    (forall P rate, compute_emi P rate 0 = Raise ZeroDivisionError)
    /\ ((700 <= cs)%Z -> la <= inject_Z pl \/ la <= inject_Z (2 * pl) ->
        evaluate_application c = Raise ZeroDivisionError)
    /\ ((cs < 700)%Z \/ (inject_Z pl < la /\ inject_Z (2 * pl) < la) ->
        exists why,
          evaluate_application c = Ok (REJECT, mkDetails (Some why) None)).
Proof.
  intros phone la a sal name cs pl emi0 c.
  assert (Hz : forall P rate, compute_emi P rate 0 = Raise ZeroDivisionError).
  { intros P rate. unfold compute_emi.
    destruct (Qeqb (rate / 12 / 100) 0); [reflexivity|].
    rewrite andb_false_r. reflexivity. }
  split; [exact Hz|].
  unfold evaluate_application, c; cbn [bind getitem ctx_customer_phone
    ctx_loan_amount ctx_tenure_months ctx_annual_rate_pct ctx_monthly_salary
    ctx_credit_score ctx_pre_approved_limit].
  rewrite !Hz. cbn [bind]. split.
  - intros Hcs Hband. apply Z.ltb_ge in Hcs. rewrite Hcs.
    destruct (Qleb la (inject_Z pl)) eqn:E1; [reflexivity|].
    destruct Hband as [H|H]; apply Qleb_true in H.
    + congruence.
    + rewrite H. reflexivity.
  - intros [Hcs|[H1 H2]].
    + apply Z.ltb_lt in Hcs. rewrite Hcs. eexists. reflexivity.
    + destruct (cs <? 700)%Z; [eexists; reflexivity|].
      apply Qleb_false in H1. apply Qleb_false in H2. rewrite H1, H2.
      eexists. reflexivity.
Qed.

Lemma zero_tenure_raises_witness :
  evaluate_application
    (mkContext (Some "9876543210"%string) (Some 400000) (Some 0%Z) (Some 12)
               None None (Some 750%Z) (Some 500000%Z) None)
  = Raise ZeroDivisionError.
Proof.
  apply (proj1 (proj2
    (zero_tenure_raises "9876543210" 400000 (Some 12) None None
                        750 500000 None))).
  - lia.
  - left. vm_compute. discriminate.
Defined.

(** On doubles too, a tenure of zero months raises for every principal
    and rate: at the rate 0 the division is by 0, otherwise the power is
    [1.0] and the denominator [0.0]. *)
Lemma compute_emi_f64_zero_tenure (p a : float) :
  compute_emi_f64 p a 0 = Some (Raise ZeroDivisionError).
Proof.
  unfold compute_emi_f64. cbv zeta.
  destruct (PrimFloat.eqb (a / 12 / 100) 0); reflexivity.
Qed.

(** ** Decisions and missing keys *)

Local Open Scope string_scope.

(** X14.  A returned decision tells about the context: APPROVE_INSTANT
    only with a score of at least 700 and either a loan within the limit
    or a loan within twice the limit, a positive salary and an EMI of at
    most half of it; REQUIRE_SALARY only in the middle band without a
    positive salary; a REJECT only for a score below 700, a loan above
    twice the limit, or an EMI above half of a positive salary.
    APPROVE_INSTANT and REQUIRE_SALARY carry the computed EMI. *)
Theorem decision_is_justified :
  forall (c : Context) (d : Decision) (det : Details),
    evaluate_application c = Ok (d, det) ->
    exists la n cs pl,
      ctx_loan_amount c = Some la
      /\ ctx_tenure_months c = Some n
      /\ ctx_credit_score c = Some cs
      /\ ctx_pre_approved_limit c = Some pl
      /\ let rate := get_default (ctx_annual_rate_pct c) 12 in
         let salary := get_default (ctx_monthly_salary c) 0 in
         (d = APPROVE_INSTANT ->
            (700 <= cs)%Z
            /\ det_reason det = None
            /\ exists emi,
                det_emi det = Some emi
                /\ compute_emi la rate n = Ok emi
                /\ (la <= inject_Z pl
                    \/ (la <= inject_Z (2 * pl) /\ 0 < salary
                        /\ emi <= (1 # 2) * salary)))
         /\ (d = REQUIRE_SALARY ->
             (700 <= cs)%Z /\ inject_Z pl < la /\ la <= inject_Z (2 * pl)
             /\ salary <= 0
             /\ exists emi,
                 det_emi det = Some emi /\ compute_emi la rate n = Ok emi)
         /\ (d = REJECT ->
             (cs < 700)%Z
             \/ (inject_Z pl < la /\ inject_Z (2 * pl) < la)
             \/ (inject_Z pl < la /\ 0 < salary
                 /\ exists emi,
                     det_emi det = Some emi /\ (1 # 2) * salary < emi)).
Proof.
  intros c d det H.
  apply evaluate_application_inversion in H.
  destruct H as (phone & la & n & cs & pl & _ & Hla & Hn & Hcs & Hpl & H).
  exists la, n, cs, pl. repeat (split; [assumption|]).
  cbv zeta in *. destruct d.
  - destruct H as (Hs & emi & He & Hdet & Hband). subst det.
    split; [|split; intro; discriminate].
    intros _. split; [exact Hs|]. split; [reflexivity|].
    exists emi. split; [reflexivity|]. split; [exact He|].
    destruct Hband as [Hb|(H1 & H2 & H3 & H4)]; [left; exact Hb|].
    right. repeat split; assumption.
  - destruct H as (Hs & H1 & H2 & H3 & emi & He & Hdet). subst det.
    split; [intro; discriminate|]. split; [|intro; discriminate].
    intros _. repeat (split; [assumption|]).
    exists emi. split; [reflexivity|exact He].
  - split; [intro; discriminate|]. split; [intro; discriminate|].
    intros _.
    destruct H as [(Hs & _)|[(Hs & H1 & H2 & H3 & emi & He & H4 & Hdet)
                             |(Hs & H1 & H2 & _)]].
    + left. exact Hs.
    + right. right. subst det. split; [exact H1|]. split; [exact H3|].
      exists emi. split; [reflexivity|exact H4].
    + right. left. split; assumption.
Qed.

Lemma decision_is_justified_witness :
  exists la n cs pl,
    ctx_loan_amount (sample_context 400000 None) = Some la
    /\ ctx_tenure_months (sample_context 400000 None) = Some n
    /\ ctx_credit_score (sample_context 400000 None) = Some cs
    /\ ctx_pre_approved_limit (sample_context 400000 None) = Some pl.
Proof.
  destruct (decision_is_justified
              (sample_context 400000 None) APPROVE_INSTANT
              (mkDetails None
                 (match compute_emi 400000 12 36 with
                  | Ok e => Some e
                  | Raise _ => None
                  end))
              ltac:(vm_compute; reflexivity))
    as (la & n & cs & pl & H1 & H2 & H3 & H4 & _).
  exists la, n, cs, pl. repeat split; assumption.
Defined.

(** X15.  [evaluate_application] reads all five required keys before it
    applies any rule: a context that lacks one raises KeyError for the
    first missing key in reading order (phone, loan amount, tenure, credit
    score, pre-approved limit), whatever the other values are; a context
    that holds all five never raises KeyError.  The rate and the salary
    are optional. *)
Theorem missing_key_raises_key_error :
  forall (c : Context),
    match first_missing_key c with
    | Some key => evaluate_application c = Raise (KeyError key)
    | None => forall key, evaluate_application c <> Raise (KeyError key)
    end.
Proof.
  intro c. unfold first_missing_key, evaluate_application.
  destruct (ctx_customer_phone c); cbn [has_key negb getitem bind];
    [|reflexivity].
  destruct (ctx_loan_amount c) as [la|]; cbn [has_key negb getitem bind];
    [|reflexivity].
  destruct (ctx_tenure_months c) as [n|]; cbn [has_key negb getitem bind];
    [|reflexivity].
  destruct (ctx_credit_score c) as [cs|]; cbn [has_key negb getitem bind];
    [|reflexivity].
  destruct (ctx_pre_approved_limit c) as [pl|];
    cbn [has_key negb getitem bind]; [|reflexivity].
  intro key.
  assert (Hemi : forall P a m k, compute_emi P a m <> Raise (KeyError k)).
  { intros P a m k. unfold compute_emi. repeat break_if; discriminate. }
  repeat break_if; try discriminate;
    destruct (compute_emi la _ n) as [e|err] eqn:E; cbn [bind];
    repeat break_if; try discriminate;
    intro Hc; inversion Hc; subst; eapply Hemi; exact E.
Qed.

Local Close Scope string_scope.

(** ** The data provider and the pipeline *)

(** X16.  The CRM lookup returns the first record of the list with the
    phone asked for, and nothing when no record has it; for an unknown
    phone the credit score and the pre-approved limit are 0 and the
    verification fails, without an exception. *)
Theorem crm_lookup_finds_first_record :
  forall (db : list Customer) (phone : string),
    match crm_get_customer_by_phone db phone with
    | Some cust =>
        cust_phone cust = phone
        /\ (exists before rest,
              db = (before ++ cust :: rest)%list
              /\ forall c, In c before -> cust_phone c <> phone)
        /\ task_verify db phone
           = mkVerification true (cust_name cust) (cust_address cust)
        /\ credit_bureau_get_score db phone
           = get_default (cust_credit_score cust) 0%Z
        /\ offer_mart_get_preapproved_limit db phone
           = get_default (cust_pre_approved_limit cust) 0%Z
    | None =>
        (forall c, In c db -> cust_phone c <> phone)
        /\ verified (task_verify db phone) = false
        /\ credit_bureau_get_score db phone = 0%Z
        /\ offer_mart_get_preapproved_limit db phone = 0%Z
    end.
Proof.
  intros db phone.
  unfold task_verify, credit_bureau_get_score,
    offer_mart_get_preapproved_limit.
  destruct (crm_get_customer_by_phone db phone) as [cust|] eqn:E.
  - unfold crm_get_customer_by_phone in E.
    split; [|split; [|repeat split]].
    + apply find_some in E. destruct E as [_ E].
      now apply String.eqb_eq in E.
    + clear - E. induction db as [|c db IH]; cbn in E; [discriminate|].
      destruct (String.eqb (cust_phone c) phone) eqn:Ec.
      * inversion E; subst. exists [], db. split; [reflexivity|].
        intros c0 [].
      * destruct (IH E) as (before & rest & Hdb & Hnone).
        exists (c :: before), rest. split; [cbn; now rewrite Hdb|].
        intros c0 [Hc|Hc]; [subst; now apply String.eqb_neq|auto].
  - unfold crm_get_customer_by_phone in E. repeat split.
    intros c Hc. apply (find_none _ _ E) in Hc.
    now apply String.eqb_neq in Hc.
Qed.

(** X17.  The pipeline verifies the phone before anything else: a context
    without a phone raises KeyError, and for a phone the provider does not
    know the result is KYC_FAILED with the context untouched, whatever
    else the context holds or lacks; underwriting is not reached. *)
Theorem pipeline_checks_phone_first :
  forall (db : list Customer) (c : Context) (output_dir : string),
    match ctx_customer_phone c with
    | None =>
        master_orchestrate db c output_dir
        = Raise (KeyError "customer_phone")
    | Some phone =>
        crm_get_customer_by_phone db phone = None ->
        master_orchestrate db c output_dir
        = Ok (KYC_FAILED,
              mkPayload
                (Some "KYC verification failed. Please check phone."%string)
                None None None,
              c)
    end.
Proof.
  intros db c output_dir. unfold master_orchestrate.
  destruct (ctx_customer_phone c) as [phone|]; cbn [getitem bind];
    [|reflexivity].
  intro Hcrm. unfold task_verify. rewrite Hcrm. reflexivity.
Qed.

(** X18.  The pipeline keeps no derived value from an earlier run: a name,
    credit score, pre-approved limit or EMI already in the context is
    overwritten before it is read, so two contexts that agree on phone,
    loan amount, tenure, rate and salary get the same status and payload. *)
Theorem pipeline_overwrites_derived_fields :
  forall (db : list Customer)
         (phone : option string) (la : option Q) (n : option Z)
         (a sal : option Q) (name1 name2 : option string)
         (cs1 cs2 pl1 pl2 : option Z) (emi1 emi2 : option Q)
         (output_dir : string),
    outcome (master_orchestrate
               db (mkContext phone la n a sal name1 cs1 pl1 emi1) output_dir)
    = outcome (master_orchestrate
                 db (mkContext phone la n a sal name2 cs2 pl2 emi2)
                 output_dir).
Proof.
  intros. unfold master_orchestrate.
  destruct phone as [ph|]; cbn [getitem bind ctx_customer_phone];
    [|reflexivity].
  destruct (negb (verified (task_verify db ph))); [reflexivity|].
  unfold task_underwrite, set_pre_approved_limit, set_credit_score,
    set_customer_name. cbn [ctx_customer_phone ctx_loan_amount
    ctx_tenure_months ctx_annual_rate_pct ctx_monthly_salary
    ctx_customer_name ctx_credit_score ctx_pre_approved_limit ctx_emi].
  match goal with
  | |- outcome (bind (bind (evaluate_application ?c1) _) _)
       = outcome (bind (bind (evaluate_application ?c2) _) _) =>
      replace (evaluate_application c1) with (evaluate_application c2)
        by reflexivity
  end.
  destruct (evaluate_application _) as [[d det]|e]; cbn [bind]; [|reflexivity].
  cbn [uw_decision uw_emi uw_reason].
  destruct d; reflexivity.
Qed.

(** X19.  An APPROVED pipeline result is backed by the records: the phone
    is a known customer's, that customer's credit score is at least 700,
    the loan is within twice the customer's pre-approved limit, the
    payload carries the EMI computed from the context and the path
    [<output_dir>/sanction_<phone>.pdf], and the returned context holds
    the customer's name, score, limit and that EMI. *)
Theorem approved_is_backed_by_records :
  forall (db : list Customer) (c c' : Context) (output_dir : string)
         (payload : Payload),
    master_orchestrate db c output_dir = Ok (APPROVED, payload, c') ->
    exists phone cust la n emi,
      ctx_customer_phone c = Some phone
      /\ crm_get_customer_by_phone db phone = Some cust
      /\ ctx_loan_amount c = Some la
      /\ ctx_tenure_months c = Some n
      /\ (700 <= get_default (cust_credit_score cust) 0)%Z
      /\ la <= inject_Z
                 (Z.max (get_default (cust_pre_approved_limit cust) 0)
                        (2 * get_default (cust_pre_approved_limit cust) 0))%Z
      /\ compute_emi la (get_default (ctx_annual_rate_pct c) 12) n = Ok emi
      /\ payload
         = mkPayload None None (Some emi)
             (Some (output_dir ++ "/" ++ "sanction_" ++ phone ++ ".pdf")%string)
      /\ ctx_customer_name c' = Some (cust_name cust)
      /\ ctx_credit_score c' = Some (get_default (cust_credit_score cust) 0%Z)
      /\ ctx_pre_approved_limit c'
         = Some (get_default (cust_pre_approved_limit cust) 0%Z)
      /\ ctx_emi c' = Some emi.
Proof.
  intros db c c' output_dir payload H.
  unfold master_orchestrate in H.
  destruct (ctx_customer_phone c) as [phone|] eqn:Eph;
    cbn [getitem bind] in H; [|discriminate].
  unfold task_verify, credit_bureau_get_score,
    offer_mart_get_preapproved_limit in H.
  destruct (crm_get_customer_by_phone db phone) as [cust|] eqn:Ecrm;
    cbn [verified negb ver_name] in H; [|discriminate].
  unfold task_underwrite in H.
  match type of H with
  | context [evaluate_application ?x] =>
      destruct (evaluate_application x) as [[d det]|e] eqn:Eev
  end; cbn [bind uw_decision uw_emi uw_reason] in H; [|discriminate].
  destruct d; try discriminate.
  apply evaluate_application_inversion in Eev.
  destruct Eev as (ph' & la & n & cs & pl & E1 & E2 & E3 & E4 & E5 & Hs
                   & emi & He & Hdet & Hband).
  cbn [set_pre_approved_limit set_credit_score set_customer_name
       ctx_customer_phone ctx_customer_name ctx_loan_amount
       ctx_tenure_months ctx_annual_rate_pct ctx_monthly_salary
       ctx_credit_score ctx_pre_approved_limit ctx_emi]
    in E1, E2, E3, E4, E5, He, Hband.
  rewrite Eph in E1.
  inversion E1; inversion E4; inversion E5; subst ph' cs pl det.
  unfold task_sanction_pdf in H.
  cbn [set_emi set_pre_approved_limit set_credit_score set_customer_name
       ctx_customer_phone ctx_customer_name ctx_loan_amount
       ctx_tenure_months ctx_emi getitem bind det_emi] in H.
  rewrite Eph, E2, E3 in H. cbn [getitem bind] in H.
  inversion H; subst.
  exists phone, cust, la, n, emi. repeat split; try assumption; try reflexivity.
  set (L := get_default (cust_pre_approved_limit cust) 0%Z) in *.
  destruct Hband as [Hb|(_ & Hb & _)];
    (eapply Qle_trans; [exact Hb|]); rewrite <- Zle_Qle; lia.
Qed.

Lemma approved_is_backed_by_records_witness :
  exists phone cust la n emi,
    ctx_customer_phone (sample_context 400000 None) = Some phone
    /\ crm_get_customer_by_phone sample_db phone = Some cust
    /\ ctx_loan_amount (sample_context 400000 None) = Some la
    /\ ctx_tenure_months (sample_context 400000 None) = Some n
    /\ (700 <= get_default (cust_credit_score cust) 0)%Z
    /\ compute_emi la 12 n = Ok emi.
Proof.
  destruct (master_orchestrate sample_db (sample_context 400000 None)
                               OUTPUT_DIR)
    as [[[st pl] c']|e] eqn:E; [|vm_compute in E; discriminate E].
  assert (Hst : st = APPROVED)
    by (vm_compute in E; inversion E; reflexivity).
  subst st.
  destruct (approved_is_backed_by_records
              sample_db (sample_context 400000 None) c' OUTPUT_DIR pl E)
    as (phone & cust & la & n & emi & H1 & H2 & H3 & H4 & H5 & _ & H7 & _).
  exists phone, cust, la, n, emi. repeat split; assumption.
Defined.

Lemma pipeline_checks_phone_first_witness :
  master_orchestrate
    sample_db
    (mkContext (Some "1111111111"%string) None None None None None None None
               None)
    OUTPUT_DIR
  = Ok (KYC_FAILED,
        mkPayload (Some "KYC verification failed. Please check phone."%string)
                  None None None,
        mkContext (Some "1111111111"%string) None None None None None None
                  None None).
Proof.
  apply (pipeline_checks_phone_first
           sample_db
           (mkContext (Some "1111111111"%string) None None None None None
                      None None None)
           OUTPUT_DIR).
  reflexivity.
Defined.

(* ================================================================== *)
(** * Further properties of the conversation *)

(** ** Sessions between two turns *)

(** Closes the side conditions of [settled]. *)
Ltac settle_finish :=
  try solve
    [ repeat match goal with
             | E : Some _ = Some _ |- _ => inversion E; subst; clear E
             end;
      first [assumption | apply Qle_refl | lra | congruence | eauto] ].

Ltac settle :=
  unfold settled, fields_by_state, absent_before_stage, positive_amounts,
    rate_at_most_default in *; cbn in *;
  intuition (try discriminate; try lia; eauto); settle_finish.

Ltac settle_at Est :=
  unfold settled, fields_by_state, absent_before_stage, positive_amounts,
    rate_at_most_default in *; cbn in *;
  rewrite ?Est in *; cbn in *;
  intuition (try discriminate; try lia; eauto); settle_finish.

Section PipelineCompletes.

Variable db : list Customer.

(** With a known phone, a loan amount and a tenure of at least one month
    on file and a rate that is not negative, the pipeline completes, keeps
    the collected data and ends in COLLECT_SALARY or DONE; with a positive
    salary on file it ends in DONE. *)
Lemma run_master_pipeline_completes (s : Session) (ph : string) (la : Q)
      (n : Z) :
  d_customer_phone (collected_data s) = Some ph ->
  d_loan_amount (collected_data s) = Some la ->
  d_tenure_months (collected_data s) = Some n ->
  (1 <= n)%Z ->
  0 <= get_default (d_annual_rate_pct (collected_data s)) DEFAULT_RATE ->
  crm_get_customer_by_phone db ph <> None ->
  exists s' status,
    run_master_pipeline db s = (s', Ok tt)
    /\ collected_data s' = collected_data s
    /\ (conversation_state s' = COLLECT_SALARY \/ conversation_state s' = DONE)
    /\ latest_status s' = Some status
    /\ status <> KYC_FAILED
    /\ (forall v, d_monthly_salary (collected_data s) = Some v -> 0 < v ->
                  conversation_state s' = DONE)
    /\ (conversation_state s' = DONE ->
        status = STATUS_REJECT \/ status = APPROVED).
Proof.
  intros Hph Hla Hten Hn Hr Hcrm.
  destruct (master_orchestrate_fresh
              db ph la n
              (get_default (d_annual_rate_pct (collected_data s)) DEFAULT_RATE)
              (d_monthly_salary (collected_data s)) Hn Hr)
    as (status & payload & c' & Hmo & Hkyc & Hdec & _).
  unfold run_master_pipeline. rewrite Hph, Hla, Hten, Hmo.
  destruct status.
  - exfalso. apply Hcrm. apply Hkyc. reflexivity.
  - eexists. exists STATUS_REQUIRE_SALARY. split; [reflexivity|]. cbn.
    repeat split; auto; try discriminate.
    intros v Ev Hv. exfalso.
    destruct (Hdec ltac:(discriminate))
      as (name & decision & details & Hev & Hst & _).
    destruct decision; try discriminate.
    apply evaluate_application_inversion in Hev.
    destruct Hev as (? & ? & ? & ? & ? & _ & _ & _ & _ & _ & Hreq).
    cbn in Hreq. rewrite Ev in Hreq. cbn in Hreq.
    destruct Hreq as (_ & _ & _ & Hle & _). lra.
  - eexists. exists STATUS_REJECT. split; [reflexivity|]. cbn.
    repeat split; auto; discriminate.
  - eexists. exists APPROVED. split; [reflexivity|]. cbn.
    repeat split; auto; discriminate.
Qed.

Lemma positive_of_not_le (x : Q) : Qleb x 0 = false -> 0 < x.
Proof. intro H. now apply Qleb_false in H. Qed.

Lemma rate_at_most_default_current (s : Session) :
  rate_at_most_default s ->
  get_default (d_annual_rate_pct (collected_data s)) DEFAULT_RATE
  <= DEFAULT_RATE.
Proof.
  intro H. destruct (d_annual_rate_pct (collected_data s)) as [r|] eqn:E.
  - cbn. apply H. exact E.
  - cbn. apply Qle_refl.
Qed.

(** The negotiation resolver keeps a settled session settled and does
    not raise. *)
Lemma try_handle_negotiation_settles (message : string) (s : Session) :
  settled s ->
  settled (fst (try_handle_negotiation db message (conversation_state s) s))
  /\ exists b,
       snd (try_handle_negotiation db message (conversation_state s) s) = Ok b.
Proof.
  intro H. unfold try_handle_negotiation. cbv zeta.
  assert (Hnr : State_eqb (conversation_state s) READY_TO_RUN = false).
  { apply State_eqb_neq. apply H. }
  rewrite Hnr.
  destruct (negb (truthy_str (d_customer_phone (collected_data s))));
    [split; [exact H|eexists; reflexivity]|].
  destruct (wants_lower_rate message).
  - destruct (State_eqb (conversation_state s) DONE);
      [split; [settle|eexists; reflexivity]|].
    match goal with
    | |- context [Qltb ?p ?c] => destruct (Qltb p c) eqn:Elt
    end; (split; [|eexists; reflexivity]); [|settle].
    apply Qltb_true in Elt.
    pose proof (rate_at_most_default_current s ltac:(apply H)) as Hcur.
    settle.
  - destruct (truthy_num (d_loan_amount (collected_data s))) eqn:Eloan;
      cbn [andb]; [|split; [exact H|eexists; reflexivity]].
    assert (Hstage : (2 <= stage (conversation_state s))%nat).
    { destruct H as (_ & (Habs & _) & _).
      destruct (Nat.le_gt_cases (stage (conversation_state s)) 1) as [Hle|Hgt];
        [|lia].
      rewrite (Habs Hle) in Eloan. discriminate. }
    repeat break_if; (split; [|eexists; reflexivity]); try (settle; fail).
    all: match goal with
         | Hle : _ || Qleb _ 0 = false |- _ =>
             apply orb_false_iff in Hle; destruct Hle as [_ Hle];
             apply positive_of_not_le in Hle
         end.
    all: settle.
Qed.

Lemma rate_respects_floor_nonneg (s : Session) :
  rate_respects_floor db s ->
  0 <= get_default (d_annual_rate_pct (collected_data s)) DEFAULT_RATE.
Proof.
  intros (r & Er & Hm). rewrite Er. cbn [get_default].
  destruct (d_customer_phone (collected_data s)).
  - destruct Hm as (_ & _ & Hfl).
    pose proof (compute_best_rate_positive
                  (d_customer_profile (collected_data s))).
    lra.
  - subst r. unfold DEFAULT_RATE. lra.
Qed.

(** The pipeline completes on every session that holds the three
    required fields within the invariants. *)
Lemma run_master_pipeline_ready (s : Session) :
  rate_respects_floor db s ->
  tenure_within_bounds s ->
  has_key (d_customer_phone (collected_data s)) = true ->
  has_key (d_loan_amount (collected_data s)) = true ->
  has_key (d_tenure_months (collected_data s)) = true ->
  exists s' status,
    run_master_pipeline db s = (s', Ok tt)
    /\ collected_data s' = collected_data s
    /\ (conversation_state s' = COLLECT_SALARY \/ conversation_state s' = DONE)
    /\ latest_status s' = Some status
    /\ status <> KYC_FAILED
    /\ (forall v, d_monthly_salary (collected_data s) = Some v -> 0 < v ->
                  conversation_state s' = DONE)
    /\ (conversation_state s' = DONE ->
        status = STATUS_REJECT \/ status = APPROVED).
Proof.
  intros HJ HK Hph Hla Hten.
  destruct (d_customer_phone (collected_data s)) as [ph|] eqn:Eph;
    [|discriminate].
  destruct (d_loan_amount (collected_data s)) as [la|] eqn:Ela;
    [|discriminate].
  destruct (d_tenure_months (collected_data s)) as [n|] eqn:Eten;
    [|discriminate].
  apply (run_master_pipeline_completes s ph la n Eph Ela Eten).
  - specialize (HK n Eten). unfold MIN_TENURE in HK. lia.
  - now apply rate_respects_floor_nonneg.
  - destruct HJ as (r & _ & Hm). rewrite Eph in Hm. tauto.
Qed.

End PipelineCompletes.

(** Uses the pipeline lemma on a session that holds the data of [s]. *)
Ltac run_pipeline db s HJ HK Est :=
  match goal with
  | |- context [run_master_pipeline db ?x] =>
      let Hx := fresh "Hx" in
      assert (Hx : exists s' status,
                 run_master_pipeline db x = (s', Ok tt)
                 /\ collected_data s' = collected_data x
                 /\ (conversation_state s' = COLLECT_SALARY
                     \/ conversation_state s' = DONE)
                 /\ latest_status s' = Some status
                 /\ status <> KYC_FAILED
                 /\ (forall v, d_monthly_salary (collected_data x) = Some v ->
                               0 < v -> conversation_state s' = DONE)
                 /\ (conversation_state s' = DONE ->
                     status = STATUS_REJECT \/ status = APPROVED));
      [ apply (run_master_pipeline_ready db);
        [ apply (rate_respects_floor_fields db s);
          [reflexivity|reflexivity|reflexivity|exact HJ]
        | first [ apply (tenure_within_bounds_field s);
                  [reflexivity|exact HK] | idtac ]
        | settle_at Est | settle_at Est | settle_at Est ]
      | destruct Hx as (s' & status & Erun & Edata & Hend & Elat & Hkyc & Hdone & Hrel);
        rewrite Erun; cbn [fst snd] ]
  end.

Section Settled.

Variable db : list Customer.

(** What [parse_tenure] raises, and when. *)
Lemma parse_tenure_raises (text : string) (e : pyerr) :
  parse_tenure text = Raise e ->
  e = OverflowError
  /\ exists number,
       extract_number text = Some number /\ FLOAT_OVERFLOW <= number * 12.
Proof.
  unfold parse_tenure. cbv zeta.
  destruct (extract_number text) as [number|] eqn:En; [|discriminate].
  destruct (is_inf _) eqn:Einf; [|discriminate].
  intro H. inversion H. split; [reflexivity|].
  exists number. split; [reflexivity|].
  unfold is_inf in Einf. apply Qleb_true in Einf.
  destruct (contains "year" (lower text)); [exact Einf|].
  assert (H0 : 0 <= number).
  { apply Qle_trans with (y := FLOAT_OVERFLOW); [|exact Einf].
    vm_compute. discriminate. }
  lra.
Qed.

(** [parse_tenure] returns on every number that, taken twelve times, has
    a finite double. *)
Lemma parse_tenure_returns (text : string) :
  (forall number, extract_number text = Some number ->
                  number * 12 < FLOAT_OVERFLOW) ->
  exists tenure, parse_tenure text = Ok tenure.
Proof.
  intro H. destruct (parse_tenure text) as [t|e] eqn:E; [eauto|].
  apply parse_tenure_raises in E. destruct E as (_ & number & En & Hn).
  specialize (H number En). lra.
Qed.

(** [parse_tenure] raises on every number that has no finite double. *)
Lemma parse_tenure_overflows (text : string) (number : Q) :
  extract_number text = Some number ->
  FLOAT_OVERFLOW <= number ->
  parse_tenure text = Raise OverflowError.
Proof.
  intros En Hn. unfold parse_tenure. rewrite En. cbv zeta.
  replace (is_inf _) with true; [reflexivity|].
  symmetry. unfold is_inf. apply Qleb_true.
  assert (H0 : 0 <= number).
  { apply Qle_trans with (y := FLOAT_OVERFLOW); [|exact Hn].
    vm_compute. discriminate. }
  destruct (contains "year" (lower text)); [lra|exact Hn].
Qed.

(** In COLLECT_TENURE, an utterance that is neither a restart nor a
    negotiation request raises what [parse_tenure] raises on it. *)
Lemma tenure_turn_raises (message : string) (s : Session) (e : pyerr) :
  conversation_state s = COLLECT_TENURE ->
  str_in (lower (strip message)) RESTART_WORDS = false ->
  wants_lower_rate message = false ->
  wants_amount_adjustment message = false ->
  parse_tenure message = Raise e ->
  handle_user_message db message s = (s, Raise e).
Proof.
  intros Est Hre Hrate Hadj Hp. unfold handle_user_message. rewrite Hre.
  assert (Eneg : try_handle_negotiation db message (conversation_state s) s
                 = (s, Ok false)).
  { unfold try_handle_negotiation. cbv zeta. rewrite Hrate, Hadj.
    rewrite andb_false_r. destruct (negb _); reflexivity. }
  rewrite Eneg, Est. unfold handle_collect_tenure. rewrite Hp. reflexivity.
Qed.

(** A turn keeps a settled session settled; it raises only in
    COLLECT_TENURE, when [parse_tenure] raises, and then leaves the
    session as it was. *)
Lemma handle_user_message_settles (message : string) (s : Session) :
  phone_unset_while_collecting s ->
  rate_respects_floor db s ->
  tenure_within_bounds s ->
  settled s ->
  settled (fst (handle_user_message db message s))
  /\ (snd (handle_user_message db message s) = Ok tt
      \/ (conversation_state s = COLLECT_TENURE
          /\ exists e,
               parse_tenure message = Raise e
               /\ handle_user_message db message s = (s, Raise e))).
Proof.
  intros HI HJ HK H. unfold handle_user_message.
  destruct (str_in (lower (strip message)) RESTART_WORDS).
  { split; [settle|left; reflexivity]. }
  destruct (try_handle_negotiation_settles db message s H) as [Hneg [b Hb]].
  destruct (try_handle_negotiation db message (conversation_state s) s)
    as [s1 res] eqn:E.
  cbn [fst snd] in *. subst res. destruct b.
  { split; [exact Hneg|left; reflexivity]. }
  apply try_handle_negotiation_declined in E. subst s1.
  destruct (conversation_state s) eqn:Est.
  - unfold handle_collect_phone, next_phone_prompt. cbv zeta.
    repeat break_if; (split; [|left; reflexivity]); settle_at Est.
  - unfold handle_collect_loan. cbv zeta.
    destruct (extract_number message) as [amount|] eqn:En;
      [|split; [settle_at Est|left; reflexivity]].
    destruct (Qltb amount MIN_LOAN) eqn:Emin;
      [split; [settle_at Est|left; reflexivity]|].
    apply Qltb_false in Emin. unfold MIN_LOAN in Emin.
    repeat break_if; (split; [|left; reflexivity]); settle_at Est.
  - unfold handle_collect_tenure. cbv zeta.
    destruct (parse_tenure message) as [[tenure|]|e] eqn:Et.
    + repeat break_if; (split; [|left; reflexivity]); settle_at Est.
    + split; [settle_at Est|left; reflexivity].
    + cbn [fst snd]. split; [exact H|].
      right. split; [reflexivity|]. exists e. split; reflexivity.
  - unfold handle_ask_salary_option. cbv zeta.
    repeat break_if; try (split; [settle_at Est|left; reflexivity]; fail).
    run_pipeline db s HJ HK Est.
    split; [|left; reflexivity].
    unfold settled, fields_by_state, absent_before_stage, positive_amounts,
    rate_at_most_default in *.
    rewrite Edata, Elat. cbn in *. rewrite ?Est in *. cbn in *.
    destruct Hend as [Es|Es]; rewrite Es; cbn;
      intuition (try discriminate; try lia; try congruence; eauto).
  - unfold handle_collect_salary. cbv zeta.
    destruct (extract_number message) as [salary|] eqn:En;
      [|split; [settle_at Est|left; reflexivity]].
    destruct (Qleb salary 0) eqn:Epos;
      [split; [settle_at Est|left; reflexivity]|].
    apply positive_of_not_le in Epos.
    run_pipeline db s HJ HK Est.
    assert (Es : conversation_state s' = DONE)
      by (apply (Hdone salary); [reflexivity|exact Epos]).
    split; [|left; reflexivity].
    unfold settled, fields_by_state, absent_before_stage, positive_amounts,
    rate_at_most_default in *.
    rewrite Edata, Elat, Es. cbn in *. rewrite ?Est in *. cbn in *.
    intuition (try discriminate; try lia; try congruence; eauto);
      settle_finish.
  - destruct H as (_ & _ & Hnr & _). exfalso. exact (Hnr Est).
  - split; [settle_at Est|left; reflexivity].
Qed.

(** Every reachable session is settled. *)
Lemma reachable_settled (s : Session) : reachable db s -> settled s.
Proof.
  induction 1 as [s0|s message Hs IH].
  - settle.
  - apply handle_user_message_settles; try assumption.
    + now apply (reachable_phone_unset db).
    + now apply (reachable_rate_respects_floor db).
    + now apply (reachable_tenure_within_bounds db).
Qed.

End Settled.

(** ** The collected data only move forward *)

Section Forward.

Variable db : list Customer.

Lemma data_moves_forward_refl (d : Data) : data_moves_forward d d.
Proof.
  unfold data_moves_forward. repeat split; auto.
  - intros la E. exists la. split; [exact E|apply Qle_refl].
  - apply Qle_refl.
Qed.

Ltac forward_same s :=
  replace (collected_data _) with (collected_data s) by reflexivity;
  apply data_moves_forward_refl.

(** The negotiation resolver only moves the data forward. *)
Lemma try_handle_negotiation_forward (message : string) (s : Session) :
  conversation_state s <> READY_TO_RUN ->
  data_moves_forward
    (collected_data s)
    (collected_data
       (fst (try_handle_negotiation db message (conversation_state s) s))).
Proof.
  intro Hnr. unfold try_handle_negotiation. cbv zeta.
  apply State_eqb_neq in Hnr. rewrite Hnr.
  destruct (negb (truthy_str (d_customer_phone (collected_data s))));
    [apply data_moves_forward_refl|].
  destruct (wants_lower_rate message).
  - destruct (State_eqb (conversation_state s) DONE);
      [apply data_moves_forward_refl|].
    match goal with
    | |- context [Qltb ?p ?c] => destruct (Qltb p c) eqn:Elt
    end; [|apply data_moves_forward_refl].
    apply Qltb_true in Elt.
    unfold data_moves_forward. cbn. repeat split; auto.
    + intros la E. exists la. split; [exact E|apply Qle_refl].
    + lra.
  - repeat break_if; try (apply data_moves_forward_refl).
    all: match goal with
         | Hlt : Qleb _ _ = false |- _ => apply Qleb_false in Hlt
         end.
    all: unfold data_moves_forward; cbn; repeat split; auto;
      try apply Qle_refl.
    all: intros la E; eexists; split; [reflexivity|];
      match goal with
      | Hlt : _ < get_default (d_loan_amount _) 0 |- _ =>
          rewrite E in Hlt; cbn in Hlt; lra
      end.
Qed.

Ltac forward_at Est :=
  unfold data_moves_forward, settled, fields_by_state, absent_before_stage,
    positive_amounts, rate_at_most_default, phone_unset_while_collecting in *;
  cbn in *; rewrite ?Est in *; cbn in *;
  repeat match goal with
         | H : _ /\ _ |- _ => destruct H
         end;
  repeat match goal with
         | H : (?a <= ?b)%nat -> _ |- _ =>
             first [specialize (H ltac:(lia)) | clear H]
         end;
  intuition (try discriminate; try lia; try congruence; eauto);
  try solve [apply Qle_refl];
  try solve [eexists; split; [eassumption|apply Qle_refl]];
  try solve [match goal with
             | H : ?x = None, E : ?x = Some _ |- _ => congruence
             end];
  try solve [exfalso;
             match goal with
             | H : has_key ?x = true -> _, E : ?x = Some _ |- _ =>
                 rewrite E in H; specialize (H eq_refl); discriminate H
             end].

(** A turn that is not a restart only moves the data forward. *)
Lemma handle_user_message_forward (message : string) (s : Session) :
  phone_unset_while_collecting s ->
  rate_respects_floor db s ->
  tenure_within_bounds s ->
  settled s ->
  str_in (lower (strip message)) RESTART_WORDS = false ->
  data_moves_forward (collected_data s)
                     (collected_data (fst (handle_user_message db message s))).
Proof.
  intros HI HJ HK H Hre. unfold handle_user_message. rewrite Hre.
  pose proof (try_handle_negotiation_forward message s ltac:(apply H)) as Hneg.
  destruct (try_handle_negotiation_settles db message s H) as [_ [b Hb]].
  destruct (try_handle_negotiation db message (conversation_state s) s)
    as [s1 res] eqn:E.
  cbn [fst snd] in *. subst res. destruct b; [exact Hneg|].
  apply try_handle_negotiation_declined in E. subst s1. clear Hneg.
  destruct (conversation_state s) eqn:Est.
  - unfold handle_collect_phone, next_phone_prompt. cbv zeta.
    repeat break_if; forward_at Est.
  - unfold handle_collect_loan. cbv zeta.
    destruct (extract_number message); repeat break_if; forward_at Est.
  - unfold handle_collect_tenure. cbv zeta.
    destruct (parse_tenure message) as [[?|]|?]; repeat break_if; forward_at Est.
  - unfold handle_ask_salary_option. cbv zeta.
    repeat break_if; try (forward_at Est; fail).
    run_pipeline db s HJ HK Est. rewrite Edata. forward_at Est.
  - unfold handle_collect_salary. cbv zeta.
    destruct (extract_number message); repeat break_if;
      try (forward_at Est; fail).
    run_pipeline db s HJ HK Est. rewrite Edata. forward_at Est.
  - destruct H as (_ & _ & Hnr & _). exfalso. exact (Hnr Est).
  - forward_at Est.
Qed.

End Forward.

(** ** The order of the states, and the replies *)

Section Turns.

Variable db : list Customer.

(** The negotiation resolver keeps the state of a settled session. *)
Lemma try_handle_negotiation_same_state (message : string) (s : Session) :
  conversation_state s <> READY_TO_RUN ->
  conversation_state
    (fst (try_handle_negotiation db message (conversation_state s) s))
  = conversation_state s.
Proof.
  intro Hnr. unfold try_handle_negotiation. cbv zeta.
  apply State_eqb_neq in Hnr. rewrite Hnr.
  repeat break_if; reflexivity.
Qed.

Lemma may_follow_refl_settled (st : State) :
  st <> READY_TO_RUN -> may_follow st st = true.
Proof. destruct st; cbn; congruence. Qed.

(** A turn that is not a restart keeps the state or moves it one step. *)
Lemma handle_user_message_may_follow (message : string) (s : Session) :
  phone_unset_while_collecting s ->
  rate_respects_floor db s ->
  tenure_within_bounds s ->
  settled s ->
  str_in (lower (strip message)) RESTART_WORDS = false ->
  may_follow (conversation_state s)
             (conversation_state (fst (handle_user_message db message s)))
  = true.
Proof.
  intros HI HJ HK H Hre. unfold handle_user_message. rewrite Hre.
  assert (Hnr : conversation_state s <> READY_TO_RUN) by apply H.
  pose proof (try_handle_negotiation_same_state message s Hnr) as Hsame.
  destruct (try_handle_negotiation_settles db message s H) as [_ [b Hb]].
  destruct (try_handle_negotiation db message (conversation_state s) s)
    as [s1 res] eqn:E.
  cbn [fst snd] in *. subst res. destruct b.
  { cbn [fst]. rewrite Hsame. now apply may_follow_refl_settled. }
  apply try_handle_negotiation_declined in E. subst s1. clear Hsame.
  destruct (conversation_state s) eqn:Est.
  - unfold handle_collect_phone, next_phone_prompt. cbv zeta.
    repeat break_if; cbn; rewrite ?Est; reflexivity.
  - unfold handle_collect_loan. cbv zeta.
    destruct (extract_number message); repeat break_if; cbn; rewrite ?Est;
      reflexivity.
  - unfold handle_collect_tenure. cbv zeta.
    destruct (parse_tenure message) as [[?|]|?]; repeat break_if; cbn; rewrite ?Est;
      reflexivity.
  - unfold handle_ask_salary_option. cbv zeta.
    repeat break_if; try (cbn; rewrite ?Est; reflexivity).
    run_pipeline db s HJ HK Est. destruct Hend as [Es|Es]; rewrite Es;
      reflexivity.
  - unfold handle_collect_salary. cbv zeta.
    destruct (extract_number message); repeat break_if;
      try (cbn; rewrite ?Est; reflexivity).
    run_pipeline db s HJ HK Est. destruct Hend as [Es|Es]; rewrite Es;
      reflexivity.
  - contradiction.
  - cbn. rewrite Est. reflexivity.
Qed.

(** A handled negotiation request is answered. *)
Lemma try_handle_negotiation_speaks (message : string) (state : State)
      (s s' : Session) (r : result bool) :
  try_handle_negotiation db message state s = (s', r) ->
  r <> Ok false ->
  exists m rest, chat_history s' = (chat_history s ++ m :: rest)%list.
Proof.
  unfold try_handle_negotiation. cbv zeta.
  repeat break_if; intros E Hr;
    try (inversion E; subst; cbn;
         first [ congruence
               | eexists; exists []; reflexivity ]; fail).
  all: match type of E with
       | context [run_master_pipeline db ?x] =>
           destruct (run_master_pipeline_speaks db x) as (m & rest & Hm);
           destruct (run_master_pipeline db x) as [s2 res]
       end.
  all: inversion E; subst; cbn in Hm; rewrite Hm;
    rewrite <- !app_assoc; cbn; eexists; eexists; reflexivity.
Qed.

(** A turn that is not a restart appends to the chat history, unless
    [parse_tenure] raises in COLLECT_TENURE. *)
Lemma handle_user_message_speaks (message : string) (s : Session) :
  str_in (lower (strip message)) RESTART_WORDS = false ->
  (exists m rest,
     chat_history (fst (handle_user_message db message s))
     = (chat_history s ++ m :: rest)%list)
  \/ (conversation_state s = COLLECT_TENURE
      /\ exists e,
           parse_tenure message = Raise e
           /\ handle_user_message db message s = (s, Raise e)).
Proof.
  intro Hre. unfold handle_user_message. rewrite Hre.
  destruct (try_handle_negotiation db message (conversation_state s) s)
    as [s1 [[|]|e]] eqn:E.
  - left. apply try_handle_negotiation_speaks in E; [exact E|discriminate].
  - apply try_handle_negotiation_declined in E. subst s1.
    destruct (conversation_state s).
    + left. unfold handle_collect_phone, next_phone_prompt. cbv zeta.
      repeat break_if; cbn; rewrite <- ?app_assoc; cbn;
        eexists; eexists; reflexivity.
    + left. unfold handle_collect_loan. cbv zeta.
      destruct (extract_number message); repeat break_if; cbn;
        rewrite <- ?app_assoc; cbn; eexists; eexists; reflexivity.
    + unfold handle_collect_tenure. cbv zeta.
      destruct (parse_tenure message) as [[?|]|err];
        [left|left|right; split; [reflexivity|eauto]];
        repeat break_if; cbn;
        rewrite <- ?app_assoc; cbn; eexists; eexists; reflexivity.
    + left. unfold handle_ask_salary_option. cbv zeta.
      repeat break_if; try (cbn; eexists; exists []; reflexivity).
      match goal with
      | |- context [run_master_pipeline db ?x] =>
          destruct (run_master_pipeline_speaks db x) as (m & rest & Hm)
      end.
      rewrite Hm. cbn. rewrite <- !app_assoc. cbn.
      eexists; eexists; reflexivity.
    + left. unfold handle_collect_salary. cbv zeta.
      destruct (extract_number message); repeat break_if;
        try (cbn; eexists; exists []; reflexivity).
      match goal with
      | |- context [run_master_pipeline db ?x] =>
          destruct (run_master_pipeline_speaks db x) as (m & rest & Hm)
      end.
      rewrite Hm. cbn. rewrite <- !app_assoc. cbn.
      eexists; eexists; reflexivity.
    + left. apply run_master_pipeline_speaks.
    + left. cbn. eexists; exists []; reflexivity.
  - left. apply try_handle_negotiation_speaks in E; [exact E|discriminate].
Qed.

End Turns.

(** ** Every reachable session *)

(** The session after any list of utterances is reachable. *)
Lemma session_after_reachable (db : list Customer) (messages : list string) :
  reachable db (session_after db messages).
Proof.
  unfold session_after.
  generalize (reach_reset db (mkSession [] COLLECT_PHONE
               (mkData None None None None None None None) None None 0)).
  generalize (reset_conversation (mkSession [] COLLECT_PHONE
               (mkData None None None None None None None) None None 0)).
  induction messages as [|m ms IH]; intros s Hs; cbn.
  - exact Hs.
  - apply IH. apply reach_turn. exact Hs.
Qed.

(** X1.  A chat turn of a reachable session raises in one case only: in
    state COLLECT_TENURE, when the utterance is read as a tenure and its
    number, taken twelve times, has no finite double; [parse_tenure] then
    raises OverflowError and the session is left as it was.  Every other
    turn returns normally, and so does every turn on an utterance whose
    number stays below that size.  The turn does raise when the utterance,
    neither a restart nor a negotiation request, states a number that has
    no finite double. *)
Theorem reachable_turn_raises_only_on_infinite_tenure :
  forall (db : list Customer) (s : Session) (message : string),
    reachable db s ->
    (snd (handle_user_message db message s) = Ok tt
     \/ (conversation_state s = COLLECT_TENURE
         /\ handle_user_message db message s = (s, Raise OverflowError)
         /\ exists number,
              extract_number message = Some number
              /\ FLOAT_OVERFLOW <= number * 12))
    /\ ((forall number, extract_number message = Some number ->
                        number * 12 < FLOAT_OVERFLOW) ->
        snd (handle_user_message db message s) = Ok tt)
    /\ (conversation_state s = COLLECT_TENURE ->
        str_in (lower (strip message)) RESTART_WORDS = false ->
        wants_lower_rate message = false ->
        wants_amount_adjustment message = false ->
        forall number,
          extract_number message = Some number ->
          FLOAT_OVERFLOW <= number ->
          handle_user_message db message s = (s, Raise OverflowError)).
Proof.
  intros db s message Hs.
  assert (Hconv :
    conversation_state s = COLLECT_TENURE ->
    str_in (lower (strip message)) RESTART_WORDS = false ->
    wants_lower_rate message = false ->
    wants_amount_adjustment message = false ->
    forall number,
      extract_number message = Some number ->
      FLOAT_OVERFLOW <= number ->
      handle_user_message db message s = (s, Raise OverflowError)).
  { intros Est Hre Hrate Hadj number En Hn.
    apply (tenure_turn_raises db); try assumption.
    exact (parse_tenure_overflows message number En Hn). }
  destruct (handle_user_message_settles
              db message s
              (reachable_phone_unset db s Hs)
              (reachable_rate_respects_floor db s Hs)
              (reachable_tenure_within_bounds db s Hs)
              (reachable_settled db s Hs))
    as [_ [Hok|(Est & e & Hp & Hr)]].
  - split; [left; exact Hok|]. split; [intros _; exact Hok|exact Hconv].
  - destruct (parse_tenure_raises message e Hp) as (-> & number & En & Hn).
    split; [|split; [|exact Hconv]].
    + right. split; [exact Est|]. split; [exact Hr|].
      exists number. split; assumption.
    + intro Hsmall. specialize (Hsmall number En). lra.
Qed.

Lemma reachable_turn_raises_only_on_infinite_tenure_witness :
  handle_user_message
    sample_db sample_huge_numeral
    (session_after sample_db ["9876543210"; "700000"]%string)
  = (session_after sample_db ["9876543210"; "700000"]%string,
     Raise OverflowError).
Proof.
  destruct (proj1 (reachable_turn_raises_only_on_infinite_tenure
                     sample_db
                     (session_after sample_db
                        ["9876543210"; "700000"]%string)
                     sample_huge_numeral
                     (session_after_reachable _ _)))
    as [Hok|(_ & Hraise & _)].
  - vm_compute in Hok. discriminate Hok.
  - exact Hraise.
Defined.

(** X2.  In a reachable session a turn that is not a restart only moves
    the collected data forward: a phone on file stays, with its name and
    profile; a tenure or salary on file stays; the loan amount on file
    does not increase and the rate does not increase. *)
Theorem collected_data_only_move_forward :
  forall (db : list Customer) (s : Session) (message : string),
    reachable db s ->
    str_in (lower (strip message)) RESTART_WORDS = false ->
    let d := collected_data s in
    let d' := collected_data (fst (handle_user_message db message s)) in
    (forall p, d_customer_phone d = Some p ->
       d_customer_phone d' = Some p
       /\ d_customer_name d' = d_customer_name d
       /\ d_customer_profile d' = d_customer_profile d)
    /\ (forall la, d_loan_amount d = Some la ->
          exists la', d_loan_amount d' = Some la' /\ la' <= la)
    /\ (forall n, d_tenure_months d = Some n -> d_tenure_months d' = Some n)
    /\ (forall v, d_monthly_salary d = Some v -> d_monthly_salary d' = Some v)
    /\ get_default (d_annual_rate_pct d') DEFAULT_RATE
       <= get_default (d_annual_rate_pct d) DEFAULT_RATE.
Proof.
  intros db s message Hs Hre.
  exact (handle_user_message_forward
           db message s
           (reachable_phone_unset db s Hs)
           (reachable_rate_respects_floor db s Hs)
           (reachable_tenure_within_bounds db s Hs)
           (reachable_settled db s Hs) Hre).
Qed.

Lemma collected_data_only_move_forward_witness :
  exists la',
    d_loan_amount
      (collected_data
         (fst (handle_user_message
                 sample_db "make the loan amount 450000 instead"
                 (session_after sample_db
                    ["9876543210"; "700000"; "36"]%string))))
    = Some la'
    /\ la' <= 700000.
Proof.
  apply (proj1 (proj2
    (collected_data_only_move_forward
       sample_db
       (session_after sample_db ["9876543210"; "700000"; "36"]%string)
       "make the loan amount 450000 instead"
       (session_after_reachable _ _) ltac:(reflexivity)))).
  reflexivity.
Defined.

(** X3.  Between turns a reachable session is never in READY_TO_RUN:
    every pipeline run started in a turn completes and moves the state on
    to COLLECT_SALARY or DONE, and the stored status is never KYC_FAILED
    (the phone on file was verified against the same records). *)
Theorem reachable_never_ready_to_run :
  forall (db : list Customer) (s : Session),
    reachable db s ->
    conversation_state s <> READY_TO_RUN
    /\ latest_status s <> Some KYC_FAILED
    /\ (forall ph, d_customer_phone (collected_data s) = Some ph ->
          crm_get_customer_by_phone db ph <> None
          /\ d_customer_profile (collected_data s)
             = crm_get_customer_by_phone db ph).
Proof.
  intros db s Hs.
  destruct (reachable_settled db s Hs) as (_ & _ & Hnr & Hkyc & _).
  split; [exact Hnr|]. split; [exact Hkyc|].
  intros ph Eph.
  destruct (reachable_rate_respects_floor db s Hs) as (r & _ & Hm).
  rewrite Eph in Hm. destruct Hm as (Hcrm & Hprof & _).
  split; assumption.
Qed.

Lemma reachable_never_ready_to_run_witness :
  conversation_state
    (session_after sample_db ["9876543210"; "400000"; "36"; "no"]%string)
  <> READY_TO_RUN.
Proof.
  apply (reachable_never_ready_to_run sample_db).
  apply session_after_reachable.
Defined.

(** X4.  In a reachable session the state tells which fields are on
    file: the phone exactly from COLLECT_LOAN on, the loan amount exactly
    from COLLECT_TENURE on, the tenure exactly from ASK_SALARY_OPTION on,
    and a salary only in DONE. *)
Theorem reachable_fields_match_state :
  forall (db : list Customer) (s : Session),
    reachable db s ->
    let st := conversation_state s in
    let d := collected_data s in
    (has_key (d_customer_phone d) = true <-> st <> COLLECT_PHONE)
    /\ (has_key (d_loan_amount d) = true
        <-> st <> COLLECT_PHONE /\ st <> COLLECT_LOAN)
    /\ (has_key (d_tenure_months d) = true
        <-> st <> COLLECT_PHONE /\ st <> COLLECT_LOAN /\ st <> COLLECT_TENURE)
    /\ (has_key (d_monthly_salary d) = true -> st = DONE).
Proof.
  intros db s Hs st d.
  destruct (reachable_settled db s Hs)
    as ((Hp & Hl & Ht) & (Hl0 & Ht0 & Hsal) & _).
  pose proof (reachable_phone_unset db s Hs) as Hp0.
  unfold phone_unset_while_collecting in Hp0.
  fold st d in Hp, Hl, Ht, Hl0, Ht0, Hsal, Hp0.
  split; [|split; [|split]].
  - split.
    + intros E Hst. rewrite (Hp0 Hst) in E. discriminate.
    + intro Hst. apply Hp. destruct st; cbn; try lia. congruence.
  - split.
    + intro E. assert (~ (stage st <= 1)%nat).
      { intro Hle. rewrite (Hl0 Hle) in E. discriminate. }
      destruct st; cbn in *; split; try discriminate; lia.
    + intros [H1 H2]. apply Hl. destruct st; cbn; try lia; congruence.
  - split.
    + intro E. assert (~ (stage st <= 2)%nat).
      { intro Hle. rewrite (Ht0 Hle) in E. discriminate. }
      destruct st; cbn in *; repeat split; try discriminate; lia.
    + intros (H1 & H2 & H3). apply Ht.
      destruct st; cbn; try lia; congruence.
  - exact Hsal.
Qed.

Lemma reachable_fields_match_state_witness :
  has_key (d_tenure_months
             (collected_data
                (session_after sample_db
                   ["9876543210"; "400000"; "36"]%string)))
  = true.
Proof.
  apply (proj2 (proj1 (proj2 (proj2
    (reachable_fields_match_state
       sample_db
       (session_after sample_db ["9876543210"; "400000"; "36"]%string)
       (session_after_reachable _ _)))))).
  repeat split; vm_compute; discriminate.
Defined.

(** X5.  In a reachable session the terms on file are in range: a loan
    amount and a salary are positive, a tenure is between 6 and 84
    months, and the rate is at most the default 12.0 and at least the
    best rate of the profile on file. *)
Theorem reachable_terms_in_range :
  forall (db : list Customer) (s : Session),
    reachable db s ->
    let d := collected_data s in
    (forall la, d_loan_amount d = Some la -> 0 < la)
    /\ (forall n, d_tenure_months d = Some n -> (6 <= n <= 84)%Z)
    /\ (forall v, d_monthly_salary d = Some v -> 0 < v)
    /\ exists r,
        d_annual_rate_pct d = Some r
        /\ compute_best_rate (d_customer_profile d) <= r
        /\ r <= 12.
Proof.
  intros db s Hs d.
  destruct (reachable_settled db s Hs) as (_ & _ & _ & _ & (Hla & Hsal) & Hr).
  split; [exact Hla|]. split; [|split; [exact Hsal|]].
  - intros n En. exact (reachable_tenure_within_bounds db s Hs n En).
  - destruct (reachable_rate_respects_floor db s Hs) as (r & Er & Hm).
    exists r. split; [exact Er|]. split.
    + destruct (d_customer_phone (collected_data s)).
      * apply Hm.
      * subst r. apply compute_best_rate_le_default.
    + exact (Hr r Er).
Qed.

Lemma reachable_terms_in_range_witness :
  exists r,
    d_annual_rate_pct
      (collected_data
         (session_after sample_db ["9876543210"; "400000"; "3 years"]%string))
    = Some r
    /\ compute_best_rate
         (d_customer_profile
            (collected_data
               (session_after sample_db
                  ["9876543210"; "400000"; "3 years"]%string)))
       <= r
    /\ r <= 12.
Proof.
  apply (proj2 (proj2 (proj2
    (reachable_terms_in_range
       sample_db
       (session_after sample_db ["9876543210"; "400000"; "3 years"]%string)
       (session_after_reachable _ _))))).
Defined.

(** X6.  In a reachable session in state COLLECT_SALARY, an utterance
    that states a positive number and is not a restart or a negotiation
    request records the salary and ends the conversation: the state is
    DONE and the stored status is APPROVED or REJECT, never a second
    request for the salary. *)
Theorem declared_salary_ends_conversation :
  forall (db : list Customer) (s : Session) (message : string) (salary : Q),
    reachable db s ->
    conversation_state s = COLLECT_SALARY ->
    str_in (lower (strip message)) RESTART_WORDS = false ->
    wants_lower_rate message = false ->
    wants_amount_adjustment message = false ->
    extract_number message = Some salary ->
    0 < salary ->
    let s' := fst (handle_user_message db message s) in
    conversation_state s' = DONE
    /\ d_monthly_salary (collected_data s') = Some salary
    /\ (latest_status s' = Some APPROVED
        \/ latest_status s' = Some STATUS_REJECT).
Proof.
  intros db s message salary Hs Est Hre Hrate Hadj Hnum Hpos.
  pose proof (reachable_rate_respects_floor db s Hs) as HJ.
  pose proof (reachable_tenure_within_bounds db s Hs) as HK.
  pose proof (reachable_settled db s Hs) as H.
  unfold handle_user_message. rewrite Hre.
  assert (Eneg : try_handle_negotiation db message (conversation_state s) s
                 = (s, Ok false)).
  { unfold try_handle_negotiation. cbv zeta. rewrite Hrate, Hadj.
    rewrite andb_false_r. destruct (negb _); reflexivity. }
  rewrite Eneg, Est.
  unfold handle_collect_salary. rewrite Hnum.
  replace (Qleb salary 0) with false by (symmetry; apply Qleb_false; exact Hpos).
  cbv zeta.
  run_pipeline db s HJ HK Est.
  assert (Es : conversation_state s' = DONE)
    by (apply (Hdone salary); [reflexivity|exact Hpos]).
  split; [exact Es|]. split; [rewrite Edata; reflexivity|].
  rewrite Elat. destruct (Hrel Es) as [E|E]; rewrite E; auto.
Qed.

Lemma declared_salary_ends_conversation_witness :
  conversation_state
    (fst (handle_user_message
            sample_db "60000"
            (session_after sample_db
               ["9876543210"; "700000"; "36"; "yes"]%string)))
  = DONE.
Proof.
  apply (declared_salary_ends_conversation
           sample_db
           (session_after sample_db
              ["9876543210"; "700000"; "36"; "yes"]%string)
           "60000" 60000
           (session_after_reachable _ _)); reflexivity.
Defined.

(** X7.  DONE is terminal for every session: an utterance that is not a
    restart keyword gets exactly one reply and changes neither the state,
    nor the collected data, nor the stored status and payload, and this
    holds for a negotiation request too. *)
Theorem done_is_terminal :
  forall (db : list Customer) (s : Session) (message : string),
    conversation_state s = DONE ->
    str_in (lower (strip message)) RESTART_WORDS = false ->
    let r := handle_user_message db message s in
    snd r = Ok tt
    /\ conversation_state (fst r) = DONE
    /\ collected_data (fst r) = collected_data s
    /\ latest_status (fst r) = latest_status s
    /\ latest_payload (fst r) = latest_payload s
    /\ phone_retry_count (fst r) = phone_retry_count s
    /\ exists reply, chat_history (fst r) = (chat_history s ++ [reply])%list.
Proof.
  intros db s message Est Hre. unfold handle_user_message.
  rewrite Hre, Est. unfold try_handle_negotiation. cbv zeta.
  cbn [State_eqb].
  repeat break_if; cbn; rewrite ?Est;
    repeat split; eexists; reflexivity.
Qed.

Lemma done_is_terminal_witness :
  collected_data
    (fst (handle_user_message
            sample_db "can you lower the rate to 10%"
            (sample_session DONE (Some 400000))))
  = collected_data (sample_session DONE (Some 400000)).
Proof.
  apply (proj1 (proj2 (proj2
    (done_is_terminal sample_db (sample_session DONE (Some 400000))
                      "can you lower the rate to 10%"
                      ltac:(reflexivity) ltac:(reflexivity))))).
Defined.

(** X8.  In a reachable session a turn that is not a restart keeps the
    state or moves it one step along COLLECT_PHONE, COLLECT_LOAN,
    COLLECT_TENURE, ASK_SALARY_OPTION, then COLLECT_SALARY or DONE: it
    never moves back and never skips a collection step. *)
Theorem turns_follow_the_collection_order :
  forall (db : list Customer) (s : Session) (message : string),
    reachable db s ->
    str_in (lower (strip message)) RESTART_WORDS = false ->
    may_follow (conversation_state s)
               (conversation_state (fst (handle_user_message db message s)))
    = true.
Proof.
  intros db s message Hs Hre.
  exact (handle_user_message_may_follow
           db message s
           (reachable_phone_unset db s Hs)
           (reachable_rate_respects_floor db s Hs)
           (reachable_tenure_within_bounds db s Hs)
           (reachable_settled db s Hs) Hre).
Qed.

Lemma turns_follow_the_collection_order_witness :
  may_follow
    (conversation_state (session_after sample_db ["9876543210"]%string))
    (conversation_state
       (fst (handle_user_message
               sample_db "4,00,000"
               (session_after sample_db ["9876543210"]%string))))
  = true.
Proof.
  apply (turns_follow_the_collection_order
           sample_db (session_after sample_db ["9876543210"]%string)
           "4,00,000" (session_after_reachable _ _)).
  reflexivity.
Defined.

(** X9.  In every session, a turn that is not a restart is answered:
    the chat history keeps what it held and gains at least one assistant
    message.  The one exception is the turn in COLLECT_TENURE on which
    [parse_tenure] raises OverflowError, which leaves the session as it
    was; it needs a number that, taken twelve times, has no finite
    double, and an utterance there that is no negotiation request and
    states a number with no finite double gets no reply. *)
Theorem every_turn_is_answered_unless_tenure_overflows :
  forall (db : list Customer) (s : Session) (message : string),
    str_in (lower (strip message)) RESTART_WORDS = false ->
    ((exists reply more,
        chat_history (fst (handle_user_message db message s))
        = (chat_history s ++ reply :: more)%list)
     \/ (conversation_state s = COLLECT_TENURE
         /\ handle_user_message db message s = (s, Raise OverflowError)
         /\ exists number,
              extract_number message = Some number
              /\ FLOAT_OVERFLOW <= number * 12))
    /\ ((forall number, extract_number message = Some number ->
                        number * 12 < FLOAT_OVERFLOW) ->
        exists reply more,
          chat_history (fst (handle_user_message db message s))
          = (chat_history s ++ reply :: more)%list)
    /\ (conversation_state s = COLLECT_TENURE ->
        wants_lower_rate message = false ->
        wants_amount_adjustment message = false ->
        forall number,
          extract_number message = Some number ->
          FLOAT_OVERFLOW <= number ->
          chat_history (fst (handle_user_message db message s))
          = chat_history s).
Proof.
  intros db s message Hre.
  assert (Hconv :
    conversation_state s = COLLECT_TENURE ->
    wants_lower_rate message = false ->
    wants_amount_adjustment message = false ->
    forall number,
      extract_number message = Some number ->
      FLOAT_OVERFLOW <= number ->
      chat_history (fst (handle_user_message db message s))
      = chat_history s).
  { intros Est Hrate Hadj number En Hn.
    rewrite (tenure_turn_raises db message s OverflowError Est Hre Hrate Hadj
               (parse_tenure_overflows message number En Hn)).
    reflexivity. }
  destruct (handle_user_message_speaks db message s Hre)
    as [Hsp|(Est & e & Hp & Hr)].
  - split; [left; exact Hsp|]. split; [intros _; exact Hsp|exact Hconv].
  - destruct (parse_tenure_raises message e Hp) as (-> & number & En & Hn).
    split; [|split; [|exact Hconv]].
    + right. split; [exact Est|]. split; [exact Hr|].
      exists number. split; assumption.
    + intro Hsmall. specialize (Hsmall number En). lra.
Qed.

Lemma every_turn_is_answered_unless_tenure_overflows_witness :
  exists reply more,
    chat_history
      (fst (handle_user_message sample_db "about 3 years"
              (sample_session COLLECT_TENURE (Some 400000))))
    = (chat_history (sample_session COLLECT_TENURE (Some 400000))
         ++ reply :: more)%list.
Proof.
  apply (proj1 (proj2 (every_turn_is_answered_unless_tenure_overflows
                         sample_db
                         (sample_session COLLECT_TENURE (Some 400000))
                         "about 3 years" ltac:(reflexivity)))).
  intros number En. vm_compute in En. inversion En. vm_compute. reflexivity.
Defined.

(** ** The collection steps *)

(** X23.  In a reachable session in state COLLECT_LOAN, an utterance that
    is neither a restart nor a request for a lower rate is read as the
    loan amount: without a number, or with a number below the minimum of
    10,000, nothing is stored and the state stays; a number of at least
    10,000 is stored as the loan amount and the state moves to
    COLLECT_TENURE, whether or not it exceeds the pre-approved limit. *)
Theorem loan_amount_is_collected_from_the_minimum :
  forall (db : list Customer) (s : Session) (message : string),
    reachable db s ->
    conversation_state s = COLLECT_LOAN ->
    str_in (lower (strip message)) RESTART_WORDS = false ->
    wants_lower_rate message = false ->
    let s' := fst (handle_user_message db message s) in
    (extract_number message = None ->
       conversation_state s' = COLLECT_LOAN
       /\ collected_data s' = collected_data s)
    /\ (forall amount, extract_number message = Some amount ->
          amount < 10000 ->
          conversation_state s' = COLLECT_LOAN
          /\ collected_data s' = collected_data s)
    /\ (forall amount, extract_number message = Some amount ->
          10000 <= amount ->
          conversation_state s' = COLLECT_TENURE
          /\ collected_data s'
             = set_d_loan_amount (Some amount) (collected_data s)).
Proof.
  intros db s message Hs Est Hre Hrate.
  destruct (reachable_settled db s Hs) as (_ & (Hloan & _) & _).
  rewrite Est in Hloan. specialize (Hloan ltac:(cbn; lia)).
  unfold handle_user_message. rewrite Hre.
  assert (Eneg : try_handle_negotiation db message (conversation_state s) s
                 = (s, Ok false)).
  { unfold try_handle_negotiation. cbv zeta. rewrite Hrate, Hloan.
    destruct (negb _); reflexivity. }
  rewrite Eneg, Est. unfold handle_collect_loan. cbv zeta.
  repeat split.
  - rewrite H. cbn. exact Est.
  - rewrite H. reflexivity.
  - rewrite H. apply Qltb_true in H0. unfold MIN_LOAN. rewrite H0.
    cbn. exact Est.
  - rewrite H. apply Qltb_true in H0. unfold MIN_LOAN. rewrite H0.
    reflexivity.
  - rewrite H. apply Qltb_false in H0. unfold MIN_LOAN. rewrite H0.
    break_if; reflexivity.
  - rewrite H. apply Qltb_false in H0. unfold MIN_LOAN. rewrite H0.
    break_if; reflexivity.
Qed.

Lemma loan_amount_is_collected_from_the_minimum_witness :
  conversation_state
    (fst (handle_user_message
            sample_db "9,999"
            (session_after sample_db ["9876543210"]%string)))
  = COLLECT_LOAN
  /\ collected_data
       (fst (handle_user_message
               sample_db "9,999"
               (session_after sample_db ["9876543210"]%string)))
     = collected_data (session_after sample_db ["9876543210"]%string).
Proof.
  apply (proj1 (proj2
    (loan_amount_is_collected_from_the_minimum
       sample_db (session_after sample_db ["9876543210"]%string) "9,999"
       (session_after_reachable _ _)
       ltac:(reflexivity) ltac:(reflexivity) ltac:(reflexivity)))
    9999).
  - reflexivity.
  - vm_compute. reflexivity.
Defined.

(** X24.  In state COLLECT_TENURE, an utterance that is neither a restart
    nor a negotiation request is read as the tenure: a tenure from 6 to 84
    months is stored and the state moves to ASK_SALARY_OPTION; without a
    number, or with a tenure outside these bounds, nothing is stored and
    the state stays.  When [parse_tenure] raises, the turn raises the same
    exception and leaves the session as it was. *)
Theorem tenure_is_collected_within_bounds :
  forall (db : list Customer) (s : Session) (message : string),
    conversation_state s = COLLECT_TENURE ->
    str_in (lower (strip message)) RESTART_WORDS = false ->
    wants_lower_rate message = false ->
    wants_amount_adjustment message = false ->
    let s' := fst (handle_user_message db message s) in
    (parse_tenure message = Ok None ->
       conversation_state s' = COLLECT_TENURE
       /\ collected_data s' = collected_data s)
    /\ (forall tenure, parse_tenure message = Ok (Some tenure) ->
          (tenure < 6 \/ 84 < tenure)%Z ->
          conversation_state s' = COLLECT_TENURE
          /\ collected_data s' = collected_data s)
    /\ (forall tenure, parse_tenure message = Ok (Some tenure) ->
          (6 <= tenure <= 84)%Z ->
          conversation_state s' = ASK_SALARY_OPTION
          /\ collected_data s'
             = set_d_tenure_months (Some tenure) (collected_data s))
    /\ (forall e, parse_tenure message = Raise e ->
          handle_user_message db message s = (s, Raise e)).
Proof.
  intros db s message Est Hre Hrate Hadj.
  unfold handle_user_message. rewrite Hre.
  assert (Eneg : try_handle_negotiation db message (conversation_state s) s
                 = (s, Ok false)).
  { unfold try_handle_negotiation. cbv zeta. rewrite Hrate, Hadj.
    rewrite andb_false_r. destruct (negb _); reflexivity. }
  rewrite Eneg, Est. unfold handle_collect_tenure, MIN_TENURE, MAX_TENURE.
  cbv zeta. split; [|split; [|split]].
  - intro H. rewrite H. split; [exact Est|reflexivity].
  - intros tenure H Hout. rewrite H.
    replace ((tenure <? 6)%Z || (84 <? tenure)%Z) with true.
    + split; [exact Est|reflexivity].
    + symmetry. apply orb_true_iff.
      destruct Hout; [left; apply Z.ltb_lt|right; apply Z.ltb_lt]; lia.
  - intros tenure H Hin. rewrite H.
    replace ((tenure <? 6)%Z || (84 <? tenure)%Z) with false.
    + split; reflexivity.
    + symmetry. apply orb_false_iff. split; apply Z.ltb_ge; lia.
  - intros e H. rewrite H. reflexivity.
Qed.

Lemma tenure_is_collected_within_bounds_witness :
  conversation_state
    (fst (handle_user_message sample_db "3 years"
            (sample_session COLLECT_TENURE (Some 400000))))
  = ASK_SALARY_OPTION
  /\ collected_data
       (fst (handle_user_message sample_db "3 years"
               (sample_session COLLECT_TENURE (Some 400000))))
     = set_d_tenure_months
         (Some 36%Z)
         (collected_data (sample_session COLLECT_TENURE (Some 400000))).
Proof.
  apply (proj1 (proj2 (proj2
    (tenure_is_collected_within_bounds
       sample_db (sample_session COLLECT_TENURE (Some 400000)) "3 years"
       ltac:(reflexivity) ltac:(reflexivity) ltac:(reflexivity)
       ltac:(reflexivity))))
    36%Z).
  - reflexivity.
  - lia.
Defined.

(** X26.  The best rate on offer never gets worse with a better credit
    score: a profile with a higher score gets a best rate that is at
    most that of a profile with a lower score, and every best rate lies
    between 9.75 and 11.75, below the default rate of 12.0. *)
Theorem best_rate_improves_with_score :
  forall (p1 p2 : option Customer),
    (profile_score p1 <= profile_score p2)%Z ->
    compute_best_rate p2 <= compute_best_rate p1
    /\ (975 # 100) <= compute_best_rate p2
    /\ compute_best_rate p1 <= (1175 # 100)
    /\ compute_best_rate p1 < DEFAULT_RATE.
Proof.
  intros p1 p2 H. unfold compute_best_rate, DEFAULT_RATE. cbv zeta.
  repeat break_if;
    repeat match goal with
           | E : (_ <=? _)%Z = true |- _ => apply Z.leb_le in E
           | E : (_ <=? _)%Z = false |- _ => apply Z.leb_gt in E
           end;
    try lia;
    repeat split; solve [vm_compute; discriminate | vm_compute; reflexivity].
Qed.

Lemma best_rate_improves_with_score_witness :
  compute_best_rate (Some sample_customer) <= compute_best_rate None.
Proof.
  apply (best_rate_improves_with_score None (Some sample_customer)).
  vm_compute. discriminate.
Defined.

(** X27.  In a reachable session in state COLLECT_PHONE, an utterance
    that is not a restart keyword and has fewer than ten digits stores
    nothing and keeps the state; one with at least ten digits whose last
    ten are the phone of a customer record stores that phone with the
    record and its name, resets the retry counter and moves on to
    COLLECT_LOAN. *)
Theorem known_phone_is_stored_with_its_record :
  forall (db : list Customer) (s : Session) (message : string),
    reachable db s ->
    conversation_state s = COLLECT_PHONE ->
    str_in (lower (strip message)) RESTART_WORDS = false ->
    let digits := digits_of message in
    let s' := fst (handle_user_message db message s) in
    ((String.length digits < 10)%nat ->
       conversation_state s' = COLLECT_PHONE
       /\ collected_data s' = collected_data s)
    /\ (forall cust,
          (10 <= String.length digits)%nat ->
          crm_get_customer_by_phone db (last10 digits) = Some cust ->
          conversation_state s' = COLLECT_LOAN
          /\ collected_data s'
             = set_d_customer_profile (Some cust)
                 (set_d_customer_name (Some (cust_name cust))
                    (set_d_customer_phone (Some (last10 digits))
                       (collected_data s)))
          /\ phone_retry_count s' = 0%nat).
Proof.
  intros db s message Hs Est Hre digits s'.
  pose proof (reachable_phone_unset db s Hs Est) as Hph.
  assert (Eneg : try_handle_negotiation db message (conversation_state s) s
                 = (s, Ok false)).
  { unfold try_handle_negotiation. cbv zeta. rewrite Hph. reflexivity. }
  assert (Es' : s' = fst (handle_collect_phone db message s)).
  { unfold s', handle_user_message. rewrite Hre, Eneg, Est. reflexivity. }
  rewrite Es'. unfold handle_collect_phone. fold digits. cbv zeta. split.
  - intro Hlt.
    destruct (String.eqb digits "") eqn:Ee.
    + repeat break_if; cbn; split; (exact Est || reflexivity).
    + apply Nat.ltb_lt in Hlt. rewrite Hlt. cbn. split; [exact Est|reflexivity].
  - intros cust Hge Hcrm.
    assert (Ene : String.eqb digits "" = false).
    { apply String.eqb_neq. intro E. rewrite E in Hge. cbn in Hge. lia. }
    apply Nat.ltb_ge in Hge. rewrite Ene, Hge.
    unfold task_verify. rewrite Hcrm. cbn. repeat split.
Qed.

Lemma known_phone_is_stored_with_its_record_witness :
  conversation_state
    (fst (handle_user_message
            sample_db "my number is +91 98765 43210"
            (session_after sample_db ["hello"]%string)))
  = COLLECT_LOAN.
Proof.
  apply (proj2 (known_phone_is_stored_with_its_record
                  sample_db (session_after sample_db ["hello"]%string)
                  "my number is +91 98765 43210"
                  (session_after_reachable _ _)
                  ltac:(reflexivity) ltac:(reflexivity))
               sample_customer).
  - vm_compute. lia.
  - reflexivity.
Defined.

(** X28.  In a reachable session in state ASK_SALARY_OPTION, an
    utterance that is neither a restart nor a negotiation request is
    read as a yes or a no, a yes winning over a no: after a yes the
    salary is asked for and nothing is evaluated; after a no the
    pipeline runs at once on the data on file and leaves the state in
    COLLECT_SALARY or DONE with its status stored; anything else keeps
    the state.  The collected data are the same in all three cases. *)
Theorem salary_option_is_yes_or_no :
  forall (db : list Customer) (s : Session) (message : string),
    reachable db s ->
    conversation_state s = ASK_SALARY_OPTION ->
    str_in (lower (strip message)) RESTART_WORDS = false ->
    wants_lower_rate message = false ->
    wants_amount_adjustment message = false ->
    let s' := fst (handle_user_message db message s) in
    collected_data s' = collected_data s
    /\ (is_positive_response message = true ->
        conversation_state s' = COLLECT_SALARY
        /\ latest_status s' = latest_status s)
    /\ (is_positive_response message = false ->
        is_negative_response message = true ->
        exists status,
          latest_status s' = Some status
          /\ status <> KYC_FAILED
          /\ (conversation_state s' = COLLECT_SALARY
              \/ (conversation_state s' = DONE
                  /\ (status = STATUS_REJECT \/ status = APPROVED))))
    /\ (is_positive_response message = false ->
        is_negative_response message = false ->
        conversation_state s' = ASK_SALARY_OPTION
        /\ latest_status s' = latest_status s).
Proof.
  intros db s message Hs Est Hre Hrate Hadj s'.
  pose proof (reachable_rate_respects_floor db s Hs) as HJ.
  pose proof (reachable_tenure_within_bounds db s Hs) as HK.
  pose proof (reachable_settled db s Hs) as H.
  assert (Eneg : try_handle_negotiation db message (conversation_state s) s
                 = (s, Ok false)).
  { unfold try_handle_negotiation. cbv zeta. rewrite Hrate, Hadj.
    rewrite andb_false_r. destruct (negb _); reflexivity. }
  assert (Es' : s' = fst (handle_ask_salary_option db message s)).
  { unfold s', handle_user_message. rewrite Hre, Eneg, Est. reflexivity. }
  rewrite Es'. clear Es' s'. unfold handle_ask_salary_option. cbv zeta.
  destruct (is_positive_response message) eqn:Epos.
  - cbn. repeat split; intros; try discriminate; reflexivity.
  - destruct (is_negative_response message) eqn:Eno.
    + run_pipeline db s HJ HK Est.
      split; [rewrite Edata; reflexivity|].
      split; [discriminate|]. split; [|discriminate].
      intros _ _. exists status. split; [exact Elat|]. split; [exact Hkyc|].
      destruct Hend as [E|E]; [left; exact E|right; split; [exact E|]].
      exact (Hrel E).
    + cbn. repeat split; intros; try discriminate; try exact Est; reflexivity.
Qed.

Lemma salary_option_is_yes_or_no_witness :
  conversation_state
    (fst (handle_user_message
            sample_db "yes, sure"
            (session_after sample_db ["9876543210"; "700000"; "36"]%string)))
  = COLLECT_SALARY.
Proof.
  apply (proj1 (proj2 (salary_option_is_yes_or_no
           sample_db
           (session_after sample_db ["9876543210"; "700000"; "36"]%string)
           "yes, sure"
           (session_after_reachable _ _)
           ltac:(reflexivity) ltac:(reflexivity) ltac:(reflexivity)
           ltac:(reflexivity)))).
  reflexivity.
Defined.

(** ** Numbers and digits in text *)

Lemma no_digit_no_match (text : string) :
  digits_of text = EmptyString -> first_number_match text = None.
Proof.
  unfold digits_of. induction text as [|c t IH]; cbn; [reflexivity|].
  destruct (is_digit c); [discriminate|exact IH].
Qed.

Lemma prefix_without_digits_skipped (prefix text : string) :
  digits_of prefix = EmptyString ->
  first_number_match (prefix ++ text) = first_number_match text.
Proof.
  unfold digits_of. induction prefix as [|c t IH]; cbn; [reflexivity|].
  destruct (is_digit c); [discriminate|exact IH].
Qed.

Lemma digit_val_nonneg (c : ascii) : (0 <= digit_val c)%Z.
Proof. unfold digit_val. lia. Qed.

Lemma read_digits_nonneg (s : string) :
  forall acc count,
    (0 <= acc)%Z -> (0 <= fst (fst (read_digits acc count s)))%Z.
Proof.
  induction s as [|c t IH]; intros acc count Hacc; cbn [read_digits fst];
    [exact Hacc|].
  destruct (is_digit c); cbn [fst]; [|exact Hacc].
  apply IH. pose proof (digit_val_nonneg c). lia.
Qed.

Lemma parse_float_nonneg (raw : string) (x : Q) :
  parse_float raw = Some x -> 0 <= x.
Proof.
  unfold parse_float.
  pose proof (read_digits_nonneg raw 0 0 ltac:(lia)) as H0.
  destruct (read_digits 0 0 raw) as [[ip k] rest]. cbn [fst] in H0.
  destruct rest as [|c rest'].
  - intro E. inversion E; subst.
    change 0 with (inject_Z 0). rewrite <- Zle_Qle. exact H0.
  - destruct (Ascii.eqb c "."); [|discriminate].
    pose proof (read_digits_nonneg rest' ip 0 H0) as H1.
    destruct (read_digits ip 0 rest') as [[all k'] rest'']. cbn [fst] in H1.
    destruct rest''; [|discriminate].
    intro E. inversion E; subst. unfold Qle. cbn [Qnum Qden]. lia.
Qed.

(** X20.  [extract_number] reads the first number of the text: a text
    without a digit gives None, text before the first digit is ignored
    (so a sign is never read), and a number that is read is never
    negative. *)
Theorem extract_number_reads_first_number :
  forall (text : string),
    (digits_of text = EmptyString -> extract_number text = None)
    /\ (forall x, extract_number text = Some x -> 0 <= x)
    /\ (forall prefix,
          digits_of prefix = EmptyString ->
          extract_number (prefix ++ text) = extract_number text).
Proof.
  intro text. unfold extract_number. repeat split.
  - intro H. now rewrite (no_digit_no_match text H).
  - intros x. destruct (first_number_match text); [|discriminate].
    apply parse_float_nonneg.
  - intros prefix H. now rewrite (prefix_without_digits_skipped prefix text H).
Qed.

Lemma extract_number_reads_first_number_witness :
  extract_number "about -2,50,000.50 rupees"
  = extract_number "2,50,000.50 rupees".
Proof.
  apply (proj2 (proj2 (extract_number_reads_first_number
                         "2,50,000.50 rupees")) "about -"%string).
  reflexivity.
Defined.

(** X21.  The phone prompts rotate: successive calls of
    [next_phone_prompt] give three different wordings and then the first
    one again, and each call advances the retry counter by one. *)
Theorem phone_prompts_rotate :
  forall (s : Session),
    let '(s1, m1) := next_phone_prompt s in
    let '(s2, m2) := next_phone_prompt s1 in
    let '(s3, m3) := next_phone_prompt s2 in
    let '(s4, m4) := next_phone_prompt s3 in
    m1 <> m2 /\ m2 <> m3 /\ m3 <> m1 /\ m4 = m1
    /\ phone_retry_count s4 = (phone_retry_count s + 4)%nat.
Proof.
  intro s. unfold next_phone_prompt.
  cbn [phone_retry_count set_phone_retry_count].
  set (i := phone_retry_count s).
  assert (Hi : (i mod 3 < 3)%nat) by (apply Nat.mod_upper_bound; lia).
  assert (H1 : ((i + 1) mod 3 = (i mod 3 + 1) mod 3)%nat)
    by (rewrite Nat.Div0.add_mod_idemp_l; reflexivity).
  assert (H2 : ((i + 1 + 1) mod 3 = (i mod 3 + 2) mod 3)%nat)
    by (rewrite <- Nat.add_assoc, Nat.Div0.add_mod_idemp_l; reflexivity).
  assert (H3 : ((i + 1 + 1 + 1) mod 3 = i mod 3)%nat).
  { replace (i + 1 + 1 + 1)%nat with (i + 1 * 3)%nat by lia.
    apply Nat.Div0.mod_add. }
  rewrite H1, H2, H3.
  destruct (i mod 3)%nat as [|[|[|k]]]; try lia;
    repeat split; try (cbn; congruence); lia.
Qed.

(** ** The phone on file *)

Lemma all_digits_digits_of (s : string) : all_digits (digits_of s) = true.
Proof.
  unfold digits_of. induction s as [|c t IH]; cbn; [reflexivity|].
  destruct (is_digit c) eqn:E; cbn; [rewrite E; exact IH|exact IH].
Qed.

Lemma all_digits_substring (s : string) :
  all_digits s = true ->
  forall n m, all_digits (substring n m s) = true.
Proof.
  induction s as [|c t IH]; intros H n m.
  - destruct n, m; reflexivity.
  - cbn in H. apply andb_true_iff in H. destruct H as [Hc Ht].
    destruct n as [|n]; destruct m as [|m]; cbn; try reflexivity.
    + rewrite Hc. cbn. apply (IH Ht 0%nat m).
    + apply (IH Ht n 0%nat).
    + apply (IH Ht n (S m)).
Qed.

Lemma length_substring_exact (s : string) :
  forall n m,
    (n + m <= String.length s)%nat -> String.length (substring n m s) = m.
Proof.
  induction s as [|c t IH]; intros n m H; cbn in H.
  - destruct n, m; cbn; lia.
  - destruct n as [|n]; destruct m as [|m]; cbn; try reflexivity.
    + f_equal. apply (IH 0%nat m). lia.
    + apply (IH n 0%nat). lia.
    + apply (IH n (S m)). lia.
Qed.

Lemma last10_of_digits (message : string) :
  (String.length (digits_of message) <? 10)%nat = false ->
  String.length (last10 (digits_of message)) = 10%nat
  /\ all_digits (last10 (digits_of message)) = true.
Proof.
  intro H. apply Nat.ltb_ge in H. unfold last10. split.
  - apply length_substring_exact. lia.
  - apply all_digits_substring. apply all_digits_digits_of.
Qed.

Section PhoneOnFile.

Variable db : list Customer.

Lemma phone_well_formed_field (s s' : Session) :
  d_customer_phone (collected_data s') = d_customer_phone (collected_data s)
  \/ d_customer_phone (collected_data s') = None ->
  phone_well_formed s -> phone_well_formed s'.
Proof.
  unfold phone_well_formed. intros [E|E] H p Hp; rewrite E in Hp.
  - now apply H.
  - discriminate.
Qed.

Ltac same_phone s H :=
  apply (phone_well_formed_field s);
  [first [left; reflexivity | right; reflexivity]|exact H].

Lemma run_master_pipeline_keeps_phone_form (s : Session) :
  phone_well_formed s ->
  phone_well_formed (fst (run_master_pipeline db s)).
Proof.
  intro H. unfold run_master_pipeline.
  destruct (d_customer_phone (collected_data s)) eqn:Eph;
    destruct (d_loan_amount (collected_data s));
    destruct (d_tenure_months (collected_data s));
    try (same_phone s H; fail).
  destruct (master_orchestrate db _ OUTPUT_DIR) as [[[status payload] c]|e];
    [destruct status|]; same_phone s H.
Qed.

Lemma try_handle_negotiation_keeps_phone_form (message : string)
      (state : State) (s : Session) :
  phone_well_formed s ->
  phone_well_formed (fst (try_handle_negotiation db message state s)).
Proof.
  intro H. unfold try_handle_negotiation. cbv zeta.
  repeat break_if; try (same_phone s H; fail);
    match goal with
    | |- context [run_master_pipeline db ?x] =>
        assert (Hx : phone_well_formed x) by (same_phone s H);
        apply run_master_pipeline_keeps_phone_form in Hx;
        destruct (run_master_pipeline db x) as [s2 res]
    end;
    exact Hx.
Qed.

(** A turn keeps the phone on file well formed. *)
Lemma handle_user_message_keeps_phone_form (message : string) (s : Session) :
  phone_well_formed s ->
  phone_well_formed (fst (handle_user_message db message s)).
Proof.
  intro H. unfold handle_user_message.
  destruct (str_in (lower (strip message)) RESTART_WORDS).
  - intros p E. discriminate E.
  - pose proof (try_handle_negotiation_keeps_phone_form
                  message (conversation_state s) s H) as Hneg.
    destruct (try_handle_negotiation db message (conversation_state s) s)
      as [s1 [[|]|e]] eqn:E; cbn [fst] in *; try exact Hneg.
    apply try_handle_negotiation_declined in E. subst s1.
    destruct (conversation_state s) eqn:Est.
    + unfold handle_collect_phone, next_phone_prompt. cbv zeta.
      destruct (String.eqb (digits_of message) "");
        [repeat break_if; same_phone s H|].
      destruct (String.length (digits_of message) <? 10)%nat eqn:Elen;
        [same_phone s H|].
      destruct (last10_of_digits message Elen) as [Hlen Hdig].
      repeat break_if; try (same_phone s H; fail);
        intros p Ep; cbn in Ep; inversion Ep; subst p; split; assumption.
    + unfold handle_collect_loan. cbv zeta.
      destruct (extract_number message); repeat break_if; same_phone s H.
    + unfold handle_collect_tenure. cbv zeta.
      destruct (parse_tenure message) as [[?|]|?]; repeat break_if; same_phone s H.
    + unfold handle_ask_salary_option. cbv zeta.
      repeat break_if; try (same_phone s H; fail).
      apply run_master_pipeline_keeps_phone_form. same_phone s H.
    + unfold handle_collect_salary. cbv zeta.
      destruct (extract_number message); repeat break_if;
        try (same_phone s H; fail).
      apply run_master_pipeline_keeps_phone_form. same_phone s H.
    + now apply run_master_pipeline_keeps_phone_form.
    + same_phone s H.
Qed.

End PhoneOnFile.

(** X22.  In every reachable session the phone on file is a string of
    exactly ten decimal digits: utterances with fewer than ten digits are
    never stored, and all other characters are dropped. *)
Theorem reachable_phone_is_ten_digits :
  forall (db : list Customer) (s : Session) (p : string),
    reachable db s ->
    d_customer_phone (collected_data s) = Some p ->
    String.length p = 10%nat /\ all_digits p = true.
Proof.
  intros db s p Hs. revert p.
  induction Hs as [s0|s message Hs IH].
  - intros p E. discriminate E.
  - exact (handle_user_message_keeps_phone_form db message s IH).
Qed.

Lemma reachable_phone_is_ten_digits_witness :
  String.length "9876543210" = 10%nat /\ all_digits "9876543210" = true.
Proof.
  apply (reachable_phone_is_ten_digits
           sample_db
           (session_after sample_db ["call me on +91 98765-43210"]%string)
           "9876543210").
  - apply session_after_reachable.
  - reflexivity.
Defined.

(** ** A whole conversation *)

(** X29.  A conversation that gives a known phone, a loan amount of at
    least 10,000, a tenure of 6 to 84 months and then declines to state a
    salary is decided in these four turns at the default rate of 12.0:
    a credit score below 700 or a loan above twice the pre-approved limit
    ends in REJECT, a loan within the limit ends in APPROVED with the EMI
    of the amount and tenure given, and a loan between the limit and
    twice the limit is left in COLLECT_SALARY with status REQUIRE_SALARY. *)
Theorem four_turn_conversation_is_decided :
  forall (db : list Customer) (cust : Customer)
         (m_phone m_loan m_tenure m_no : string) (la : Q) (n : Z),
    str_in (lower (strip m_phone)) RESTART_WORDS = false ->
    str_in (lower (strip m_loan)) RESTART_WORDS = false ->
    str_in (lower (strip m_tenure)) RESTART_WORDS = false ->
    str_in (lower (strip m_no)) RESTART_WORDS = false ->
    wants_lower_rate m_loan = false ->
    wants_lower_rate m_tenure = false ->
    wants_amount_adjustment m_tenure = false ->
    wants_lower_rate m_no = false ->
    wants_amount_adjustment m_no = false ->
    (10 <= String.length (digits_of m_phone))%nat ->
    crm_get_customer_by_phone db (last10 (digits_of m_phone)) = Some cust ->
    extract_number m_loan = Some la ->
    10000 <= la ->
    parse_tenure m_tenure = Ok (Some n) ->
    (6 <= n <= 84)%Z ->
    is_positive_response m_no = false ->
    is_negative_response m_no = true ->
    let s := session_after db [m_phone; m_loan; m_tenure; m_no] in
    let score := get_default (cust_credit_score cust) 0%Z in
    let limit := get_default (cust_pre_approved_limit cust) 0%Z in
    exists emi,
      compute_emi la 12 n = Ok emi
      /\ collected_data s
         = mkData (Some 12) (Some cust) (Some (last10 (digits_of m_phone)))
                  (Some (cust_name cust)) (Some la) (Some n) None
      /\ ((score < 700)%Z ->
          conversation_state s = DONE
          /\ latest_status s = Some STATUS_REJECT)
      /\ ((700 <= score)%Z -> la <= inject_Z limit ->
          conversation_state s = DONE
          /\ latest_status s = Some APPROVED
          /\ latest_payload s
             = Some (mkPayload None None (Some emi)
                       (Some (OUTPUT_DIR ++ "/" ++ "sanction_"
                                ++ last10 (digits_of m_phone) ++ ".pdf")%string)))
      /\ ((700 <= score)%Z -> inject_Z limit < la ->
          la <= inject_Z (2 * limit) ->
          conversation_state s = COLLECT_SALARY
          /\ latest_status s = Some STATUS_REQUIRE_SALARY
          /\ exists payload,
              latest_payload s = Some payload /\ pl_emi payload = Some emi)
      /\ ((700 <= score)%Z -> inject_Z (2 * limit) < la ->
          inject_Z limit < la ->
          conversation_state s = DONE
          /\ latest_status s = Some STATUS_REJECT).
Proof.
  intros db cust m_phone m_loan m_tenure m_no la n
         Hre1 Hre2 Hre3 Hre4 Hr2 Hr3 Ha3 Hr4 Ha4 Hlen Hcrm Hnum Hmin
         Hten Hbounds Hpos Hneg s score limit.
  assert (Hlen' : (String.length (digits_of m_phone) <? 10)%nat = false)
    by (apply Nat.ltb_ge; exact Hlen).
  destruct (last10_of_digits m_phone Hlen') as [Hten_digits _].
  assert (Hne : String.eqb (digits_of m_phone) "" = false).
  { apply String.eqb_neq. intro E. rewrite E in Hlen. cbn in Hlen. lia. }
  remember (last10 (digits_of m_phone)) as phone eqn:Ephone.
  assert (Htr : String.eqb phone "" = false).
  { apply String.eqb_neq. intro E. rewrite E in Hten_digits. discriminate. }
  assert (Hla0 : Qeqb la 0 = false) by (apply Qeqb_false; lra).
  assert (Hlamin : Qltb la MIN_LOAN = false)
    by (apply Qltb_false; exact Hmin).
  assert (Hnb : ((n <? MIN_TENURE)%Z || (MAX_TENURE <? n)%Z) = false).
  { unfold MIN_TENURE, MAX_TENURE. apply orb_false_iff.
    split; apply Z.ltb_ge; lia. }
  destruct (compute_emi_annuity la 12 n ltac:(lra) ltac:(lia))
    as (emi & He & _).
  exists emi. split; [exact He|].
  (* first turn: the phone *)
  assert (T1 : exists h,
             fst (handle_user_message db m_phone
                    (reset_conversation
                       (mkSession [] COLLECT_PHONE
                          (mkData None None None None None None None)
                          None None 0)))
             = mkSession h COLLECT_LOAN
                 (mkData (Some DEFAULT_RATE) (Some cust) (Some phone)
                         (Some (cust_name cust)) None None None)
                 None None 0).
  { unfold handle_user_message. rewrite Hre1.
    unfold reset_conversation, try_handle_negotiation.
    cbn [collected_data d_customer_phone truthy_str negb conversation_state].
    unfold handle_collect_phone. cbv zeta. rewrite Hne, Hlen', <- Ephone.
    unfold task_verify. rewrite Hcrm.
    cbn [verified negb ver_name ver_address fst]. eexists. reflexivity. }
  (* second turn: the loan amount *)
  assert (T2 : forall h, exists h',
             fst (handle_user_message db m_loan
                    (mkSession h COLLECT_LOAN
                       (mkData (Some DEFAULT_RATE) (Some cust) (Some phone)
                               (Some (cust_name cust)) None None None)
                       None None 0))
             = mkSession h' COLLECT_TENURE
                 (mkData (Some DEFAULT_RATE) (Some cust) (Some phone)
                         (Some (cust_name cust)) (Some la) None None)
                 None None 0).
  { intro h. unfold handle_user_message. rewrite Hre2.
    unfold try_handle_negotiation.
    cbn [collected_data d_customer_phone d_loan_amount truthy_str
         truthy_num negb conversation_state andb].
    rewrite Htr, Hr2. cbn [negb andb].
    unfold handle_collect_loan. cbv zeta. rewrite Hnum, Hlamin.
    break_if; eexists; reflexivity. }
  (* third turn: the tenure *)
  assert (T3 : forall h, exists h',
             fst (handle_user_message db m_tenure
                    (mkSession h COLLECT_TENURE
                       (mkData (Some DEFAULT_RATE) (Some cust) (Some phone)
                               (Some (cust_name cust)) (Some la) None None)
                       None None 0))
             = mkSession h' ASK_SALARY_OPTION
                 (mkData (Some DEFAULT_RATE) (Some cust) (Some phone)
                         (Some (cust_name cust)) (Some la) (Some n) None)
                 None None 0).
  { intro h. unfold handle_user_message. rewrite Hre3.
    unfold try_handle_negotiation.
    cbn [collected_data d_customer_phone d_loan_amount truthy_str
         truthy_num negb conversation_state].
    rewrite Htr, Hr3, Ha3, Hla0. cbn [negb andb].
    unfold handle_collect_tenure. rewrite Hten, Hnb.
    eexists. reflexivity. }
  unfold s, session_after. cbn [fold_left].
  destruct T1 as [h1 ->]. destruct (T2 h1) as [h2 ->].
  destruct (T3 h2) as [h3 ->].
  (* fourth turn: no salary, the pipeline runs *)
  unfold handle_user_message. rewrite Hre4.
  unfold try_handle_negotiation.
  cbn [collected_data d_customer_phone d_loan_amount truthy_str
       truthy_num negb conversation_state].
  rewrite Htr, Hr4, Ha4, Hla0. cbn [negb andb].
  unfold handle_ask_salary_option. rewrite Hpos, Hneg. cbv zeta.
  unfold run_master_pipeline.
  cbn [collected_data set_conversation_state add_assistant_message
       set_chat_history d_customer_phone d_loan_amount d_tenure_months
       d_annual_rate_pct d_monthly_salary d_customer_profile get_default
       conversation_state latest_status latest_payload phone_retry_count
       chat_history].
  unfold master_orchestrate, task_verify, credit_bureau_get_score,
    offer_mart_get_preapproved_limit.
  cbn [ctx_customer_phone getitem bind]. rewrite Hcrm.
  cbn [verified negb ver_name]. fold score limit.
  unfold task_underwrite, evaluate_application.
  cbn [set_pre_approved_limit set_credit_score set_customer_name
       ctx_customer_phone ctx_customer_name ctx_loan_amount
       ctx_tenure_months ctx_annual_rate_pct ctx_monthly_salary
       ctx_credit_score ctx_pre_approved_limit ctx_emi getitem bind
       get_default].
  change (compute_emi la DEFAULT_RATE n) with (compute_emi la 12 n).
  rewrite He.
  replace (Qleb 0 0) with true by reflexivity.
  destruct (score <? 700)%Z eqn:Es;
    [apply Z.ltb_lt in Es|apply Z.ltb_ge in Es].
  - cbn -[Z.mul]. split; [reflexivity|].
    repeat split; intros; try lia; reflexivity.
  - destruct (Qleb la (inject_Z limit)) eqn:E1;
      [apply Qleb_true in E1|apply Qleb_false in E1].
    + unfold task_sanction_pdf. cbn -[Z.mul]. split; [reflexivity|].
      repeat split; intros; try lia; try lra; try reflexivity.
    + destruct (Qleb la (inject_Z (2 * limit))) eqn:E2;
        [apply Qleb_true in E2|apply Qleb_false in E2].
      * cbn -[Z.mul]. split; [reflexivity|].
        repeat split; intros; try lia; try lra; try reflexivity.
        eexists. split; reflexivity.
      * cbn -[Z.mul]. split; [reflexivity|].
        repeat split; intros; try lia; try lra; reflexivity.
Qed.

Lemma four_turn_conversation_is_decided_witness :
  conversation_state
    (session_after sample_db ["9876543210"; "4,00,000"; "3 years"; "no"]%string)
  = DONE
  /\ latest_status
       (session_after sample_db
          ["9876543210"; "4,00,000"; "3 years"; "no"]%string)
     = Some APPROVED.
Proof.
  destruct (four_turn_conversation_is_decided
              sample_db sample_customer
              "9876543210" "4,00,000" "3 years" "no" 400000 36%Z
              ltac:(reflexivity) ltac:(reflexivity) ltac:(reflexivity)
              ltac:(reflexivity) ltac:(reflexivity) ltac:(reflexivity)
              ltac:(reflexivity) ltac:(reflexivity) ltac:(reflexivity)
              ltac:(vm_compute; lia) ltac:(reflexivity) ltac:(reflexivity)
              ltac:(vm_compute; discriminate) ltac:(reflexivity)
              ltac:(lia) ltac:(reflexivity) ltac:(reflexivity))
    as (emi & _ & _ & _ & Happroved & _).
  destruct Happroved as (Hst & Hstatus & _).
  - vm_compute. discriminate.
  - vm_compute. discriminate.
  - split; [exact Hst|exact Hstatus].
Defined.

(** ** Amounts as they are displayed *)

(** The digits written for [n] have the value [n] and are decimal digits. *)
Lemma value_of_decimal_digits (fuel : nat) :
  forall n acc,
    (0 <= n < 10 ^ Z.of_nat fuel)%Z ->
    value_of 0%Z (decimal_digits fuel n acc) = value_of n acc.
Proof.
  induction fuel as [|fuel IH]; intros n acc Hn.
  - cbn in *. replace n with 0%Z by lia. reflexivity.
  - cbn [decimal_digits]. destruct (n <? 10)%Z eqn:E.
    + cbn [value_of]. reflexivity.
    + apply Z.ltb_ge in E. rewrite IH.
      * cbn [value_of]. f_equal. pose proof (Z.div_mod n 10). lia.
      * rewrite Nat2Z.inj_succ, Z.pow_succ_r in Hn by lia.
        split; [apply Z.div_pos; lia|].
        apply Z.div_lt_upper_bound; lia.
Qed.

Lemma decimal_fuel_enough (n : Z) :
  (0 <= n)%Z -> (0 <= n < 10 ^ Z.of_nat (S (Z.to_nat (Z.log2 n))))%Z.
Proof.
  intro Hn. split; [exact Hn|].
  rewrite Nat2Z.inj_succ, Z2Nat.id by apply Z.log2_nonneg.
  destruct (Z.eq_dec n 0) as [->|Hz]; [cbn; lia|].
  pose proof (Z.log2_spec n ltac:(lia)) as [_ Hlt].
  eapply Z.lt_le_trans; [exact Hlt|].
  assert (H0 : (0 <= Z.succ (Z.log2 n))%Z)
    by (pose proof (Z.log2_nonneg n); lia).
  apply Z.pow_le_mono_l. lia.
Qed.

Lemma decimal_digits_in_range (fuel : nat) :
  forall n acc,
    (0 <= n)%Z -> (n < 10 ^ Z.of_nat fuel)%Z -> digits_in_range acc ->
    digits_in_range (decimal_digits fuel n acc).
Proof.
  induction fuel as [|fuel IH]; intros n acc Hn Hlt Hacc.
  - exact Hacc.
  - cbn [decimal_digits]. destruct (n <? 10)%Z eqn:E.
    + apply Z.ltb_lt in E. constructor; [lia|exact Hacc].
    + apply Z.ltb_ge in E.
      rewrite Nat2Z.inj_succ, Z.pow_succ_r in Hlt by lia.
      apply IH.
      * apply Z.div_pos; lia.
      * apply Z.div_lt_upper_bound; lia.
      * constructor; [|exact Hacc].
        pose proof (Z.mod_pos_bound n 10 ltac:(lia)). lia.
Qed.

Lemma decimal_digits_nonempty (fuel : nat) (n : Z) (acc : list Z) :
  decimal_digits (S fuel) n acc <> [].
Proof.
  revert n acc. induction fuel as [|fuel IH]; intros n acc; cbn.
  - destruct (n <? 10)%Z; discriminate.
  - destruct (n <? 10)%Z; [discriminate|]. apply IH.
Qed.

Lemma digit_char_spec (d : Z) :
  (0 <= d <= 9)%Z ->
  is_digit (digit_char d) = true
  /\ digit_val (digit_char d) = d
  /\ Ascii.eqb (digit_char d) ","%char = false.
Proof.
  intro H.
  assert (Hd : (d = 0 \/ d = 1 \/ d = 2 \/ d = 3 \/ d = 4 \/ d = 5 \/ d = 6
               \/ d = 7 \/ d = 8 \/ d = 9)%Z) by lia.
  repeat (destruct Hd as [Hd|Hd]; [subst d; repeat split; reflexivity|]).
  subst d. repeat split; reflexivity.
Qed.

(** The grouped rendering is one match of the number pattern; without
    its commas it is the plain rendering, which parses to the value of
    the digits. *)
Lemma take_while_render_grouped (ds : list Z) :
  digits_in_range ds ->
  take_while is_num_char (render_grouped ds) = render_grouped ds.
Proof.
  induction 1 as [|d t Hd Ht IH]; [reflexivity|].
  destruct (digit_char_spec d Hd) as (Hdig & _ & _).
  cbn [render_grouped take_while]. unfold is_num_char at 1. rewrite Hdig.
  cbn [orb]. f_equal.
  destruct ((0 <? List.length t)%nat && (List.length t mod 3 =? 0)%nat).
  - cbn [take_while]. replace (is_num_char ","%char) with true by reflexivity.
    f_equal. exact IH.
  - exact IH.
Qed.

Lemma first_number_match_render_grouped (ds : list Z) :
  digits_in_range ds -> ds <> [] ->
  first_number_match (render_grouped ds) = Some (render_grouped ds).
Proof.
  intros H Hne. destruct H as [|d t Hd Ht]; [congruence|].
  destruct (digit_char_spec d Hd) as (Hdig & _ & _).
  cbn [render_grouped first_number_match]. rewrite Hdig. do 2 f_equal.
  destruct ((0 <? List.length t)%nat && (List.length t mod 3 =? 0)%nat).
  - cbn [take_while]. replace (is_num_char ","%char) with true by reflexivity.
    f_equal. apply take_while_render_grouped, Ht.
  - apply take_while_render_grouped, Ht.
Qed.

Lemma filter_render_grouped (ds : list Z) :
  digits_in_range ds ->
  filter_string (fun c => negb (Ascii.eqb c ","%char)) (render_grouped ds)
  = render_plain ds.
Proof.
  induction 1 as [|d t Hd Ht IH]; [reflexivity|].
  destruct (digit_char_spec d Hd) as (_ & _ & Hc).
  cbn [render_grouped filter_string render_plain]. rewrite Hc. cbn [negb].
  f_equal.
  destruct ((0 <? List.length t)%nat && (List.length t mod 3 =? 0)%nat).
  - cbn [filter_string]. rewrite Ascii.eqb_refl. cbn [negb]. exact IH.
  - exact IH.
Qed.

Lemma read_digits_render_plain (ds : list Z) :
  digits_in_range ds ->
  forall acc k,
    read_digits acc k (render_plain ds)
    = (value_of acc ds, (k + List.length ds)%nat, EmptyString).
Proof.
  induction 1 as [|d t Hd Ht IH]; intros acc k.
  - cbn. rewrite Nat.add_0_r. reflexivity.
  - destruct (digit_char_spec d Hd) as (Hdig & Hval & _).
    cbn [render_plain read_digits value_of List.length].
    rewrite Hdig, Hval, IH, Nat.add_succ_r. reflexivity.
Qed.

Lemma parse_float_render_plain (ds : list Z) :
  digits_in_range ds ->
  parse_float (render_plain ds) = Some (inject_Z (value_of 0 ds)).
Proof.
  intro H. unfold parse_float. rewrite (read_digits_render_plain ds H).
  reflexivity.
Qed.

Lemma extract_number_render_grouped (pre : string) (ds : list Z) :
  digits_in_range ds -> ds <> [] ->
  first_number_match pre = None ->
  extract_number (pre ++ render_grouped ds)
  = Some (inject_Z (value_of 0 ds)).
Proof.
  intros H Hne Hpre. unfold extract_number.
  assert (E : first_number_match (pre ++ render_grouped ds)
              = Some (render_grouped ds)).
  { induction pre as [|c pre IH].
    - apply first_number_match_render_grouped; assumption.
    - cbn [append first_number_match] in *.
      destruct (is_digit c); [discriminate|]. apply IH, Hpre. }
  rewrite E, filter_render_grouped by exact H.
  apply parse_float_render_plain, H.
Qed.

(** [round] of an integer, and of a magnitude. *)
Lemma py_round_inject_Z (a : Z) : py_round (inject_Z a) = a.
Proof.
  unfold py_round. rewrite Qfloor_Z.
  replace (Qltb (inject_Z a - inject_Z a) (1 # 2)) with true; [reflexivity|].
  symmetry. apply Qltb_true. lra.
Qed.

Lemma py_round_nonneg (x : Q) : 0 <= x -> (0 <= py_round x)%Z.
Proof.
  intro H. unfold py_round.
  assert (Hf : (0 <= Qfloor x)%Z).
  { change 0%Z with (Qfloor 0). apply Qfloor_resp_le. exact H. }
  repeat break_if; lia.
Qed.

(** The grouped digits of a finite float read back as its rounded
    magnitude. *)
Lemma format_grouped_reads_back (negative : bool) (magnitude : Q) :
  extract_number (rupee ++ format_grouped (Finite negative magnitude))
  = Some (inject_Z (py_round (Qabs magnitude))).
Proof.
  unfold format_grouped.
  set (n := py_round (Qabs magnitude)).
  assert (Hn : (0 <= n)%Z) by (apply py_round_nonneg, Qabs_nonneg).
  pose proof (decimal_fuel_enough n Hn) as Hf.
  set (ds := decimal_digits (S (Z.to_nat (Z.log2 n))) n []).
  assert (Hr : digits_in_range ds).
  { apply decimal_digits_in_range; [exact Hn|apply Hf|constructor]. }
  assert (Hne : ds <> []) by apply decimal_digits_nonempty.
  assert (Hv : value_of 0 ds = n).
  { unfold ds. rewrite value_of_decimal_digits by exact Hf. reflexivity. }
  rewrite <- Hv.
  destruct negative.
  - apply (extract_number_render_grouped (rupee ++ "-") ds Hr Hne).
    reflexivity.
  - apply (extract_number_render_grouped rupee ds Hr Hne). reflexivity.
Qed.

(** X25.  A finite amount as [format_currency] displays it reads back
    with [extract_number]: the rupee sign, a minus sign and the thousands
    separators are skipped, and the number read is the magnitude of the
    float rounded to the nearest integer, ties to even; for an [int] of
    magnitude up to 2^53 it is the magnitude of the integer itself, while
    a larger [int] is displayed as its nearest double (2^53 + 1 as 2^53,
    2^53 + 3 as 2^53 + 4).  An infinite amount or a NaN is displayed
    without a digit and reads back as no number, and an [int] with no
    finite double makes [format_currency] raise OverflowError. *)
Theorem format_currency_reads_back :
  (forall negative magnitude,
     exists text,
       format_currency (Some (PyFloat (Finite negative magnitude))) = Ok text
       /\ extract_number text
          = Some (inject_Z (py_round (Qabs magnitude))))
  /\ (forall n,
        (Z.abs n <= 2 ^ 53)%Z ->
        exists text,
          format_currency (Some (PyInt n)) = Ok text
          /\ extract_number text = Some (inject_Z (Z.abs n)))
  /\ (forall negative,
        exists text,
          format_currency (Some (PyFloat (Infinite negative))) = Ok text
          /\ extract_number text = None)
  /\ (exists text,
        format_currency (Some (PyFloat NotANumber)) = Ok text
        /\ extract_number text = None)
  /\ (forall n,
        FLOAT_OVERFLOW <= inject_Z (Z.abs n) ->
        format_currency (Some (PyInt n)) = Raise OverflowError)
  /\ format_currency (Some (PyInt (2 ^ 53 + 1)))
     = format_currency (Some (PyInt (2 ^ 53)))
  /\ format_currency (Some (PyInt (2 ^ 53 + 3)))
     = format_currency (Some (PyInt (2 ^ 53 + 4))).
Proof.
  split; [|split; [|split; [|split; [|split; [|split]]]]].
  - intros negative magnitude. eexists. split; [reflexivity|].
    apply format_grouped_reads_back.
  - intros n Hn.
    assert (Hfin : is_inf (inject_Z (Z.abs n)) = false).
    { unfold is_inf. apply Qleb_false. unfold FLOAT_OVERFLOW.
      rewrite <- Zlt_Qlt.
      apply Z.le_lt_trans with (m := (2 ^ 53)%Z); [exact Hn|].
      vm_compute. reflexivity. }
    assert (Hround : round_to_double (Z.abs n) = Z.abs n).
    { unfold round_to_double.
      destruct (Z.abs n <? 2 ^ 53)%Z eqn:E; [reflexivity|].
      apply Z.ltb_ge in E.
      replace (Z.abs n) with (2 ^ 53)%Z by lia. vm_compute. reflexivity. }
    unfold format_currency, float_of_big_int. rewrite Hfin, Hround.
    cbn [bind]. eexists. split; [reflexivity|].
    rewrite format_grouped_reads_back.
    change (Qabs (inject_Z (Z.abs n)))
      with (inject_Z (Z.abs (Z.abs n))).
    rewrite Z.abs_idemp.
    rewrite py_round_inject_Z. reflexivity.
  - intros [|]; eexists; (split; [reflexivity|]); vm_compute; reflexivity.
  - eexists. split; [reflexivity|]. vm_compute. reflexivity.
  - intros n Hn. unfold format_currency, float_of_big_int.
    replace (is_inf (inject_Z (Z.abs n))) with true; [reflexivity|].
    symmetry. apply Qleb_true. exact Hn.
  - vm_compute. reflexivity.
  - vm_compute. reflexivity.
Qed.

Lemma format_currency_reads_back_witness :
  exists text,
    format_currency (Some (PyInt 500000)) = Ok text
    /\ extract_number text = Some (inject_Z (Z.abs 500000)).
Proof.
  apply (proj1 (proj2 format_currency_reads_back) 500000%Z).
  vm_compute. discriminate.
Defined.

(** The rendering on some amounts: grouping in threes, ties to even, the
    sign, an [int] above 2^53 and an infinity. *)
Example format_currency_examples :
  format_currency (Some (PyInt 1234567)) = Ok (rupee ++ "1,234,567")%string
  /\ format_currency (Some (PyFloat (Finite false (25 # 10))))
     = Ok (rupee ++ "2")%string
  /\ format_currency (Some (PyFloat (Finite true (12345 # 10))))
     = Ok (rupee ++ "-1,234")%string
  /\ format_currency (Some (PyFloat (Finite true 0)))
     = Ok (rupee ++ "-0")%string
  /\ format_currency (Some (PyInt 999)) = Ok (rupee ++ "999")%string
  /\ format_currency (Some (PyInt 1000)) = Ok (rupee ++ "1,000")%string
  /\ format_currency (Some (PyInt (2 ^ 53 + 1)))
     = Ok (rupee ++ "9,007,199,254,740,992")%string
  /\ format_currency (Some (PyInt (2 ^ 53 + 3)))
     = Ok (rupee ++ "9,007,199,254,740,996")%string
  /\ format_currency (Some (PyFloat (Infinite false)))
     = Ok (rupee ++ "inf")%string.
Proof. repeat split; vm_compute; reflexivity. Qed.
